(** * DelTran gateway: a shallow embedding of the payment rail's core

    The development follows the Python sources of the gateway:

    - [shared/utils/uuidv7.py]            (module [Uuidv7])
    - [gateway/api/settlement.py]         (module [Settlement])
    - [gateway/api/risk.py]               (module [Risk])
    - [gateway/middleware/idempotency.py] (module [Idempotency])
    - [gateway/api/payments.py]           (module [Payments])
    - [gateway/api/liquidity.py]          (module [Liquidity])

    Conventions.  Python integers are [Z].  Python floats are idealised as
    exact rationals [Q]; equalities between amounts are therefore stated with
    [Qeq] ([==]).  A Python [dict] whose iteration order is observable is an
    association list in insertion order; the Redis key space is a finite map.
    Exceptions are values of [Py.exn] carried by the [Py.result] monad. *)

From Stdlib Require Import ZArith QArith Qabs List String Ascii Bool Lia
  Permutation.
From stdpp Require base strings gmap.
Import ListNotations.

Local Open Scope string_scope.

(* ------------------------------------------------------------------------- *)
(** ** Python runtime: exceptions and results *)

Module Py.

(** [shared/utils/errors.py], [ErrorCode] (the members the gateway raises or
    maps in the handlers modelled below). *)
Inductive ErrorCode : Type :=
| INTERNAL_ERROR
| VALIDATION_ERROR
| NOT_FOUND
| CONFLICT
| PAYMENT_EXPIRED
| PAYMENT_CANCELLED
| DUPLICATE_PAYMENT
| SETTLEMENT_FAILED
| BATCH_CLOSED
| LIQUIDITY_UNAVAILABLE
| RISK_THRESHOLD_EXCEEDED
| RISK_ASSESSMENT_FAILED
| EXTERNAL_SERVICE_ERROR
| TIMEOUT_ERROR.

(** [ERROR_STATUS_MAPPING] read through [get_http_status]. *)
Definition get_http_status (error_code : ErrorCode) : Z :=
  match error_code with
  | VALIDATION_ERROR => 400
  | NOT_FOUND => 404
  | CONFLICT => 409
  | PAYMENT_EXPIRED => 410
  | PAYMENT_CANCELLED => 409
  | DUPLICATE_PAYMENT => 409
  | SETTLEMENT_FAILED => 500
  | BATCH_CLOSED => 409
  | LIQUIDITY_UNAVAILABLE => 503
  | RISK_THRESHOLD_EXCEEDED => 403
  | RISK_ASSESSMENT_FAILED => 500
  | EXTERNAL_SERVICE_ERROR => 502
  | TIMEOUT_ERROR => 504
  | INTERNAL_ERROR => 500
  end.

(** The exceptions that travel through the modelled handlers. *)
Inductive exn : Type :=
| ValueError
| NameError (name : string)
| UniqueViolationError (column : string)
| ConnectionError
| HTTPException (status_code : Z) (detail : string)
| DeltranError (code : ErrorCode) (message : string) (field : option string).

Inductive result (A : Type) : Type :=
| Return (a : A)
| Raise (e : exn).
Arguments Return {A} a.
Arguments Raise {A} e.

Definition bind {A B : Type} (r : result A) (k : A -> result B) : result B :=
  match r with
  | Return a => k a
  | Raise e => Raise e
  end.

(** Handlers run in a state-and-exception monad over a world [W] of
    collaborators: what was written before an exception stays written. *)
Definition M (W A : Type) : Type := W -> result A * W.

Definition ret {W A : Type} (a : A) : M W A := fun w => (Return a, w).

Definition raise {W A : Type} (e : exn) : M W A := fun w => (Raise e, w).

Definition lift {W A : Type} (r : result A) : M W A := fun w => (r, w).

Definition bindM {W A B : Type} (m : M W A) (k : A -> M W B) : M W B :=
  fun w =>
    match m w with
    | (Return a, w') => k a w'
    | (Raise e, w') => (Raise e, w')
    end.

(** [try: body / except <pass_through>: raise / except Exception: handler] *)
Definition try_except {W A : Type} (body : M W A) (pass_through : exn -> bool)
  (handler : exn -> M W A) : M W A :=
  fun w =>
    match body w with
    | (Return a, w') => (Return a, w')
    | (Raise e, w') => if pass_through e then (Raise e, w') else handler e w'
    end.

(** An HTTP response as the exception handlers of [gateway/main.py] build it:
    status code and the [error.code] tag of the envelope ([None] on success). *)
Record Response : Type := mkResponse {
  status_code : Z;
  error_code : option string
}.

Definition ErrorCode_value (c : ErrorCode) : string :=
  match c with
  | INTERNAL_ERROR => "INTERNAL_ERROR"
  | VALIDATION_ERROR => "VALIDATION_ERROR"
  | NOT_FOUND => "NOT_FOUND"
  | CONFLICT => "CONFLICT"
  | PAYMENT_EXPIRED => "PAYMENT_EXPIRED"
  | PAYMENT_CANCELLED => "PAYMENT_CANCELLED"
  | DUPLICATE_PAYMENT => "DUPLICATE_PAYMENT"
  | SETTLEMENT_FAILED => "SETTLEMENT_FAILED"
  | BATCH_CLOSED => "BATCH_CLOSED"
  | LIQUIDITY_UNAVAILABLE => "LIQUIDITY_UNAVAILABLE"
  | RISK_THRESHOLD_EXCEEDED => "RISK_THRESHOLD_EXCEEDED"
  | RISK_ASSESSMENT_FAILED => "RISK_ASSESSMENT_FAILED"
  | EXTERNAL_SERVICE_ERROR => "EXTERNAL_SERVICE_ERROR"
  | TIMEOUT_ERROR => "TIMEOUT_ERROR"
  end.

(** [deltran_error_handler], [http_exception_handler] and
    [general_exception_handler] of [gateway/main.py]. *)
Definition exception_handler (e : exn) : Response :=
  match e with
  | DeltranError code _ _ =>
      mkResponse (get_http_status code) (Some (ErrorCode_value code))
  | HTTPException status _ => mkResponse status (Some "HTTP_ERROR")
  | _ => mkResponse 500 (Some "INTERNAL_ERROR")
  end.

(** The HTTP response FastAPI sends for the outcome of a handler. *)
Definition http_response {A : Type} (r : result A) : Response :=
  match r with
  | Return _ => mkResponse 200 None
  | Raise e => exception_handler e
  end.

(** Float comparisons, on the rational idealisation. *)
Definition Qgtb (x y : Q) : bool := negb (Qle_bool x y).
Definition Qltb (x y : Q) : bool := negb (Qle_bool y x).
Definition Qgeb (x y : Q) : bool := Qle_bool y x.

End Py.

Declare Scope handler_scope.
Delimit Scope handler_scope with handler.
Notation "'let*' x ':=' c1 'in' c2" := (Py.bindM c1 (fun x => c2))
  (at level 10, x name, c1 at level 100, c2 at level 200) : handler_scope.
Notation "c1 ';;' c2" := (Py.bindM c1 (fun _ => c2))
  (at level 100, c2 at level 200, right associativity) : handler_scope.

(* ------------------------------------------------------------------------- *)
(** ** [gateway/api/settlement.py]: multilateral netting *)

Module Settlement.

(** A row of the batch query: the columns [_calculate_net_positions] reads. *)
Record Txn : Type := mkTxn {
  debtor_account : string;
  creditor_account : string;
  currency : string;
  amount : Q
}.

Inductive Instruction : Type := PAY | RECEIVE.

(** A value of the [positions] dict.  The key ["settlement_instruction"] is
    absent until the emitting loop sets it. *)
Record Position : Type := mkPosition {
  account : string;
  position_currency : string;
  position_amount : Q;
  settlement_instruction : option Instruction
}.

(** [positions]: a dict keyed by ["<account>:<currency>"], in insertion
    order (the order [positions.values()] iterates in). *)
Definition Positions : Type := list (string * Position).

(** [f"{account}:{currency}"] *)
Definition key_of (acct cur : string) : string := acct ++ ":" ++ cur.

(** [key in positions] *)
Fixpoint contains (key : string) (positions : Positions) : bool :=
  match positions with
  | [] => false
  | (k, _) :: rest => if String.eqb key k then true else contains key rest
  end.

(** [positions[key]] *)
Fixpoint get (key : string) (positions : Positions) : option Position :=
  match positions with
  | [] => None
  | (k, p) :: rest => if String.eqb key k then Some p else get key rest
  end.

Definition set_amount (p : Position) (a : Q) : Position :=
  mkPosition (account p) (position_currency p) a (settlement_instruction p).

(** [positions[key]["amount"] = f(positions[key]["amount"])]: the record stored
    under [key] is mutated in place, keeping its place in the dict. *)
Fixpoint update_amount (key : string) (f : Q -> Q) (positions : Positions)
  : Positions :=
  match positions with
  | [] => []
  | (k, p) :: rest =>
      if String.eqb key k then (k, set_amount p (f (position_amount p))) :: rest
      else (k, p) :: update_amount key f rest
  end.

(** [if key not in positions: positions[key] = {account, currency, 0.0}] *)
Definition ensure (key acct cur : string) (positions : Positions) : Positions :=
  if contains key positions then positions
  else (positions ++ [(key, mkPosition acct cur 0 None)])%list.

(** One iteration of the [for txn in transactions] loop. *)
Definition step (positions : Positions) (txn : Txn) : Positions :=
  let debtor := debtor_account txn in
  let creditor := creditor_account txn in
  let cur := currency txn in
  let amt := amount txn in
  let key_debtor := key_of debtor cur in
  let key_creditor := key_of creditor cur in
  let positions := ensure key_debtor debtor cur positions in
  let positions := update_amount key_debtor (fun a => a - amt) positions in
  let positions := ensure key_creditor creditor cur positions in
  update_amount key_creditor (fun a => a + amt) positions.

(** The dict after the first loop. *)
Definition accumulate (transactions : list Txn) : Positions :=
  fold_left step transactions [].

(** The rounding tolerance [0.01]. *)
Definition tolerance : Q := 1 # 100.

(** [abs(position["amount"]) > 0.01] *)
Definition significant (a : Q) : bool := Py.Qgtb (Qabs a) tolerance.

(** The second loop: filter, tag with the instruction, take absolute values. *)
Fixpoint emit (values : list Position) : list Position :=
  match values with
  | [] => []
  | position :: rest =>
      if significant (position_amount position) then
        mkPosition (account position) (position_currency position)
          (Qabs (position_amount position))
          (Some (if Py.Qltb (position_amount position) 0 then PAY else RECEIVE))
        :: emit rest
      else emit rest
  end.

Definition _calculate_net_positions (transactions : list Txn) : list Position :=
  emit (map snd (accumulate transactions)).

(** *** Vocabulary of the specification *)






(** Currencies are three-letter codes (the data model; [initiate_payment]
    rejects any other length). *)
Definition well_formed (transactions : list Txn) : Prop :=
  Forall (fun t => String.length (currency t) = 3%nat) transactions.





Definition position_key (p : Position) : string :=
  key_of (account p) (position_currency p).

End Settlement.

(* ------------------------------------------------------------------------- *)
(** ** [shared/utils/uuidv7.py]: time-ordered identifiers *)

Module Uuidv7.
Local Open Scope Z_scope.

(** [uuid.UUID(int=...)] of the standard library: the integer must fit in
    128 bits.  A UUID is represented by its [int]. *)
Definition UUID (int : Z) : Py.result Z :=
  if (0 <=? int) && (int <? Z.shiftl 1 128) then Py.Return int
  else Py.Raise Py.ValueError.

(** The integer [generate_uuidv7] assembles.  The clock reading
    [int(time.time() * 1000)] and the [int] of the two [uuid.uuid4()] draws
    are the inputs. *)
Definition uuid_int (timestamp_ms uuid4_a uuid4_b : Z) : Z :=
  let timestamp_high := Z.land (Z.shiftr timestamp_ms 16) 0xFFFFFFFF in
  let timestamp_low := Z.land timestamp_ms 0xFFFF in
  let random_a := Z.land uuid4_a 0xFFF in
  let random_b := Z.land uuid4_b 0x3FFFFFFFFFFFFFFF in
  Z.lor (Z.lor (Z.lor (Z.lor (Z.lor
    (Z.shiftl timestamp_high 96)
    (Z.shiftl timestamp_low 80))
    (Z.shiftl 7 76))
    (Z.shiftl random_a 64))
    (Z.shiftl 2 62))
    random_b.

Definition generate_uuidv7 (timestamp_ms uuid4_a uuid4_b : Z) : Py.result Z :=
  UUID (uuid_int timestamp_ms uuid4_a uuid4_b).

(** [extract_timestamp_from_uuidv7], before the division by 1000.0. *)
Definition extract_timestamp_ms (uuid_int : Z) : Z :=
  Z.land (Z.shiftr uuid_int 80) 0xFFFFFFFFFFFF.

(** *** Vocabulary of the specification *)

(** Bits [lo .. lo + width - 1] of [x], bit 0 being the least significant. *)
Definition field (x lo width : Z) : Z := Z.land (Z.shiftr x lo) (Z.ones width).

(** The layout the specification words, most significant first:
    48-bit timestamp, 12 random bits, 4-bit version, 62 random bits,
    2-bit variant. *)
Definition spec_layout (id timestamp_ms : Z) : Prop :=
  field id 80 48 = timestamp_ms
  /\ field id 64 4 = 7
  /\ field id 0 2 = 2.

End Uuidv7.

(* ------------------------------------------------------------------------- *)
(** ** [gateway/api/risk.py]: per-transaction risk assessment *)

Module RiskAssessment.

(** A row of [payments]: the columns the assessment reads.  Times are
    seconds since the Unix epoch, UTC. *)
Record Payment : Type := mkPayment {
  transaction_id : string;
  amount : Q;
  currency : string;
  debtor_account : string;
  created_at : Z
}.

(** The dict [_assess_transaction_risk] returns. *)
Record Assessment : Type := mkAssessment {
  risk_score : Q;
  risk_factors : list string;
  recommended_action : string
}.

(** [datetime.utcnow().weekday()]: Monday is 0, Sunday is 6; the epoch fell
    on a Thursday. *)
Definition weekday (now : Z) : Z := ((now / 86400 + 3) mod 7)%Z.

(** The aggregate query of the assessment:
    [SELECT COUNT( * ) ... FROM payments WHERE debtor_account = $1
     AND created_at >= NOW() - INTERVAL '24 hours'].  It yields one row. *)
Definition recent_payments (payments : list Payment) (now : Z) (debtor : string)
  : list Payment :=
  filter (fun p => String.eqb (debtor_account p) debtor
                   && (now - 24 * 3600 <=? created_at p)%Z) payments.

Definition fetch_recent_count (payments : list Payment) (now : Z)
  (debtor : string) : list Z :=
  [ Z.of_nat (List.length (recent_payments payments now debtor)) ].

Definition high_risk_currencies : list string := ["AED"; "INR"; "CNY"].

(** [x in list_of_strings] *)
Definition str_in (x : string) (l : list string) : bool :=
  existsb (String.eqb x) l.

(** [_assess_transaction_risk]: the two locals [risk_factors] and
    [risk_score] are threaded through the four checks. *)
Definition _assess_transaction_risk (payments : list Payment) (now : Z)
  (transaction : Payment) : Assessment :=
  let risk_factors : list string := [] in
  let risk_score : Z := 0%Z in
  let amt := amount transaction in
  let cur := currency transaction in
  let '(risk_factors, risk_score) :=
    if Py.Qgtb amt 100000
    then ((risk_factors ++ ["HIGH_VALUE"])%list, (risk_score + 20)%Z)
    else (risk_factors, risk_score) in
  let '(risk_factors, risk_score) :=
    if str_in cur high_risk_currencies
    then ((risk_factors ++ ["HIGH_RISK_CURRENCY"])%list, (risk_score + 15)%Z)
    else (risk_factors, risk_score) in
  let recent_transactions :=
    fetch_recent_count payments now (debtor_account transaction) in
  let '(risk_factors, risk_score) :=
    if match recent_transactions with
       | [] => false
       | row :: _ => (row >? 10)%Z
       end
    then ((risk_factors ++ ["HIGH_FREQUENCY"])%list, (risk_score + 10)%Z)
    else (risk_factors, risk_score) in
  let '(risk_factors, risk_score) :=
    if (weekday now >=? 5)%Z
    then ((risk_factors ++ ["WEEKEND_TRANSACTION"])%list, (risk_score + 5)%Z)
    else (risk_factors, risk_score) in
  let recommended_action :=
    if (risk_score >=? 40)%Z then "MANUAL_REVIEW"
    else if (risk_score >=? 20)%Z then "ENHANCED_MONITORING"
    else "APPROVE" in
  mkAssessment (inject_Z risk_score) risk_factors recommended_action.

(** *** Vocabulary of the specification *)


Definition is_high_value (p : Payment) : bool := Py.Qgtb (amount p) 100000.

Definition is_high_risk_currency (p : Payment) : bool :=
  String.eqb (currency p) "AED" || String.eqb (currency p) "INR"
  || String.eqb (currency p) "CNY".

(** The debtor has more than 10 payments in the prior 24 hours. *)
Definition is_high_frequency (payments : list Payment) (now : Z) (p : Payment)
  : bool :=
  (10 <? Z.of_nat (List.length (recent_payments payments now (debtor_account p))))%Z.

(** The current UTC day is a Saturday (5) or a Sunday (6). *)
Definition is_weekend (now : Z) : bool :=
  (weekday now =? 5)%Z || (weekday now =? 6)%Z.



End RiskAssessment.

(* ------------------------------------------------------------------------- *)
(** ** [gateway/api/risk.py]: system risk metrics *)

Module RiskMetrics.

Inductive RiskMode : Type := LOW | MEDIUM | HIGH.

(** [RiskMode(value)] *)
Definition RiskMode_of_value (value : string) : Py.result RiskMode :=
  if String.eqb value "Low" then Py.Return LOW
  else if String.eqb value "Medium" then Py.Return MEDIUM
  else if String.eqb value "High" then Py.Return HIGH
  else Py.Raise Py.ValueError.

Record RiskThresholds : Type := mkRiskThresholds {
  spread_threshold : Q;
  depth_threshold : Q;
  deviation_threshold : Q;
  latency_threshold_ms : Z;
  volume_threshold_usd : Q
}.

Definition RISK_THRESHOLDS (mode : RiskMode) : RiskThresholds :=
  match mode with
  | LOW => mkRiskThresholds (1 # 1000) 1000000 (5 # 100) 100%Z 10000000
  | MEDIUM => mkRiskThresholds (5 # 1000) 500000 (10 # 100) 200%Z 5000000
  | HIGH => mkRiskThresholds (1 # 100) 100000 (20 # 100) 500%Z 1000000
  end.

(** The model [RiskMetrics]. *)
Record Metrics : Type := mkMetrics {
  spread : Q;
  depth : Q;
  deviation : Q;
  latency_ms : Z;
  volume_24h_usd : Q;
  risk_score : Q
}.

(** A row of [liquidity_quotes]: the selected columns. *)
Record Quote : Type := mkQuote {
  quote_spread : Q;
  quote_amount : Q;
  quote_latency_ms : Z;
  quote_created_at : Z
}.

(** [... FROM liquidity_quotes WHERE created_at >= NOW() - INTERVAL '1 hour'] *)
Definition fetch_recent_quotes (liquidity_quotes : list Quote) (now : Z)
  : list Quote :=
  filter (fun q => (now - 3600 <=? quote_created_at q)%Z) liquidity_quotes.

(** The builtin [sum]: a left fold from 0. *)
Definition sum (xs : list Q) : Q := fold_left Qplus xs 0.

(** [len(xs)] as a float operand. *)
Definition len (xs : list Q) : Q := inject_Z (Z.of_nat (List.length xs)).

(** [int(x)]: truncation toward zero. *)
Definition int (x : Q) : Z := Z.quot (Qnum x) (Zpos (Qden x)).

(** The cached value under [risk:current_mode], reduced to what the metrics
    read of it: [None] when the dict has no ["current_mode"] entry. *)
Definition ModeData : Type := option string.

Section Metrics.

(** [x ** 0.5] on floats. *)
Variable sqrt : Q -> Q.

(** [_calculate_risk_metrics], from the rows the query returned and the
    result of [redis_client.get("risk:current_mode")]. *)
Definition _calculate_risk_metrics (recent_quotes : list Quote)
  (current_mode_data : option ModeData) : Py.result Metrics :=
  match recent_quotes with
  | [] =>
      Py.Return (mkMetrics (2 # 1000) 1000000 (5 # 100) 80%Z 5000000 25)
  | _ :: _ =>
      let spreads := map quote_spread recent_quotes in
      let latencies := map (fun q => inject_Z (quote_latency_ms q)) recent_quotes in
      let amounts := map quote_amount recent_quotes in
      let avg_spread :=
        match spreads with [] => 2 # 1000 | _ => sum spreads / len spreads end in
      let avg_latency :=
        match latencies with [] => 80 | _ => sum latencies / len latencies end in
      let total_volume := sum amounts in
      let deviation :=
        if (1 <? Z.of_nat (List.length spreads))%Z then
          let mean_spread := avg_spread in
          let variance :=
            sum (map (fun s => (s - mean_spread) ^ 2) spreads) / len spreads in
          if Py.Qgtb mean_spread 0 then sqrt variance / mean_spread else 0
        else 5 # 100 in
      Py.bind
        (match current_mode_data with
         | Some data =>
             RiskMode_of_value
               (match data with Some m => m | None => "Medium" end)
         | None => Py.Return MEDIUM
         end)
        (fun current_mode =>
           let thresholds := RISK_THRESHOLDS current_mode in
           let risk_score : Z := 0%Z in
           let risk_score :=
             if Py.Qgtb avg_spread (spread_threshold thresholds)
             then (risk_score + 25)%Z else risk_score in
           let risk_score :=
             if Py.Qgtb deviation (deviation_threshold thresholds)
             then (risk_score + 25)%Z else risk_score in
           let risk_score :=
             if Py.Qgtb avg_latency (inject_Z (latency_threshold_ms thresholds))
             then (risk_score + 25)%Z else risk_score in
           let risk_score :=
             if Py.Qgtb total_volume (volume_threshold_usd thresholds)
             then (risk_score + 25)%Z else risk_score in
           Py.Return
             (mkMetrics avg_spread total_volume deviation (int avg_latency)
                total_volume (inject_Z risk_score)))
  end.

(** *** Vocabulary of the specification *)

Definition mean (xs : list Q) : Q := sum xs / len xs.

(** Population standard deviation. *)
Definition stddev (xs : list Q) : Q :=
  sqrt (sum (map (fun x => (x - mean xs) ^ 2) xs) / len xs).

End Metrics.

(** The number of thresholds the four readings exceed. *)
Definition breaches (thresholds : RiskThresholds)
  (avg_spread dev avg_latency total_volume : Q) : Z :=
  ((if Py.Qgtb avg_spread (spread_threshold thresholds) then 1 else 0)
   + (if Py.Qgtb dev (deviation_threshold thresholds) then 1 else 0)
   + (if Py.Qgtb avg_latency (inject_Z (latency_threshold_ms thresholds)) then 1 else 0)
   + (if Py.Qgtb total_volume (volume_threshold_usd thresholds) then 1 else 0))%Z.

(** The mode the metrics use for a cached value. *)
Definition mode_of (current_mode_data : option ModeData) (mode : RiskMode) : Prop :=
  match current_mode_data with
  | None => mode = MEDIUM
  | Some None => mode = MEDIUM
  | Some (Some m) => RiskMode_of_value m = Py.Return mode
  end.

(** A stand-in for the float square root: 16 decimal digits, rounded down. *)
Definition sqrt_16 (x : Q) : Q :=
  Z.sqrt (Qnum x * Zpos (Qden x) * 10 ^ 32)%Z # (Qden x * 10 ^ 16)%positive.

End RiskMetrics.

(* ------------------------------------------------------------------------- *)
(** ** [shared/clients/redis_client.py]: the key-value store *)

Module Redis.
Import stdpp.base stdpp.strings stdpp.gmap.

(** A stored value with the instant at which its TTL runs out (seconds since
    the epoch); [None] when the key was set without [expire]. *)
Record Entry (V : Type) : Type := mkEntry {
  value : V;
  expires_at : option Z
}.
Arguments mkEntry {V} value expires_at.
Arguments value {V} e.
Arguments expires_at {V} e.

(** The server: its key space, and whether it answers at all. *)
Record Server (V : Type) : Type := mkServer {
  keys : gmap string (Entry V);
  available : bool
}.
Arguments mkServer {V} keys available.
Arguments keys {V} s.
Arguments available {V} s.

Definition live {V : Type} (now : Z) (e : Entry V) : bool :=
  match expires_at e with
  | Some t => (now <? t)%Z
  | None => true
  end.

(** [redis_client.get(key)]: the deserialised value, [None] on a miss; the
    client re-raises any failure of the server. *)
Definition get {V : Type} (now : Z) (key : string) (s : Server V)
  : Py.result (option V) :=
  if available s then
    Py.Return
      match keys s !! key with
      | Some e => if live now e then Some (value e) else None
      | None => None
      end
  else Py.Raise Py.ConnectionError.

(** [redis_client.set(key, value, expire=ttl)] *)
Definition set {V : Type} (now : Z) (key : string) (v : V) (expire : option Z)
  (s : Server V) : Py.result (Server V) :=
  if available s then
    Py.Return
      (mkServer
         (<[key := mkEntry v (option_map (fun ttl => (now + ttl)%Z) expire)]> (keys s))
         (available s))
  else Py.Raise Py.ConnectionError.

(** [redis_client.delete(key)] *)
Definition delete {V : Type} (key : string) (s : Server V)
  : Py.result (Server V) :=
  if available s then
    Py.Return (mkServer (base.delete key (keys s)) (available s))
  else Py.Raise Py.ConnectionError.

End Redis.

(* ------------------------------------------------------------------------- *)
(** ** [gateway/middleware/idempotency.py] *)

Module Idempotency.

(** *** The standard library's [uuid.UUID(hex)] *)

Fixpoint strip_prefix (pat s : string) : option string :=
  match pat with
  | EmptyString => Some s
  | String c pat' =>
      match s with
      | EmptyString => None
      | String d s' => if Ascii.eqb c d then strip_prefix pat' s' else None
      end
  end.

Fixpoint remove_all (fuel : nat) (pat s : string) : string :=
  match fuel with
  | O => s
  | S fuel' =>
      match strip_prefix pat s with
      | Some rest => remove_all fuel' pat rest
      | None =>
          match s with
          | EmptyString => EmptyString
          | String c s' => String c (remove_all fuel' pat s')
          end
      end
  end.

(** [s.replace(pat, '')] for a non-empty [pat]: every step consumes a
    character, so [length s + 1] steps are enough. *)
Definition str_remove (pat s : string) : string :=
  remove_all (S (String.length s)) pat s.

Definition is_brace (c : ascii) : bool :=
  Ascii.eqb c "{"%char || Ascii.eqb c "}"%char.

Fixpoint lstrip (drop : ascii -> bool) (s : string) : string :=
  match s with
  | EmptyString => EmptyString
  | String c s' => if drop c then lstrip drop s' else s
  end.

Fixpoint rstrip (drop : ascii -> bool) (s : string) : string :=
  match s with
  | EmptyString => EmptyString
  | String c s' =>
      match rstrip drop s' with
      | EmptyString => if drop c then EmptyString else String c EmptyString
      | r => String c r
      end
  end.

(** [s.strip('{}')] *)
Definition strip_braces (s : string) : string :=
  rstrip is_brace (lstrip is_brace s).

Definition is_hex_digit (c : ascii) : bool :=
  let n := nat_of_ascii c in
  ((48 <=? n) && (n <=? 57) || (65 <=? n) && (n <=? 70)
   || (97 <=? n) && (n <=? 102))%nat.

Fixpoint all_hex (s : string) : bool :=
  match s with
  | EmptyString => true
  | String c s' => is_hex_digit c && all_hex s'
  end.

(** Whether [uuid.UUID(hex)] returns rather than raising [ValueError]:
    [hex.replace('urn:', '').replace('uuid:', '')], then
    [.strip('{}').replace('-', '')], then 32 characters are required and
    read by [int(hex, 16)], here taken to accept the strings of hexadecimal
    digits.  Any version and variant is accepted. *)
Definition UUID_accepts (hex : string) : bool :=
  let hex := str_remove "uuid:" (str_remove "urn:" hex) in
  let hex := str_remove "-" (strip_braces hex) in
  (String.length hex =? 32)%nat && all_hex hex.

(** *** Requests, responses, the cache *)

Record Request : Type := mkRequest {
  method : string;
  path : string;
  idempotency_key : option string;   (* request.headers.get("Idempotency-Key") *)
  request_body : string
}.

Inductive Content : Type :=
| ErrorEnvelope (code message : string)    (* {"error": {"code", "message"}} *)
| Json (text : string).

Record Response : Type := mkResponse {
  status_code : Z;
  content : Content;
  headers : list (string * string)
}.

(** [cache_data]; on the way back the fields are read with
    [.get("status_code", 200)], [.get("body")], [.get("headers", {})]. *)
Record CacheData : Type := mkCacheData {
  cached_status_code : option Z;
  cached_headers : option (list (string * string));
  cached_body : Content;
  cached_at : string
}.

(** What the middleware acts on: the key-value store and, for the record, the
    requests handed to the inner application. *)
Record World : Type := mkWorld {
  redis : Redis.Server CacheData;
  handled : list Request
}.

Definition str_in (x : string) (l : list string) : bool :=
  existsb (String.eqb x) l.

Section Dispatch.

(** [uuid.UUID(key)] returns. *)
Variable uuid_accepts : string -> bool.
(** The inner application behind [call_next]. *)
Variable app : Request -> Response.
(** [self.ttl_seconds] *)
Variable ttl_seconds : Z.

Definition call_next (request : Request) (w : World) : Response * World :=
  (app request, mkWorld (redis w) (handled w ++ [request])%list).

(** [IdempotencyMiddleware.dispatch] at time [now]; [stamp] is the string
    assembled from the [generate_uuidv7()] draws for ["cached_at"]. *)
Definition dispatch (now : Z) (stamp : string) (request : Request) (w : World)
  : Response * World :=
  if negb (str_in (method request) ["POST"; "PUT"; "PATCH"]) then
    call_next request w
  else
    match idempotency_key request with
    | None | Some EmptyString =>
        (* not idempotency_key *)
        if String.eqb (method request) "POST" then
          (mkResponse 400
             (ErrorEnvelope "MISSING_IDEMPOTENCY_KEY"
                "Idempotency-Key header is required for POST requests") [],
           w)
        else call_next request w
    | Some key =>
        if negb (uuid_accepts key) then
          (mkResponse 400
             (ErrorEnvelope "INVALID_IDEMPOTENCY_KEY"
                "Idempotency-Key must be a valid UUID") [],
           w)
        else
          let cache_key := "idempotency:" ++ key in
          match Redis.get now cache_key (redis w) with
          | Py.Return (Some response_data) =>
              (mkResponse
                 (match cached_status_code response_data with
                  | Some c => c | None => 200%Z end)
                 (cached_body response_data)
                 (match cached_headers response_data with
                  | Some h => h | None => [] end),
               w)
          | _ =>
              (* a miss, or a failed lookup that is logged and ignored *)
              let '(response, w) := call_next request w in
              if (200 <=? status_code response)%Z
                 && (status_code response <? 300)%Z then
                let cache_data :=
                  mkCacheData (Some (status_code response))
                    (Some (headers response)) (content response) stamp in
                match Redis.set now cache_key cache_data (Some ttl_seconds)
                        (redis w) with
                | Py.Return redis' =>
                    (mkResponse (status_code response) (content response)
                       (headers response),
                     mkWorld redis' (handled w))
                | Py.Raise _ => (response, w)
                end
              else (response, w)
          end
    end.

End Dispatch.

(** *** Vocabulary of the specification *)

Definition nth_char (n : nat) (s : string) : ascii :=
  match String.get n s with Some c => c | None => "000"%char end.

Definition is_hyphen (c : ascii) : bool := Ascii.eqb c "-"%char.

(** A well-formed version-4 UUID string: 8-4-4-4-12 hexadecimal digits, the
    version digit 4 and the variant digit one of 8, 9, a, b. *)
Definition is_uuid4_string (s : string) : bool :=
  (String.length s =? 36)%nat
  && is_hyphen (nth_char 8 s) && is_hyphen (nth_char 13 s)
  && is_hyphen (nth_char 18 s) && is_hyphen (nth_char 23 s)
  && all_hex (str_remove "-" s)
  && (String.length (str_remove "-" s) =? 32)%nat
  && Ascii.eqb (nth_char 14 s) "4"%char
  && str_in (String (nth_char 19 s) EmptyString) ["8"; "9"; "a"; "b"; "A"; "B"].

Definition is_error (code : string) (r : Response) : Prop :=
  status_code r = 400%Z
  /\ exists message, content r = ErrorEnvelope code message.

End Idempotency.

(* ------------------------------------------------------------------------- *)
(** ** [gateway/api/payments.py]: payment initiation *)

Module Payments.

(** [PaymentInitiateRequest] *)
Record PaymentInitiateRequest : Type := mkPaymentInitiateRequest {
  amount : string;
  currency : string;
  debtor_account : string;
  creditor_account : string;
  payment_purpose : string;
  settlement_method : string
}.

Inductive TransactionStatus : Type :=
| INITIATED | VALIDATED | SCREENED | APPROVED | REJECTED
| SETTLED | COMPLETED | FAILED | CANCELLED.

(** [payment_data], the row inserted into [payments].  UUIDs are
    represented by their [int]. *)
Record PaymentRow : Type := mkPaymentRow {
  row_transaction_id : Z;
  row_uetr : Z;
  row_amount : string;
  row_currency : string;
  row_debtor_account : string;
  row_creditor_account : string;
  row_payment_purpose : string;
  row_settlement_method : string;
  row_status : TransactionStatus;
  row_created_at : Z;
  row_trace_id : option string;
  row_idempotency_key : string
}.

(** [CTRResponse] *)
Record CTRResponse : Type := mkCTRResponse {
  transaction_id : Z;
  uetr : Z;
  status : TransactionStatus;
  timestamp : Z;
  message : option string
}.

(** A message on the event bus: subject and the [transaction_id] of its
    payload. *)
Record Event : Type := mkEvent {
  subject : string;
  event_transaction_id : Z
}.

(** The collaborators the handler acts on: the [payments] table, whether the
    database answers, the events published so far, whether the bus is
    connected. *)
Record World : Type := mkWorld {
  payments : list PaymentRow;
  database_available : bool;
  events : list Event;
  bus_connected : bool
}.

Definition M : Type -> Type := Py.M World.

(** [ValidationError(message, field=...)] *)
Definition ValidationError (message field : string) : Py.exn :=
  Py.DeltranError Py.VALIDATION_ERROR message (Some field).

(** [PaymentError(message, code)] *)
Definition PaymentError (message : string) (code : Py.ErrorCode) : Py.exn :=
  Py.DeltranError code message None.

Definition is_ValidationError (e : Py.exn) : bool :=
  match e with
  | Py.DeltranError Py.VALIDATION_ERROR _ _ => true
  | _ => false
  end.

Section Initiate.

(** [float(s)]: the value, or [None] when [float] raises [ValueError]. *)
Variable float : string -> option Q.

(** Modelled from the spec: the declaration of the [payments] table, which
    is not under src/.  The primary key is [transaction_id] ("primary keys
    on natural ids"); [idempotency_key_unique] says whether the table also
    declares [idempotency_key] unique, as invariant (I5) has it. *)
Variable idempotency_key_unique : bool.

Definition float_or_raise (s : string) : M Q :=
  match float s with
  | Some x => Py.ret x
  | None => Py.raise Py.ValueError
  end.

(** [postgres_client.insert_returning("payments", payment_data)]: a plain
    [INSERT ... RETURNING *], with no [ON CONFLICT] clause. *)
Definition insert_returning (row : PaymentRow) : M PaymentRow :=
  fun w =>
    if negb (database_available w) then (Py.Raise Py.ConnectionError, w)
    else if existsb (fun r => (row_transaction_id r =? row_transaction_id row)%Z)
              (payments w)
    then (Py.Raise (Py.UniqueViolationError "transaction_id"), w)
    else if idempotency_key_unique
            && existsb (fun r => String.eqb (row_idempotency_key r)
                                   (row_idempotency_key row)) (payments w)
    then (Py.Raise (Py.UniqueViolationError "idempotency_key"), w)
    else (Py.Return row,
          mkWorld (payments w ++ [row])%list (database_available w) (events w)
            (bus_connected w)).

(** [nats_client.publish(subject, data)] *)
Definition publish (subj : string) (txn : Z) : M unit :=
  fun w =>
    if bus_connected w then
      (Py.Return tt,
       mkWorld (payments w) (database_available w)
         (events w ++ [mkEvent subj txn])%list (bus_connected w))
    else (Py.Raise Py.ConnectionError, w).

(** [initiate_payment].  Inputs besides the request and the header: the
    clock (milliseconds for the id, seconds for the timestamps), the [int]s
    of the [uuid.uuid4()] draws and the current trace id. *)
Definition initiate_payment (request : PaymentInitiateRequest)
  (idempotency_key : string)
  (timestamp_ms uuid4_a uuid4_b uuid4_uetr now : Z) (trace_id : option string)
  : M CTRResponse :=
  (Py.try_except
     (let* transaction_id :=
        Py.lift (Uuidv7.generate_uuidv7 timestamp_ms uuid4_a uuid4_b) in
      let uetr := uuid4_uetr in
      (* if not request.amount or float(request.amount) <= 0 *)
      (if String.eqb (amount request) "" then
         Py.raise (ValidationError "Amount must be positive" "amount")
       else
         let* a := float_or_raise (amount request) in
         if Qle_bool a 0 then
           Py.raise (ValidationError "Amount must be positive" "amount")
         else Py.ret tt) ;;
      (if negb (String.length (currency request) =? 3)%nat then
         Py.raise (ValidationError "Currency must be 3-letter ISO code" "currency")
       else Py.ret tt) ;;
      let payment_data :=
        mkPaymentRow transaction_id uetr (amount request) (currency request)
          (debtor_account request) (creditor_account request)
          (payment_purpose request) (settlement_method request)
          INITIATED now trace_id idempotency_key in
      insert_returning payment_data ;;
      publish "payment.initiated" transaction_id ;;
      (* record_payment_metric(amount_usd=float(request.amount), ...) *)
      float_or_raise (amount request) ;;
      Py.ret (mkCTRResponse transaction_id uetr INITIATED now
             (Some "Payment initiated successfully")))
     is_ValidationError
     (fun _ =>
        Py.raise (PaymentError "Failed to initiate payment" Py.INTERNAL_ERROR)))%handler.

End Initiate.

(** *** Vocabulary of the specification *)

(** The rows bearing the idempotency key [K]. *)
Definition rows_bearing (K : string) (rows : list PaymentRow) : list PaymentRow :=
  filter (fun r => String.eqb (row_idempotency_key r) K) rows.

(** (I5): at most one row per idempotency key. *)
Definition at_most_one_row_per_key (rows : list PaymentRow) : Prop :=
  forall K, (List.length (rows_bearing K rows) <= 1)%nat.

(** A stand-in for [float] on plain decimal literals, [digits] or
    [digits.digits] with an optional sign; the other literals [float]
    accepts (exponents, [inf], [nan], underscores, surrounding blanks) are
    left out.  For the examples. *)
Definition digit_value (c : ascii) : option Z :=
  let n := nat_of_ascii c in
  if ((48 <=? n) && (n <=? 57))%nat then Some (Z.of_nat (n - 48)) else None.

Fixpoint parse_digits (s : string) (acc : Z) (scale : positive)
  (in_fraction : bool) : option Q :=
  match s with
  | EmptyString => Some (acc # scale)
  | String c s' =>
      if Ascii.eqb c "."%char then
        if in_fraction then None else parse_digits s' acc scale true
      else
        match digit_value c with
        | Some d =>
            parse_digits s' (acc * 10 + d)%Z
              (if in_fraction then (scale * 10)%positive else scale) in_fraction
        | None => None
        end
  end.

Fixpoint has_digit (s : string) : bool :=
  match s with
  | EmptyString => false
  | String c s' =>
      match digit_value c with Some _ => true | None => has_digit s' end
  end.

Definition float_decimal (s : string) : option Q :=
  if negb (has_digit s) then None
  else
    match s with
    | EmptyString => None
    | String c s' =>
        if Ascii.eqb c "-"%char then option_map Qopp (parse_digits s' 0 1 false)
        else if Ascii.eqb c "+"%char then parse_digits s' 0 1 false
        else parse_digits s 0 1 false
    end.

End Payments.

(* ------------------------------------------------------------------------- *)
(** ** [gateway/api/liquidity.py]: quote execution *)

Module Liquidity.

(** [LiquidityQuote]; [expires_at] in seconds since the epoch. *)
Record LiquidityQuote : Type := mkLiquidityQuote {
  quote_id : string;
  from_currency : string;
  to_currency : string;
  amount : Q;
  mid_rate : Q;
  applied_rate : Q;
  spread : Q;
  source : string;
  ttl_seconds : Z;
  expires_at : Z;
  utility_score : Q
}.

(** [execution_result] *)
Record ExecutionResult : Type := mkExecutionResult {
  execution_id : Z;
  executed_quote_id : string;
  executed_rate : Q;
  executed_at : Z;
  status : string
}.

Record World : Type := mkWorld {
  redis : Redis.Server LiquidityQuote;
  events : list (string * ExecutionResult);
  bus_connected : bool
}.

(** The names bound at module level in [liquidity.py]: its imports, its
    classes, tables and functions.  [generate_uuidv7] is imported inside
    [get_liquidity_quotes] and [_get_provider_quote] only, which binds it in
    those functions' local scopes. *)
Definition module_globals : list string :=
  [ "logging"; "datetime"; "timedelta"; "Optional"; "List"; "Dict"; "Any";
    "asyncio"; "random"; "APIRouter"; "Query"; "HTTPException"; "BaseModel";
    "ErrorCode"; "ExternalServiceError"; "trace_operation"; "redis_client";
    "nats_client"; "logger"; "router"; "LiquidityQuote";
    "LiquidityQuoteRequest"; "LiquidityQuoteResponse"; "LIQUIDITY_PROVIDERS";
    "MOCK_RATES"; "get_liquidity_quotes"; "get_quote_details"; "execute_quote";
    "_get_provider_quote" ].

(** Looking up a name that is not local to the function. *)
Definition load_global (globals : list string) (name : string) : Py.result unit :=
  if existsb (String.eqb name) globals then Py.Return tt
  else Py.Raise (Py.NameError name).

(** [ExternalServiceError(message, service=...)] *)
Definition ExternalServiceError (message : string) : Py.exn :=
  Py.DeltranError Py.EXTERNAL_SERVICE_ERROR message None.

Definition is_HTTPException (e : Py.exn) : bool :=
  match e with
  | Py.HTTPException _ _ => true
  | _ => false
  end.

Definition M : Type -> Type := Py.M World.

(** [redis_client.get(key)] *)
Definition redis_get (now : Z) (key : string) : M (option LiquidityQuote) :=
  fun w => (Redis.get now key (redis w), w).

(** [redis_client.delete(key)] *)
Definition redis_delete (key : string) : M unit :=
  fun w =>
    match Redis.delete key (redis w) with
    | Py.Return redis' => (Py.Return tt, mkWorld redis' (events w) (bus_connected w))
    | Py.Raise e => (Py.Raise e, w)
    end.

(** [nats_client.publish(subject, data)] *)
Definition publish (subject : string) (data : ExecutionResult) : M unit :=
  fun w =>
    if bus_connected w then
      (Py.Return tt,
       mkWorld (redis w) (events w ++ [(subject, data)])%list (bus_connected w))
    else (Py.Raise Py.ConnectionError, w).

(** [execute_quote], run in a module whose global names are [globals], at
    time [now]; the clock in milliseconds and the two [uuid4] draws feed
    [generate_uuidv7]. *)
Definition execute_quote (globals : list string) (quote_id : string)
  (now timestamp_ms uuid4_a uuid4_b : Z) : M ExecutionResult :=
  (Py.try_except
     (let* quote_data := redis_get now ("quote:" ++ quote_id) in
      match quote_data with
      | None => Py.raise (Py.HTTPException 404 "Quote not found or expired")
      | Some quote =>
          (if (now >? expires_at quote)%Z
           then Py.raise (Py.HTTPException 410 "Quote has expired")
           else Py.ret tt) ;;
          Py.lift (load_global globals "generate_uuidv7") ;;
          let* id := Py.lift (Uuidv7.generate_uuidv7 timestamp_ms uuid4_a uuid4_b) in
          let execution_result :=
            mkExecutionResult id quote_id (applied_rate quote) now "EXECUTED" in
          redis_delete ("quote:" ++ quote_id) ;;
          publish "liquidity.quote_executed" execution_result ;;
          Py.ret execution_result
      end)
     is_HTTPException
     (fun _ => Py.raise (ExternalServiceError "Failed to execute quote")))%handler.

End Liquidity.

(* ------------------------------------------------------------------------- *)
(** ** [shared/utils/uuidv7.py]: the helpers around the generator *)

Module UuidHelpers.
Local Open Scope Z_scope.

(** *** The standard library's [uuid.UUID] *)

Inductive Variant : Type :=
| RESERVED_NCS | RFC_4122 | RESERVED_MICROSOFT | RESERVED_FUTURE.

(** The property [UUID.variant]. *)
Definition variant (int : Z) : Variant :=
  if Z.land int (Z.shiftl 0x8000 48) =? 0 then RESERVED_NCS
  else if Z.land int (Z.shiftl 0x4000 48) =? 0 then RFC_4122
  else if Z.land int (Z.shiftl 0x2000 48) =? 0 then RESERVED_MICROSOFT
  else RESERVED_FUTURE.

(** The property [UUID.version]: [None] unless the variant is RFC 4122. *)
Definition version (int : Z) : option Z :=
  match variant int with
  | RFC_4122 => Some (Z.land (Z.shiftr int 76) 0xf)
  | _ => None
  end.

(** [uuid.uuid4()], that is [UUID(bytes=os.urandom(16), version=4)], from the
    big-endian integer [random] of the 16 random bytes: the variant and the
    version are written over it. *)
Definition uuid4 (random : Z) : Z :=
  let int := random in
  let int := Z.land int (Z.lnot (Z.shiftl 0xc000 48)) in
  let int := Z.lor int (Z.shiftl 0x8000 48) in
  let int := Z.land int (Z.lnot (Z.shiftl 0xf000 64)) in
  Z.lor int (Z.shiftl 4 76).

Definition hex_digit_value (c : ascii) : Z :=
  let n := Z.of_nat (nat_of_ascii c) in
  if (48 <=? n) && (n <=? 57) then n - 48
  else if (65 <=? n) && (n <=? 70) then n - 55
  else n - 87.

(** [int(hex, 16)] on a string of hexadecimal digits. *)
Fixpoint int_16 (hex : string) (acc : Z) : Z :=
  match hex with
  | EmptyString => acc
  | String c hex' => int_16 hex' (16 * acc + hex_digit_value c)
  end.

(** [uuid.UUID(hex)]: the normalisation and the length check of
    [Idempotency.UUID_accepts], then the value. *)
Definition UUID_of_hex (hex : string) : Py.result Z :=
  let hex := Idempotency.str_remove "uuid:" (Idempotency.str_remove "urn:" hex) in
  let hex := Idempotency.str_remove "-" (Idempotency.strip_braces hex) in
  if (String.length hex =? 32)%nat && Idempotency.all_hex hex
  then Uuidv7.UUID (int_16 hex 0)
  else Py.Raise Py.ValueError.

(** *** The module's functions *)

(** An argument of type [Union[str, uuid.UUID]]. *)
Inductive uuid_arg : Type :=
| Str (s : string)
| Obj (int : Z).

(** [if isinstance(uuid_obj, str): uuid_obj = uuid.UUID(uuid_obj)] *)
Definition as_UUID (uuid_obj : uuid_arg) : Py.result Z :=
  match uuid_obj with
  | Str s => UUID_of_hex s
  | Obj int => Py.Return int
  end.

Definition version_is (v : Z) (int : Z) : bool :=
  match version int with
  | Some n => n =? v
  | None => false
  end.

(** [extract_timestamp_from_uuidv7]: seconds, as [timestamp_ms / 1000.0]. *)
Definition extract_timestamp_from_uuidv7 (uuid_obj : uuid_arg) : Py.result Q :=
  Py.bind (as_UUID uuid_obj) (fun int =>
    if negb (version_is 7 int) then Py.Raise Py.ValueError
    else
      let timestamp_ms := Z.land (Z.shiftr int 80) 0xFFFFFFFFFFFF in
      Py.Return (inject_Z timestamp_ms / 1000)%Q).

(** [is_uuidv7]: the bare [except:] turns any failure into [False]. *)
Definition is_uuidv7 (uuid_obj : uuid_arg) : bool :=
  match as_UUID uuid_obj with
  | Py.Return int => version_is 7 int
  | Py.Raise _ => false
  end.

(** [generate_uetr] *)
Definition generate_uetr (random : Z) : Z := uuid4 random.

(** [validate_uetr] *)
Definition validate_uetr (uetr : uuid_arg) : bool :=
  match as_UUID uetr with
  | Py.Return int => version_is 4 int
  | Py.Raise _ => false
  end.

End UuidHelpers.

(* ------------------------------------------------------------------------- *)
(** ** [gateway/middleware/idempotency.py]: the helpers *)

Module IdempotencyHelpers.

Section Validate.
(** [uuid.UUID(key)] returns. *)
Variable uuid_accepts : string -> bool.

(** [validate_idempotency_key] *)
Definition validate_idempotency_key (key : option string) : bool :=
  match key with
  | None | Some EmptyString => false   (* not key *)
  | Some k => uuid_accepts k
  end.

End Validate.

End IdempotencyHelpers.

(* ------------------------------------------------------------------------- *)
(** ** [shared/clients/redis_client.py]: the idempotency helper *)

Module RedisHelpers.


End RedisHelpers.

(* ------------------------------------------------------------------------- *)
(** ** [gateway/api/payments.py]: cancellation *)

Module PaymentLifecycle.

(** A row of [payments] as stored: the columns written by [initiate_payment]
    and [updated_at], written by later statements. *)
Record StoredPayment : Type := mkStoredPayment {
  inserted : Payments.PaymentRow;
  updated_at : option Z
}.

Definition transaction_id (r : StoredPayment) : Z :=
  Payments.row_transaction_id (inserted r).

Definition status (r : StoredPayment) : Payments.TransactionStatus :=
  Payments.row_status (inserted r).

Record World : Type := mkWorld {
  payments : list StoredPayment;
  database_available : bool;
  events : list Payments.Event;
  bus_connected : bool
}.

Definition M : Type -> Type := Py.M World.

(** [SET status = $1, updated_at = $2] on one row. *)
Definition set_status (s : Payments.TransactionStatus) (now : Z)
  (r : StoredPayment) : StoredPayment :=
  let p := inserted r in
  mkStoredPayment
    (Payments.mkPaymentRow (Payments.row_transaction_id p) (Payments.row_uetr p)
       (Payments.row_amount p) (Payments.row_currency p)
       (Payments.row_debtor_account p) (Payments.row_creditor_account p)
       (Payments.row_payment_purpose p) (Payments.row_settlement_method p)
       s (Payments.row_created_at p) (Payments.row_trace_id p)
       (Payments.row_idempotency_key p))
    (Some now).

(** [fetchrow("SELECT status FROM payments WHERE transaction_id = $1", id)] *)
Definition fetch_status (payment_id : Z)
  : M (option Payments.TransactionStatus) :=
  fun w =>
    if database_available w then
      (Py.Return
         (option_map status
            (find (fun r => (transaction_id r =? payment_id)%Z) (payments w))),
       w)
    else (Py.Raise Py.ConnectionError, w).

(** [execute("UPDATE payments SET status = $1, updated_at = $2
             WHERE transaction_id = $3", ...)] *)
Definition update_status (s : Payments.TransactionStatus) (now payment_id : Z)
  : M unit :=
  fun w =>
    if database_available w then
      (Py.Return tt,
       mkWorld
         (map (fun r => if (transaction_id r =? payment_id)%Z
                        then set_status s now r else r) (payments w))
         (database_available w) (events w) (bus_connected w))
    else (Py.Raise Py.ConnectionError, w).

(** [nats_client.publish(subject, data)] *)
Definition publish (subj : string) (txn : Z) : M unit :=
  fun w =>
    if bus_connected w then
      (Py.Return tt,
       mkWorld (payments w) (database_available w)
         (events w ++ [Payments.mkEvent subj txn])%list (bus_connected w))
    else (Py.Raise Py.ConnectionError, w).

(** [status in [TransactionStatus.SETTLED, TransactionStatus.COMPLETED]] *)
Definition settled_or_completed (s : Payments.TransactionStatus) : bool :=
  match s with
  | Payments.SETTLED | Payments.COMPLETED => true
  | _ => false
  end.

(** The two [except ...: raise] clauses: [HTTPException] and [PaymentError]
    (the only [DeltranError] the body raises is a [PaymentError]). *)
Definition is_HTTPException_or_PaymentError (e : Py.exn) : bool :=
  match e with
  | Py.HTTPException _ _ => true
  | Py.DeltranError _ _ _ => true
  | _ => false
  end.

(** [cancel_payment] at time [now]; the result is the message of the
    response body. *)
Definition cancel_payment (payment_id now : Z) : M string :=
  (Py.try_except
     (let* payment := fetch_status payment_id in
      match payment with
      | None => Py.raise (Py.HTTPException 404 "Payment not found")
      | Some st =>
          (if settled_or_completed st then
             Py.raise (Payments.PaymentError "Cannot cancel completed payment"
                         Py.PAYMENT_CANCELLED)
           else Py.ret tt) ;;
          update_status Payments.CANCELLED now payment_id ;;
          publish "payment.cancelled" payment_id ;;
          Py.ret "Payment cancelled successfully"
      end)
     is_HTTPException_or_PaymentError
     (fun _ =>
        Py.raise (Payments.PaymentError "Failed to cancel payment"
                    Py.INTERNAL_ERROR)))%handler.

End PaymentLifecycle.

(* ------------------------------------------------------------------------- *)
(** ** UUIDs as text: [str(uuid.UUID)] and [generate_idempotency_key] *)

Module UuidText.
Local Open Scope Z_scope.

(** One digit of the [%x] conversion. *)
Definition hex_digit (d : Z) : ascii :=
  ascii_of_nat (Z.to_nat (if d <? 10 then 48 + d else 87 + d)).

(** The [width] low hexadecimal digits of [n], most significant first, in
    front of [acc]. *)
Fixpoint hex_digits (width : nat) (n : Z) (acc : string) : string :=
  match width with
  | O => acc
  | S width' => hex_digits width' (n / 16) (String (hex_digit (n mod 16)) acc)
  end.

(** ['%032x' % int] for the [int] of a UUID, which fits in 128 bits. *)
Definition format_032x (int : Z) : string := hex_digits 32 int "".

(** [UUID.__str__]: the 32 digits in groups of 8, 4, 4, 4 and 12. *)
Definition str (int : Z) : string :=
  let hex := format_032x int in
  substring 0 8 hex ++ "-" ++ substring 8 4 hex ++ "-" ++ substring 12 4 hex
  ++ "-" ++ substring 16 4 hex ++ "-" ++ substring 20 12 hex.

(** [generate_idempotency_key] of the idempotency middleware. *)
Definition generate_idempotency_key (timestamp_ms uuid4_a uuid4_b : Z)
  : Py.result string :=
  Py.bind (Uuidv7.generate_uuidv7 timestamp_ms uuid4_a uuid4_b) (fun u =>
    Py.Return (str u)).

End UuidText.

(* ------------------------------------------------------------------------- *)
(** ** [gateway/api/risk.py]: the metrics endpoint;
       [gateway/api/liquidity.py]: quote details *)

Module RiskEndpoints.
Import RiskMetrics.

(** The JSON values under the keys the risk endpoints use: a [RiskMetrics]
    dict, or a mode dict reduced to its ["current_mode"] entry.  Both are
    non-empty dicts, hence true in a condition. *)
Inductive Cached : Type :=
| MetricsDict (m : Metrics)
| ModeDict (data : ModeData).

(** [current_mode_data.get("current_mode", ...)] reads an entry a metrics
    dict does not have. *)
Definition mode_data (c : Cached) : ModeData :=
  match c with
  | ModeDict data => data
  | MetricsDict _ => None
  end.

(** The database table, the Redis server and the [risk_score] histogram. *)
Record World : Type := mkWorld {
  redis : Redis.Server Cached;
  liquidity_quotes : list Quote;
  database_available : bool;
  observed : list Q
}.

Definition M : Type -> Type := Py.M World.

(** [RiskError(message, ErrorCode.RISK_ASSESSMENT_FAILED)] *)
Definition RiskError (message : string) : Py.exn :=
  Py.DeltranError Py.RISK_ASSESSMENT_FAILED message None.

(** [redis_client.get(key)] *)
Definition redis_get (now : Z) (key : string) : M (option Cached) :=
  fun w => (Redis.get now key (redis w), w).

(** [redis_client.set(key, value, expire)] *)
Definition redis_set (now : Z) (key : string) (v : Cached) (expire : Z)
  : M unit :=
  fun w =>
    match Redis.set now key v (Some expire) (redis w) with
    | Py.Return redis' =>
        (Py.Return tt,
         mkWorld redis' (liquidity_quotes w) (database_available w) (observed w))
    | Py.Raise e => (Py.Raise e, w)
    end.

(** [redis_client.cache_get(key)] *)
Definition cache_get (now : Z) (key : string) : M (option Cached) :=
  redis_get now ("cache:" ++ key).

(** [redis_client.cache_set(key, value, expire)] *)
Definition cache_set (now : Z) (key : string) (v : Cached) (expire : Z)
  : M unit :=
  redis_set now ("cache:" ++ key) v expire.

(** [postgres_client.fetch] of the quotes of the last hour. *)
Definition fetch_quotes (now : Z) : M (list Quote) :=
  fun w =>
    if database_available w then
      (Py.Return (fetch_recent_quotes (liquidity_quotes w) now), w)
    else (Py.Raise Py.ConnectionError, w).

(** [record_risk_metric(risk_score)]: [RISK_SCORE.observe(risk_score)] *)
Definition record_risk_metric (score : Q) : M unit :=
  fun w =>
    (Py.Return tt,
     mkWorld (redis w) (liquidity_quotes w) (database_available w)
       (observed w ++ [score])%list).

Section Endpoint.
Variable sqrt : Q -> Q.

(** [_calculate_risk_metrics] with its two reads: the mode is fetched only
    past the early return for an empty result. *)
Definition calculate (now : Z) : M Metrics :=
  (let* recent_quotes := fetch_quotes now in
   match recent_quotes with
   | [] => Py.lift (_calculate_risk_metrics sqrt [] None)
   | _ :: _ =>
       let* current_mode_data := redis_get now "risk:current_mode" in
       Py.lift (_calculate_risk_metrics sqrt recent_quotes
                  (option_map mode_data current_mode_data))
   end)%handler.

(** [get_risk_metrics].  Building [RiskMetrics] from the cached dict fails
    on a dict without the model's fields. *)
Definition get_risk_metrics (now : Z) : M Metrics :=
  (Py.try_except
     (let* cached_metrics := cache_get now "risk:metrics" in
      match cached_metrics with
      | Some (MetricsDict m) => Py.ret m
      | Some (ModeDict _) => Py.raise Py.ValueError
      | None =>
          let* metrics := calculate now in
          cache_set now "risk:metrics" (MetricsDict metrics) 60 ;;
          record_risk_metric (risk_score metrics) ;;
          Py.ret metrics
      end)
     (fun _ => false)
     (fun _ => Py.raise (RiskError "Failed to get risk metrics")))%handler.

End Endpoint.

End RiskEndpoints.

Module LiquidityDetails.
Import Liquidity.

(** [get_quote_details] at time [now]. *)
Definition get_quote_details (quote_id : string) (now : Z) : M LiquidityQuote :=
  (Py.try_except
     (let* quote_data := redis_get now ("quote:" ++ quote_id) in
      match quote_data with
      | None => Py.raise (Py.HTTPException 404 "Quote not found or expired")
      | Some quote => Py.ret quote
      end)
     is_HTTPException
     (fun _ => Py.raise (ExternalServiceError "Failed to get quote details")))%handler.

End LiquidityDetails.

(* ========================================================================= *)
(** * Properties *)

(* ------------------------------------------------------------------------- *)
(** ** Netting *)

Module SettlementFacts.
Import Settlement.
Local Open Scope Q_scope.

(** *** Keys *)

Lemma append_nil_l (s : string) : ("" ++ s)%string = s.
Proof. reflexivity. Qed.

Lemma append_cons_l (c : ascii) (a s : string) :
  (String c a ++ s)%string = String c (a ++ s).
Proof. reflexivity. Qed.

Lemma length_append (a s : string) :
  String.length (a ++ s) = (String.length a + String.length s)%nat.
Proof.
  induction a as [|c a IH]; [reflexivity|].
  rewrite append_cons_l. simpl. now rewrite IH.
Qed.

Lemma append_inj_suffix (a b s t : string) :
  (a ++ s = b ++ t)%string -> String.length s = String.length t ->
  a = b /\ s = t.
Proof.
  revert b. induction a as [|c a IH]; intros [|c' b] H L;
    rewrite ?append_nil_l, ?append_cons_l in H.
  - auto.
  - subst s. simpl in L. rewrite length_append in L. lia.
  - subst t. simpl in L. rewrite length_append in L. lia.
  - injection H as -> H. destruct (IH b H L) as [-> ->]. auto.
Qed.

Lemma key_of_inj (a b x y : string) :
  String.length x = String.length y -> key_of a x = key_of b y ->
  a = b /\ x = y.
Proof.
  unfold key_of. intros L H.
  apply append_inj_suffix in H.
  - destruct H as [-> H]. rewrite !append_cons_l, !append_nil_l in H.
    now injection H as ->.
  - rewrite !append_cons_l, !append_nil_l. simpl. congruence.
Qed.


(** *** The dict operations *)

Definition mem (k : string) (ks : list string) : bool :=
  existsb (String.eqb k) ks.

Definition add_key (ks : list string) (k : string) : list string :=
  if mem k ks then ks else (ks ++ [k])%list.

Lemma contains_mem k d : contains k d = mem k (map fst d).
Proof.
  induction d as [|[k' p] d IH]; simpl; [reflexivity|].
  rewrite IH. now destruct (String.eqb k k').
Qed.


Lemma keys_update_amount k f d : map fst (update_amount k f d) = map fst d.
Proof.
  induction d as [|[k' p] d IH]; simpl; [reflexivity|].
  destruct (String.eqb k k'); simpl; congruence.
Qed.

Lemma keys_ensure k a c d : map fst (ensure k a c d) = add_key (map fst d) k.
Proof.
  unfold ensure, add_key. rewrite contains_mem.
  destruct (mem k (map fst d)); [reflexivity|].
  now rewrite map_app.
Qed.

Lemma keys_step d t :
  map fst (step d t) =
  add_key (add_key (map fst d) (key_of (debtor_account t) (currency t)))
          (key_of (creditor_account t) (currency t)).
Proof.
  unfold step. cbv zeta.
  now rewrite keys_update_amount, keys_ensure, keys_update_amount, keys_ensure.
Qed.














(** *** Invariants of the accumulation loop *)

(** Every entry sits under the key built from its own account and currency,
    and carries no instruction yet. *)
Definition entry_ok (e : string * Position) : Prop :=
  fst e = position_key (snd e) /\ settlement_instruction (snd e) = None.

Definition consistent (d : Positions) : Prop := Forall entry_ok d.

Definition three_letter (d : Positions) : Prop :=
  Forall (fun e => String.length (position_currency (snd e)) = 3%nat) d.

Lemma Forall_update_amount (P : string * Position -> Prop) k f d :
  (forall k' p a, P (k', p) -> P (k', set_amount p a)) ->
  Forall P d -> Forall P (update_amount k f d).
Proof.
  intros HP H. induction H as [|[k' p] d Hp H IH]; simpl; [constructor|].
  destruct (String.eqb k k'); constructor; auto.
Qed.

Lemma Forall_ensure (P : string * Position -> Prop) k a c d :
  P (k, mkPosition a c 0 None) -> Forall P d -> Forall P (ensure k a c d).
Proof.
  intros Hn H. unfold ensure. destruct (contains k d); [assumption|].
  apply Forall_app. split; [assumption|]. constructor; [assumption|constructor].
Qed.

Lemma consistent_step d t : consistent d -> consistent (step d t).
Proof.
  intros H. unfold step, consistent. cbv zeta.
  repeat first
    [ apply Forall_update_amount; [intros k' p a Hp; exact Hp|]
    | apply Forall_ensure; [split; reflexivity|] ].
  exact H.
Qed.

Lemma three_letter_step d t :
  String.length (currency t) = 3%nat -> three_letter d -> three_letter (step d t).
Proof.
  intros L H. unfold step, three_letter. cbv zeta.
  repeat first
    [ apply Forall_update_amount; [intros k' p a Hp; exact Hp|]
    | apply Forall_ensure; [exact L|] ].
  exact H.
Qed.

Lemma mem_In k ks : mem k ks = true <-> In k ks.
Proof.
  unfold mem. rewrite existsb_exists. split.
  - intros [x [Hx E]]. apply String.eqb_eq in E. now subst.
  - intros H. exists k. split; [assumption|apply String.eqb_refl].
Qed.

Lemma NoDup_add_key ks k : NoDup ks -> NoDup (add_key ks k).
Proof.
  intros H. unfold add_key. destruct (mem k ks) eqn:M; [assumption|].
  apply NoDup_rev in H. rewrite <- (rev_involutive (ks ++ [k])).
  apply NoDup_rev. rewrite rev_app_distr. simpl. constructor; [|assumption].
  rewrite <- in_rev. intros I. apply mem_In in I. congruence.
Qed.

Lemma NoDup_keys_step d t : NoDup (map fst d) -> NoDup (map fst (step d t)).
Proof. intros H. rewrite keys_step. now repeat apply NoDup_add_key. Qed.

Record invariant (d : Positions) : Prop := mkInvariant {
  inv_consistent : consistent d;
  inv_three_letter : three_letter d;
  inv_nodup : NoDup (map fst d)
}.







(** *** The emitting loop *)

Definition emitted (q : Position) : Position :=
  mkPosition (account q) (position_currency q) (Qabs (position_amount q))
    (Some (if Py.Qltb (position_amount q) 0 then PAY else RECEIVE)).






(** *** The accumulated dict against the reference definition *)




Lemma tolerance_pos : 0 < tolerance.
Proof. reflexivity. Qed.










(** *** Conservation per currency *)












Lemma emit_cons q vs :
  emit (q :: vs) =
  if significant (position_amount q) then emitted q :: emit vs else emit vs.
Proof. reflexivity. Qed.








(** *** Order of the output *)








End SettlementFacts.

(* ------------------------------------------------------------------------- *)
(** ** Identifiers *)

Module Uuidv7Facts.
Import Uuidv7.
Local Open Scope Z_scope.

Ltac compare_cases :=
  repeat match goal with
  | |- context [?a <? ?b] => destruct (Z.ltb_spec a b)
  | |- context [?a <=? ?b] => destruct (Z.leb_spec a b)
  | |- context [?a =? ?b] => destruct (Z.eqb_spec a b)
  end.

Lemma testbit_version i :
  0 <= i -> Z.testbit (Z.shiftl 7 76) i = (76 <=? i) && (i <? 79).
Proof.
  intros Hi. change 7 with (Z.ones 3).
  rewrite Z.shiftl_spec, Z.testbit_ones by lia.
  compare_cases; simpl; lia.
Qed.

Lemma testbit_variant i :
  0 <= i -> Z.testbit (Z.shiftl 2 62) i = (i =? 63).
Proof.
  intros Hi. change 2 with (Z.shiftl (Z.ones 1) 1).
  rewrite Z.shiftl_shiftl, Z.shiftl_spec, Z.testbit_ones by lia.
  compare_cases; simpl; lia.
Qed.

Lemma testbit_masked_shifted x width lo i :
  0 <= width -> 0 <= lo -> 0 <= i ->
  Z.testbit (Z.shiftl (Z.land x (Z.ones width)) lo) i =
  (lo <=? i) && (i <? lo + width) && Z.testbit x (i - lo).
Proof.
  intros Hw Hl Hi. rewrite Z.shiftl_spec by lia.
  destruct (Z.leb_spec lo i).
  - rewrite Z.land_spec, Z.testbit_ones by lia.
    compare_cases; simpl; rewrite ?andb_true_r, ?andb_false_r; try reflexivity; lia.
  - now rewrite Z.testbit_neg_r by lia.
Qed.

(** The bit at position [i] of the assembled integer. *)
Lemma testbit_uuid_int ts a b i :
  0 <= i ->
  Z.testbit (uuid_int ts a b) i =
  if i <? 62 then Z.testbit b i
  else if i <? 64 then i =? 63
  else if i <? 76 then Z.testbit a (i - 64)
  else if i <? 80 then i <? 79
  else if i <? 128 then Z.testbit ts (i - 80)
  else false.
Proof.
  intros Hi. unfold uuid_int. cbv zeta.
  change 0xFFFFFFFF with (Z.ones 32). change 0xFFFF with (Z.ones 16).
  change 0xFFF with (Z.ones 12). change 0x3FFFFFFFFFFFFFFF with (Z.ones 62).
  rewrite !Z.lor_spec, testbit_version, testbit_variant by lia.
  rewrite !testbit_masked_shifted by lia.
  destruct (Z.ltb_spec i 62); [|destruct (Z.ltb_spec i 64);
    [|destruct (Z.ltb_spec i 76); [|destruct (Z.ltb_spec i 80);
      [|destruct (Z.ltb_spec i 96); [|destruct (Z.ltb_spec i 128)]]]]];
  compare_cases; try lia; simpl;
  rewrite ?orb_false_r, ?andb_true_r, ?andb_false_r, ?orb_false_l; simpl;
  try reflexivity;
  rewrite ?Z.land_spec, ?Z.shiftr_spec, ?Z.testbit_ones by lia;
  compare_cases; try lia; simpl;
  rewrite ?andb_true_r, ?andb_false_r, ?orb_false_r;
  try reflexivity; try (f_equal; lia).
Qed.

Lemma testbit_field x lo width i :
  0 <= lo -> 0 <= width -> 0 <= i ->
  Z.testbit (field x lo width) i = Z.testbit x (i + lo) && (i <? width).
Proof.
  intros Hl Hw Hi. unfold field.
  rewrite Z.land_spec, Z.shiftr_spec, Z.testbit_ones by lia.
  destruct (Z.leb_spec 0 i); [reflexivity|lia].
Qed.

Lemma testbit_small x n i :
  0 <= x < 2 ^ n -> n <= i -> Z.testbit x i = false.
Proof.
  intros [H0 Hn] Hi. destruct (Z.eq_dec x 0) as [->|N].
  - apply Z.bits_0.
  - apply Z.bits_above_log2; [assumption|].
    assert (Z.log2 x < n) by (apply Z.log2_lt_pow2; lia). lia.
Qed.

Lemma uuid_int_range ts a b : 0 <= uuid_int ts a b < 2 ^ 128.
Proof.
  assert (E : Z.land (uuid_int ts a b) (Z.ones 128) = uuid_int ts a b).
  { apply Z.bits_inj'. intros i Hi.
    rewrite Z.land_spec, Z.testbit_ones, testbit_uuid_int by lia.
    compare_cases; try lia; simpl; rewrite ?andb_true_r; reflexivity. }
  rewrite Z.land_ones in E by lia. rewrite <- E.
  apply Z.mod_pos_bound. reflexivity.
Qed.

Lemma generate_uuidv7_returns ts a b :
  generate_uuidv7 ts a b = Py.Return (uuid_int ts a b).
Proof.
  unfold generate_uuidv7, UUID. pose proof (uuid_int_range ts a b) as [H0 H1].
  change (Z.shiftl 1 128) with (2 ^ 128).
  destruct (Z.leb_spec 0 (uuid_int ts a b)); [|lia].
  destruct (Z.ltb_spec (uuid_int ts a b) (2 ^ 128)); [reflexivity|lia].
Qed.

Lemma field_timestamp ts a b :
  0 <= ts < 2 ^ 48 -> field (uuid_int ts a b) 80 48 = ts.
Proof.
  intros Hts. apply Z.bits_inj'. intros i Hi.
  rewrite testbit_field, testbit_uuid_int by lia.
  compare_cases; try lia; simpl; rewrite ?andb_true_r, ?andb_false_r.
  - f_equal. lia.
  - symmetry. apply (testbit_small ts 48); [assumption|lia].
Qed.

Lemma shiftr_timestamp ts a b :
  0 <= ts < 2 ^ 48 -> Z.shiftr (uuid_int ts a b) 80 = ts.
Proof.
  intros Hts. apply Z.bits_inj'. intros i Hi.
  rewrite Z.shiftr_spec, testbit_uuid_int by lia.
  compare_cases; try lia.
  - f_equal. lia.
  - symmetry. apply (testbit_small ts 48); [assumption|lia].
Qed.

Lemma field_version ts a b : field (uuid_int ts a b) 76 4 = 7.
Proof.
  apply Z.bits_inj'. intros i Hi.
  rewrite testbit_field, testbit_uuid_int by lia.
  change 7 with (Z.ones 3). rewrite Z.testbit_ones by lia.
  compare_cases; try lia; reflexivity.
Qed.

Lemma field_random_a ts a b :
  field (uuid_int ts a b) 64 12 = Z.land a 0xFFF.
Proof.
  apply Z.bits_inj'. intros i Hi. change 0xFFF with (Z.ones 12).
  rewrite testbit_field, testbit_uuid_int, Z.land_spec, Z.testbit_ones by lia.
  compare_cases; try lia; simpl; rewrite ?andb_true_r, ?andb_false_r;
    try reflexivity.
  f_equal. lia.
Qed.

Lemma testbit_two i : 0 <= i -> Z.testbit 2 i = (i =? 1).
Proof.
  intros Hi. destruct (Z.eqb_spec i 1) as [->|N]; [reflexivity|].
  destruct (Z.eq_dec i 0) as [->|N0]; [reflexivity|].
  apply (testbit_small 2 2); lia.
Qed.

Lemma field_variant ts a b : field (uuid_int ts a b) 62 2 = 2.
Proof.
  apply Z.bits_inj'. intros i Hi.
  rewrite testbit_field, testbit_uuid_int, testbit_two by lia.
  compare_cases; try lia; reflexivity.
Qed.

Lemma field_random_b ts a b :
  field (uuid_int ts a b) 0 62 = Z.land b 0x3FFFFFFFFFFFFFFF.
Proof.
  apply Z.bits_inj'. intros i Hi. change 0x3FFFFFFFFFFFFFFF with (Z.ones 62).
  rewrite testbit_field, testbit_uuid_int, Z.land_spec, Z.testbit_ones by lia.
  compare_cases; try lia; simpl; rewrite ?andb_true_r, ?andb_false_r;
    try reflexivity.
  f_equal. lia.
Qed.

Lemma uuid_int_monotone ts a b ts' a' b' :
  0 <= ts < 2 ^ 48 -> 0 <= ts' < 2 ^ 48 -> ts < ts' ->
  uuid_int ts a b < uuid_int ts' a' b'.
Proof.
  intros H H' L.
  pose proof (shiftr_timestamp ts a b H) as E.
  pose proof (shiftr_timestamp ts' a' b' H') as E'.
  rewrite Z.shiftr_div_pow2 in E, E' by lia.
  pose proof (Z.div_mod (uuid_int ts a b) (2 ^ 80) ltac:(lia)) as D.
  pose proof (Z.div_mod (uuid_int ts' a' b') (2 ^ 80) ltac:(lia)) as D'.
  pose proof (Z.mod_pos_bound (uuid_int ts a b) (2 ^ 80) ltac:(lia)) as M.
  pose proof (Z.mod_pos_bound (uuid_int ts' a' b') (2 ^ 80) ltac:(lia)) as M'.
  rewrite E in D. rewrite E' in D'. lia.
Qed.

Lemma extract_timestamp ts a b :
  0 <= ts < 2 ^ 48 -> extract_timestamp_ms (uuid_int ts a b) = ts.
Proof.
  intros H. unfold extract_timestamp_ms.
  replace 0xFFFFFFFFFFFF with (Z.ones 48) by (vm_compute; reflexivity).
  apply field_timestamp. exact H.
Qed.

(** C9, as the code has it.  For a clock reading that fits in 48 bits,
    [generate_uuidv7] returns a 128-bit value laid out, most significant
    first, as: the 48-bit Unix-millisecond timestamp (bits 127..80), the
    4-bit version 7 (bits 79..76), 12 random bits (bits 75..64), the 2-bit
    variant 10 (bits 63..62), 62 random bits (bits 61..0).  The timestamp is
    read back by [extract_timestamp_ms], and an id generated at a strictly
    later millisecond is strictly greater. *)
Theorem uuidv7_layout_and_order (ts a b : Z) :
  0 <= ts < 2 ^ 48 ->
  exists id,
    generate_uuidv7 ts a b = Py.Return id
    /\ 0 <= id < 2 ^ 128
    /\ field id 80 48 = ts
    /\ field id 76 4 = 7
    /\ field id 64 12 = Z.land a 0xFFF
    /\ field id 62 2 = 2
    /\ field id 0 62 = Z.land b 0x3FFFFFFFFFFFFFFF
    /\ extract_timestamp_ms id = ts
    /\ forall ts' a' b' id',
         0 <= ts' < 2 ^ 48 ->
         generate_uuidv7 ts' a' b' = Py.Return id' ->
         ts < ts' -> id < id'.
Proof.
  intros Hts. exists (uuid_int ts a b).
  split; [apply generate_uuidv7_returns|].
  split; [apply uuid_int_range|].
  split; [apply field_timestamp; exact Hts|].
  split; [apply field_version|].
  split; [apply field_random_a|].
  split; [apply field_variant|].
  split; [apply field_random_b|].
  split; [apply extract_timestamp; exact Hts|].
  intros ts' a' b' id' Hts' G L.
  rewrite generate_uuidv7_returns in G. injection G as <-.
  apply uuid_int_monotone; assumption.
Qed.

(** The [int] of the version-4 UUID 00000000-0000-4000-8000-000000000000. *)
Definition uuid4_zero : Z := 0x40008000000000000000.

Lemma uuidv7_layout_and_order_witness :
  exists id,
    generate_uuidv7 1700000000000 uuid4_zero uuid4_zero = Py.Return id
    /\ field id 76 4 = 7.
Proof.
  destruct (uuidv7_layout_and_order 1700000000000 uuid4_zero uuid4_zero
              ltac:(lia)) as [id [G [_ [_ [V _]]]]].
  exists id. split; [exact G|exact V].
Defined.

(** C9 fails as stated.  In the id generated at 1700000000000 ms the four
    bits below the 12 that follow the timestamp (bits 67..64) and the two
    lowest bits are random bits, here 0, not the version 7 and the variant
    10; and two ids generated within the same millisecond may decrease. *)
Lemma uuidv7_layout_counterexample :
  generate_uuidv7 1700000000000 uuid4_zero uuid4_zero
    = Py.Return 0x018BCFE568007000_8000000000000000
  /\ ~ spec_layout 0x018BCFE568007000_8000000000000000 1700000000000
  /\ generate_uuidv7 1700000000000 (uuid4_zero + 5) uuid4_zero
       = Py.Return 0x018BCFE568007005_8000000000000000
  /\ generate_uuidv7 1700000000000 (uuid4_zero + 3) uuid4_zero
       = Py.Return 0x018BCFE568007003_8000000000000000
  /\ 0x018BCFE568007003_8000000000000000 < 0x018BCFE568007005_8000000000000000.
Proof.
  split; [vm_compute; reflexivity|]. split.
  - intros [_ [H _]]. vm_compute in H. discriminate.
  - repeat split; vm_compute; reflexivity.
Qed.

End Uuidv7Facts.

(* ------------------------------------------------------------------------- *)
(** ** Risk assessment *)

Module RiskAssessmentFacts.
Import RiskAssessment.

Lemma weekday_range now : (0 <= weekday now < 7)%Z.
Proof. unfold weekday. apply Z.mod_pos_bound. reflexivity. Qed.

Lemma weekend_check now : (weekday now >=? 5)%Z = is_weekend now.
Proof.
  unfold is_weekend. pose proof (weekday_range now) as R.
  rewrite Z.geb_leb.
  destruct (Z.leb_spec 5 (weekday now)), (Z.eqb_spec (weekday now) 5),
    (Z.eqb_spec (weekday now) 6); simpl; try reflexivity; lia.
Qed.

Lemma currency_check p :
  str_in (currency p) high_risk_currencies = is_high_risk_currency p.
Proof.
  unfold str_in, is_high_risk_currency, high_risk_currencies. simpl.
  now rewrite orb_false_r, orb_assoc.
Qed.

Lemma frequency_check payments now p :
  match fetch_recent_count payments now (debtor_account p) with
  | [] => false
  | row :: _ => (row >? 10)%Z
  end = is_high_frequency payments now p.
Proof. unfold fetch_recent_count, is_high_frequency. apply Z.gtb_ltb. Qed.





End RiskAssessmentFacts.

(* ------------------------------------------------------------------------- *)
(** ** Risk metrics *)

Module RiskMetricsFacts.
Import RiskMetrics.
Local Open Scope Q_scope.

Lemma Qgtb_true x y : Py.Qgtb x y = true <-> y < x.
Proof.
  unfold Py.Qgtb. rewrite negb_true_iff, <- not_true_iff_false, Qle_bool_iff.
  split; [apply Qnot_le_lt|apply Qlt_not_le].
Qed.

Lemma Qgtb_false x y : Py.Qgtb x y = false <-> ~ y < x.
Proof.
  rewrite <- Qgtb_true. destruct (Py.Qgtb x y); split; congruence.
Qed.

Lemma resolve_mode (md : option ModeData) (mode : RiskMode) :
  mode_of md mode ->
  match md with
  | Some data =>
      RiskMode_of_value (match data with Some m => m | None => "Medium" end)
  | None => Py.Return MEDIUM
  end = Py.Return mode.
Proof.
  destruct md as [[m|]|]; simpl; intros H; subst; try reflexivity. exact H.
Qed.

Lemma score_is_25_per_breach (b1 b2 b3 b4 : bool) :
  (let s := 0 in
   let s := if b1 then s + 25 else s in
   let s := if b2 then s + 25 else s in
   let s := if b3 then s + 25 else s in
   if b4 then s + 25 else s)%Z
  = (25 * ((if b1 then 1 else 0) + (if b2 then 1 else 0)
           + (if b3 then 1 else 0) + (if b4 then 1 else 0)))%Z.
Proof. destruct b1, b2, b3, b4; reflexivity. Qed.

Lemma breaches_range th s d l v : (0 <= breaches th s d l v <= 4)%Z.
Proof.
  unfold breaches.
  destruct (Py.Qgtb s _), (Py.Qgtb d _), (Py.Qgtb l _), (Py.Qgtb v _); lia.
Qed.

(** Two quotes of the last hour, for the examples. *)
Definition two_quotes : list Quote :=
  [ mkQuote (2 # 1000) 1000 50 100; mkQuote (4 # 1000) 3000 70 200 ].

Section Metrics.
Variable sqrt : Q -> Q.

(** C8, as the code has it.  With no quote in the last hour the metrics are
    the fixed defaults: deviation 0.05 and risk score 25, whatever the
    thresholds.  With at least one quote and a cached mode that is absent or
    valid, the metrics are returned with: deviation 0.05 for a single
    sample; for two samples or more, stddev(spread)/mean(spread) when the
    mean spread is positive and 0 otherwise; and a risk score of 25 times
    the number of thresholds of the current mode breached by the average
    spread, the deviation, the average latency and the total volume, hence
    one of 0, 25, 50, 75, 100. *)
Theorem metrics_deviation_and_score
  (recent_quotes : list Quote) (md : option ModeData) (mode : RiskMode) :
  (exists m,
     _calculate_risk_metrics sqrt [] md = Py.Return m
     /\ deviation m = 5 # 100 /\ risk_score m = 25)
  /\ (recent_quotes <> [] -> mode_of md mode ->
      exists m,
        _calculate_risk_metrics sqrt recent_quotes md = Py.Return m
        /\ spread m = mean (map quote_spread recent_quotes)
        /\ volume_24h_usd m = sum (map quote_amount recent_quotes)
        /\ (List.length recent_quotes = 1%nat -> deviation m = 5 # 100)
        /\ ((2 <= List.length recent_quotes)%nat ->
            0 < mean (map quote_spread recent_quotes) ->
            deviation m
            = stddev sqrt (map quote_spread recent_quotes)
              / mean (map quote_spread recent_quotes))
        /\ ((2 <= List.length recent_quotes)%nat ->
            ~ 0 < mean (map quote_spread recent_quotes) ->
            deviation m = 0)
        /\ risk_score m
           = inject_Z
               (25 * breaches (RISK_THRESHOLDS mode)
                       (mean (map quote_spread recent_quotes))
                       (deviation m)
                       (mean (map (fun q => inject_Z (quote_latency_ms q))
                                recent_quotes))
                       (sum (map quote_amount recent_quotes)))
        /\ In (risk_score m) (map inject_Z [0; 25; 50; 75; 100]%Z)).
Proof.
  split.
  - eexists. split; [reflexivity|]. split; reflexivity.
  - intros NE M. destruct recent_quotes as [|q qs]; [now elim NE|].
    unfold _calculate_risk_metrics. rewrite (resolve_mode md mode M).
    cbv zeta. unfold Py.bind. eexists. split; [reflexivity|].
    cbn [spread volume_24h_usd deviation risk_score].
    rewrite score_is_25_per_breach.
    split; [reflexivity|]. split; [reflexivity|].
    split.
    { intros L. destruct qs; [reflexivity|discriminate]. }
    split.
    { intros L P. rewrite length_map.
      destruct (Z.ltb_spec 1 (Z.of_nat (List.length (q :: qs)))); [|lia].
      apply Qgtb_true in P. unfold mean in P |- *.
      cbn [map] in P |- *. rewrite P. reflexivity. }
    split.
    { intros L P. rewrite length_map.
      destruct (Z.ltb_spec 1 (Z.of_nat (List.length (q :: qs)))); [|lia].
      apply Qgtb_false in P. unfold mean in P. cbn [map] in P |- *.
      rewrite P. reflexivity. }
    split; [reflexivity|].
    match goal with
    | |- In (inject_Z (25 * ?b)) _ =>
        assert (R : (0 <= b <= 4)%Z)
          by (destruct (Py.Qgtb _ _), (Py.Qgtb _ _), (Py.Qgtb _ _), (Py.Qgtb _ _); lia);
        assert (C : (b = 0 \/ b = 1 \/ b = 2 \/ b = 3 \/ b = 4)%Z) by lia;
        clear R; generalize dependent b
    end.
    intros b C. simpl.
    destruct C as [->|[->|[->|[->| ->]]]]; simpl; tauto.
Qed.

End Metrics.

Lemma metrics_deviation_and_score_witness :
  two_quotes <> [] /\ mode_of None MEDIUM
  /\ exists m,
       _calculate_risk_metrics sqrt_16 two_quotes None = Py.Return m
       /\ risk_score m
          = inject_Z
              (25 * breaches (RISK_THRESHOLDS MEDIUM)
                      (mean (map quote_spread two_quotes))
                      (deviation m)
                      (mean (map (fun q => inject_Z (quote_latency_ms q)) two_quotes))
                      (sum (map quote_amount two_quotes))).
Proof.
  assert (NE : two_quotes <> []) by discriminate.
  assert (M : mode_of None MEDIUM) by reflexivity.
  split; [exact NE|]. split; [exact M|].
  destruct (proj2 (metrics_deviation_and_score sqrt_16 two_quotes None MEDIUM) NE M)
    as [m [R [_ [_ [_ [_ [_ [S _]]]]]]]].
  exists m. split; [exact R|exact S].
Defined.

(** C8 fails as stated when no quote was recorded in the last hour: under the
    default mode Medium the returned readings (spread 0.002, deviation 0.05,
    latency 80 ms, volume 5000000) breach no threshold, and the risk score
    is 25, not 0. *)
Lemma metrics_score_counterexample :
  fetch_recent_quotes [] 1704542400 = []
  /\ _calculate_risk_metrics sqrt_16 [] None
     = Py.Return (mkMetrics (2 # 1000) 1000000 (5 # 100) 80 5000000 25)
  /\ breaches (RISK_THRESHOLDS MEDIUM) (2 # 1000) (5 # 100) (inject_Z 80) 5000000
     = 0%Z
  /\ ~ (25 == inject_Z (25 * 0)).
Proof.
  repeat split. intros H. vm_compute in H. discriminate.
Qed.

End RiskMetricsFacts.

(* ------------------------------------------------------------------------- *)
(** ** Idempotency keys *)

Module IdempotencyFacts.
Import Idempotency.

Definition empty_world : World :=
  mkWorld (Redis.mkServer (stdpp.base.empty) true) [].

(** An application that answers 200 to everything. *)
Definition ok_app (_ : Request) : Response := mkResponse 200 (Json "{}") [].

Definition post (key : option string) : Request :=
  mkRequest "POST" "/payments/initiate" key "{}".

(** A version-1 UUID string. *)
Definition v1_key : string := "00000000-0000-1000-8000-000000000000".

Section Dispatch.
Variable uuid_accepts : string -> bool.
Variable app : Request -> Response.
Variable ttl_seconds : Z.

(** C4, as the code has it.  For a POST request: when the Idempotency-Key
    header is absent or empty the result is 400 MISSING_IDEMPOTENCY_KEY;
    when it is present, non-empty and [uuid.UUID] rejects it (it is not the
    text of a UUID of any version) the result is 400
    INVALID_IDEMPOTENCY_KEY; in both cases the store is untouched and the
    inner handler is not invoked. *)
Theorem post_requires_uuid_key
  (now : Z) (stamp : string) (request : Request) (w : World) :
  method request = "POST" ->
  ((idempotency_key request = None \/ idempotency_key request = Some "") ->
   is_error "MISSING_IDEMPOTENCY_KEY"
     (fst (dispatch uuid_accepts app ttl_seconds now stamp request w))
   /\ snd (dispatch uuid_accepts app ttl_seconds now stamp request w) = w)
  /\ (forall key,
        idempotency_key request = Some key -> key <> "" ->
        uuid_accepts key = false ->
        is_error "INVALID_IDEMPOTENCY_KEY"
          (fst (dispatch uuid_accepts app ttl_seconds now stamp request w))
        /\ snd (dispatch uuid_accepts app ttl_seconds now stamp request w) = w).
Proof.
  intros M. unfold dispatch. rewrite M. cbn [str_in existsb String.eqb Ascii.eqb
    Bool.eqb negb orb]. split.
  - intros [-> | ->]; (split; [split; [reflexivity|eexists; reflexivity]|reflexivity]).
  - intros key -> NE R. rewrite R. destruct key as [|c key]; [now elim NE|].
    cbn [negb]. split; [split; [reflexivity|eexists; reflexivity]|reflexivity].
Qed.

End Dispatch.

Lemma post_requires_uuid_key_witness :
  method (post (Some "not-a-uuid")) = "POST"
  /\ UUID_accepts "not-a-uuid" = false
  /\ is_error "INVALID_IDEMPOTENCY_KEY"
       (fst (dispatch UUID_accepts ok_app 3600 0 "" (post (Some "not-a-uuid"))
               empty_world)).
Proof.
  assert (M : method (post (Some "not-a-uuid")) = "POST") by reflexivity.
  assert (R : UUID_accepts "not-a-uuid" = false) by (vm_compute; reflexivity).
  split; [exact M|]. split; [exact R|].
  refine (proj1 (proj2 (post_requires_uuid_key UUID_accepts ok_app 3600 0 ""
                          (post (Some "not-a-uuid")) empty_world M)
                   "not-a-uuid" eq_refl _ R)).
  discriminate.
Defined.

(** C4 fails as stated.  A version-1 UUID string is present and is not a
    well-formed version-4 UUID string, yet [uuid.UUID] accepts it: the
    request goes through to the inner handler and is answered 200.  And a
    header that is present but empty is answered MISSING_IDEMPOTENCY_KEY,
    not INVALID_IDEMPOTENCY_KEY. *)
Lemma post_key_version_counterexample :
  is_uuid4_string v1_key = false
  /\ UUID_accepts v1_key = true
  /\ status_code (fst (dispatch UUID_accepts ok_app 3600 0 "" (post (Some v1_key))
                         empty_world)) = 200%Z
  /\ handled (snd (dispatch UUID_accepts ok_app 3600 0 "" (post (Some v1_key))
                     empty_world)) = [post (Some v1_key)]
  /\ is_uuid4_string "" = false
  /\ content (fst (dispatch UUID_accepts ok_app 3600 0 "" (post (Some ""))
                     empty_world))
     = ErrorEnvelope "MISSING_IDEMPOTENCY_KEY"
         "Idempotency-Key header is required for POST requests".
Proof. repeat split; vm_compute; reflexivity. Qed.

End IdempotencyFacts.

(* ------------------------------------------------------------------------- *)
(** ** Payment initiation *)

Module PaymentsFacts.
Import Payments.

Definition sample_request (amt : string) : PaymentInitiateRequest :=
  mkPaymentInitiateRequest amt "USD" "A" "B" "TRADE" "PVP".

Definition sample_key : string := "550e8400-e29b-41d4-a716-446655440000".

Definition fresh_world : World := mkWorld [] true [] true.

Section Initiate.
Variable float : string -> option Q.

Ltac run :=
  unfold initiate_payment, float_or_raise, Py.try_except, Py.bindM, Py.lift,
    Py.raise, Py.ret;
  rewrite ?Uuidv7Facts.generate_uuidv7_returns.

(** C10, as the code has it.  A request whose amount string is not empty and
    does not parse as a number is rejected with INTERNAL_ERROR (HTTP 500),
    not VALIDATION_ERROR: the conversion raises inside the validation and
    the generic handler catches it.  No row is inserted and no event is
    published. *)
Theorem unparsable_amount_is_internal_error
  (idempotency_key_unique : bool) (request : PaymentInitiateRequest)
  (idempotency_key : string) (timestamp_ms uuid4_a uuid4_b uuid4_uetr now : Z)
  (trace_id : option string) (w : World) :
  amount request <> "" -> float (amount request) = None ->
  initiate_payment float idempotency_key_unique request idempotency_key
    timestamp_ms uuid4_a uuid4_b uuid4_uetr now trace_id w
  = (Py.Raise (PaymentError "Failed to initiate payment" Py.INTERNAL_ERROR), w)
  /\ Py.http_response
       (fst (initiate_payment float idempotency_key_unique request
               idempotency_key timestamp_ms uuid4_a uuid4_b uuid4_uetr now
               trace_id w))
     = Py.mkResponse 500 (Some "INTERNAL_ERROR")
  /\ payments
       (snd (initiate_payment float idempotency_key_unique request
               idempotency_key timestamp_ms uuid4_a uuid4_b uuid4_uetr now
               trace_id w)) = payments w
  /\ events
       (snd (initiate_payment float idempotency_key_unique request
               idempotency_key timestamp_ms uuid4_a uuid4_b uuid4_uetr now
               trace_id w)) = events w.
Proof.
  intros NE F.
  assert (E : initiate_payment float idempotency_key_unique request
                idempotency_key timestamp_ms uuid4_a uuid4_b uuid4_uetr now
                trace_id w
              = (Py.Raise (PaymentError "Failed to initiate payment"
                             Py.INTERNAL_ERROR), w)).
  { run. apply String.eqb_neq in NE. rewrite NE, F. reflexivity. }
  rewrite E. repeat split.
Qed.

End Initiate.

Lemma unparsable_amount_is_internal_error_witness :
  amount (sample_request "abc") <> "" /\ float_decimal "abc" = None
  /\ Py.http_response
       (fst (initiate_payment float_decimal true (sample_request "abc") sample_key
               1700000000000 5 6 7 1700000000 None fresh_world))
     = Py.mkResponse 500 (Some "INTERNAL_ERROR").
Proof.
  assert (NE : amount (sample_request "abc") <> "") by discriminate.
  assert (F : float_decimal (amount (sample_request "abc")) = None) by reflexivity.
  split; [exact NE|]. split; [exact F|].
  exact (proj1 (proj2 (unparsable_amount_is_internal_error float_decimal true
                         (sample_request "abc") sample_key 1700000000000 5 6 7
                         1700000000 None fresh_world NE F))).
Defined.

(** C10 fails as stated on the empty amount string: it does not parse as a
    number, and the guard [not request.amount] rejects it with
    VALIDATION_ERROR (400) before any conversion. *)
Lemma empty_amount_counterexample :
  float_decimal "" = None
  /\ initiate_payment float_decimal true (sample_request "") sample_key
       1700000000000 5 6 7 1700000000 None fresh_world
     = (Py.Raise (ValidationError "Amount must be positive" "amount"), fresh_world)
  /\ Py.http_response
       (fst (initiate_payment float_decimal true (sample_request "") sample_key
               1700000000000 5 6 7 1700000000 None fresh_world))
     = Py.mkResponse 400 (Some "VALIDATION_ERROR").
Proof. repeat split. Qed.

(** *** One row per idempotency key *)

Section Conflict.
Variable float : string -> option Q.
Variable idempotency_key_unique : bool.

Ltac run :=
  unfold initiate_payment, float_or_raise, insert_returning, publish,
    Py.try_except, Py.bindM, Py.lift, Py.raise, Py.ret;
  rewrite ?Uuidv7Facts.generate_uuidv7_returns.

Ltac split_case :=
  match goal with
  | |- context [if ?b then _ else _] => destruct b eqn:?
  | |- context [match float ?s with _ => _ end] => destruct (float s) eqn:?
  end.

Ltac split_cases :=
  match goal with
  | |- context [Uuidv7.uuid_int ?t ?a ?b] =>
      generalize (Uuidv7.uuid_int t a b); intros id
  end;
  cbn; repeat (split_case; cbn).

(** The table after a call: unchanged, or extended by one row that bears the
    call's key, which no earlier row bore if the table declares the key
    unique. *)
Lemma initiate_payment_table
  (request : PaymentInitiateRequest) (K : string)
  (timestamp_ms uuid4_a uuid4_b uuid4_uetr now : Z) (trace_id : option string)
  (w : World) :
  payments (snd (initiate_payment float idempotency_key_unique request K
                   timestamp_ms uuid4_a uuid4_b uuid4_uetr now trace_id w))
  = payments w
  \/ exists row,
       payments (snd (initiate_payment float idempotency_key_unique request K
                        timestamp_ms uuid4_a uuid4_b uuid4_uetr now trace_id w))
       = (payments w ++ [row])%list
       /\ row_idempotency_key row = K
       /\ (idempotency_key_unique = true ->
           existsb (fun r => String.eqb (row_idempotency_key r) K) (payments w)
           = false).
Proof.
  run. split_cases; try (left; reflexivity); right; eexists;
    (split; [reflexivity|]); (split; [reflexivity|]); intros U;
    rewrite U in *; cbn [andb row_idempotency_key] in *; assumption.
Qed.

End Conflict.

Lemma rows_bearing_none K rows :
  existsb (fun r => String.eqb (row_idempotency_key r) K) rows = false ->
  rows_bearing K rows = [].
Proof.
  induction rows as [|r rows IH]; simpl; [reflexivity|].
  intros H. apply orb_false_iff in H. destruct H as [H1 H2].
  rewrite H1. auto.
Qed.

Lemma rows_bearing_app K rows rows' :
  rows_bearing K (rows ++ rows') = (rows_bearing K rows ++ rows_bearing K rows')%list.
Proof. apply filter_app. Qed.

Lemma bearing_exists K rows :
  (exists r, In r rows /\ row_idempotency_key r = K) ->
  existsb (fun r => String.eqb (row_idempotency_key r) K) rows = true.
Proof.
  intros [r [I E]]. apply existsb_exists. exists r. split; [exact I|].
  now apply String.eqb_eq.
Qed.

Section Repeated.
Variable float : string -> option Q.

Ltac run :=
  unfold initiate_payment, float_or_raise, insert_returning, publish,
    Py.try_except, Py.bindM, Py.lift, Py.raise, Py.ret;
  rewrite ?Uuidv7Facts.generate_uuidv7_returns.

(** C5, as the code has it.  Where the [payments] table declares
    [idempotency_key] unique: every call keeps at most one row per key; and
    a call that passes validation under a key K that a row already bears
    fails with INTERNAL_ERROR (HTTP 500), the insert conflict being caught
    by the generic handler, leaving the table and the bus as they were.  The
    existing row is not returned. *)
Theorem repeated_initiate_conflicts
  (request : PaymentInitiateRequest) (K : string)
  (timestamp_ms uuid4_a uuid4_b uuid4_uetr now : Z) (trace_id : option string)
  (w : World) :
  (at_most_one_row_per_key (payments w) ->
   at_most_one_row_per_key
     (payments (snd (initiate_payment float true request K timestamp_ms
                       uuid4_a uuid4_b uuid4_uetr now trace_id w))))
  /\ ((exists r, In r (payments w) /\ row_idempotency_key r = K) ->
      amount request <> "" ->
      (exists x, float (amount request) = Some x /\ (0 < x)%Q) ->
      String.length (currency request) = 3%nat ->
      initiate_payment float true request K timestamp_ms uuid4_a uuid4_b
        uuid4_uetr now trace_id w
      = (Py.Raise (PaymentError "Failed to initiate payment" Py.INTERNAL_ERROR), w)
      /\ Py.http_response
           (fst (initiate_payment float true request K timestamp_ms uuid4_a
                   uuid4_b uuid4_uetr now trace_id w))
         = Py.mkResponse 500 (Some "INTERNAL_ERROR")).
Proof.
  split.
  - intros I K'.
    destruct (initiate_payment_table float true request K timestamp_ms uuid4_a
                uuid4_b uuid4_uetr now trace_id w) as [-> | [row [-> [E U]]]];
      [apply I|].
    rewrite rows_bearing_app. unfold rows_bearing at 2. cbn [filter].
    rewrite E. destruct (String.eqb_spec K K') as [<-|N].
    + rewrite (rows_bearing_none K _ (U eq_refl)). simpl. lia.
    + rewrite app_nil_r. apply I.
  - intros B NE [x [F P]] L.
    assert (E : initiate_payment float true request K timestamp_ms uuid4_a
                  uuid4_b uuid4_uetr now trace_id w
                = (Py.Raise (PaymentError "Failed to initiate payment"
                               Py.INTERNAL_ERROR), w)).
    { run. apply String.eqb_neq in NE. rewrite NE, F.
      assert (Q0 : Qle_bool x 0 = false).
      { apply not_true_iff_false. rewrite Qle_bool_iff. now apply Qlt_not_le. }
      cbv beta iota. rewrite Q0, L.
      cbn [Nat.eqb negb row_idempotency_key andb]. cbv beta iota.
      rewrite (bearing_exists K _ B).
      destruct (database_available w); cbn [negb]; [|reflexivity].
      destruct (existsb _ (payments w)); reflexivity. }
    rewrite E. split; reflexivity.
Qed.

End Repeated.

(** The world after a first successful call under [sample_key]. *)
Definition after_first_call (idempotency_key_unique : bool) : World :=
  snd (initiate_payment float_decimal idempotency_key_unique
         (sample_request "100.00") sample_key 1700000000000 5 6 7 1700000000 None
         fresh_world).

Lemma repeated_initiate_conflicts_witness :
  (exists r, In r (payments (after_first_call true))
             /\ row_idempotency_key r = sample_key)
  /\ Py.http_response
       (fst (initiate_payment float_decimal true (sample_request "100.00")
               sample_key 1700000000001 8 9 10 1700000001 None
               (after_first_call true)))
     = Py.mkResponse 500 (Some "INTERNAL_ERROR").
Proof.
  assert (B : exists r, In r (payments (after_first_call true))
                        /\ row_idempotency_key r = sample_key).
  { eexists. split; [left; reflexivity|reflexivity]. }
  split; [exact B|].
  refine (proj2 (proj2 (repeated_initiate_conflicts float_decimal
                          (sample_request "100.00") sample_key 1700000000001
                          8 9 10 1700000001 None (after_first_call true))
                   B _ _ eq_refl)).
  - discriminate.
  - exists (10000 # 100)%Q. split; reflexivity.
Defined.

(** C5 fails as stated.  After a first successful call under a key, a second
    call under the same key does fail where the table declares the key
    unique (INTERNAL_ERROR, not the existing row); and where it does not,
    the second call succeeds and two rows bear the key. *)
Lemma repeated_initiate_counterexample :
  List.length (rows_bearing sample_key (payments (after_first_call true))) = 1%nat
  /\ fst (initiate_payment float_decimal true (sample_request "100.00")
            sample_key 1700000000001 8 9 10 1700000001 None
            (after_first_call true))
     = Py.Raise (PaymentError "Failed to initiate payment" Py.INTERNAL_ERROR)
  /\ List.length
       (rows_bearing sample_key
          (payments
             (snd (initiate_payment float_decimal false (sample_request "100.00")
                     sample_key 1700000000001 8 9 10 1700000001 None
                     (after_first_call false))))) = 2%nat.
Proof. repeat split; vm_compute; reflexivity. Qed.

End PaymentsFacts.

(* ------------------------------------------------------------------------- *)
(** ** Quote execution *)

Module LiquidityFacts.
Import stdpp.base stdpp.strings stdpp.gmap.
Import Liquidity.

Ltac run :=
  unfold execute_quote, redis_get, redis_delete, publish, Py.try_except,
    Py.bindM, Py.lift, Py.raise, Py.ret.

Definition sample_quote : LiquidityQuote :=
  mkLiquidityQuote "q1" "USD" "EUR" 1000 (85 # 100) (848 # 1000) (2 # 1000)
    "Treasury Desk" 30 1700000030 (9 # 10).

(** A store holding [sample_quote] under ["quote:q1"], with its 30 s TTL. *)
Definition quoted_world : World :=
  mkWorld
    (Redis.mkServer
       (<["quote:q1" := Redis.mkEntry sample_quote (Some 1700000030%Z)]> ∅) true)
    [] true.

Lemma generate_uuidv7_not_global :
  load_global module_globals "generate_uuidv7"
  = Py.Raise (Py.NameError "generate_uuidv7").
Proof. reflexivity. Qed.

(** C6, on the code as it stands.  With no live record
    under [quote:<id>] the result is 404; with a record whose [expires_at]
    is past, 410; with a record that is still valid the name
    [generate_uuidv7] is looked up among the module's globals, where it is
    not bound: the [NameError] is caught by the generic handler and the
    result is EXTERNAL_SERVICE_ERROR (502), with the record still in the
    store and nothing published. *)
Theorem execute_quote_outcomes
  (quote_id : string) (now timestamp_ms uuid4_a uuid4_b : Z) (w : World) :
  (Redis.get now ("quote:" ++ quote_id) (redis w) = Py.Return None ->
   execute_quote module_globals quote_id now timestamp_ms uuid4_a uuid4_b w
   = (Py.Raise (Py.HTTPException 404 "Quote not found or expired"), w))
  /\ (forall quote,
        Redis.get now ("quote:" ++ quote_id) (redis w) = Py.Return (Some quote) ->
        (now > expires_at quote)%Z ->
        execute_quote module_globals quote_id now timestamp_ms uuid4_a uuid4_b w
        = (Py.Raise (Py.HTTPException 410 "Quote has expired"), w))
  /\ (forall quote,
        Redis.get now ("quote:" ++ quote_id) (redis w) = Py.Return (Some quote) ->
        (now <= expires_at quote)%Z ->
        execute_quote module_globals quote_id now timestamp_ms uuid4_a uuid4_b w
        = (Py.Raise (ExternalServiceError "Failed to execute quote"), w)
        /\ Py.http_response
             (fst (execute_quote module_globals quote_id now timestamp_ms
                     uuid4_a uuid4_b w))
           = Py.mkResponse 502 (Some "EXTERNAL_SERVICE_ERROR")).
Proof.
  split; [|split].
  - intros G. run. rewrite G. reflexivity.
  - intros quote G E. run. rewrite G. cbv beta iota.
    destruct (Z.gtb_spec now (expires_at quote)); [reflexivity|lia].
  - intros quote G E.
    assert (X : execute_quote module_globals quote_id now timestamp_ms uuid4_a
                  uuid4_b w
                = (Py.Raise (ExternalServiceError "Failed to execute quote"), w)).
    { run. rewrite G. cbv beta iota.
      destruct (Z.gtb_spec now (expires_at quote)); [lia|].
      rewrite generate_uuidv7_not_global. reflexivity. }
    rewrite X. split; reflexivity.
Qed.

Lemma execute_quote_outcomes_witness :
  Redis.get 1700000010 "quote:q1" (redis quoted_world) = Py.Return (Some sample_quote)
  /\ (1700000010 <= expires_at sample_quote)%Z
  /\ execute_quote module_globals "q1" 1700000010 1700000010000 5 6 quoted_world
     = (Py.Raise (ExternalServiceError "Failed to execute quote"), quoted_world).
Proof.
  assert (G : Redis.get 1700000010 ("quote:" ++ "q1") (redis quoted_world)
              = Py.Return (Some sample_quote)) by (vm_compute; reflexivity).
  assert (E : (1700000010 <= expires_at sample_quote)%Z) by (vm_compute; discriminate).
  split; [exact G|]. split; [exact E|].
  exact (proj1 (proj2 (proj2 (execute_quote_outcomes "q1" 1700000010
                                1700000010000 5 6 quoted_world))
                  sample_quote G E)).
Defined.

(** Were [generate_uuidv7] bound at module level, a valid quote would be
    executed once: the record is deleted, the event published, and a second
    call finds nothing. *)
Lemma execute_quote_with_import
  (globals : list string) (quote_id : string)
  (now timestamp_ms uuid4_a uuid4_b : Z) (w : World) (quote : LiquidityQuote) :
  load_global globals "generate_uuidv7" = Py.Return tt ->
  Redis.get now ("quote:" ++ quote_id) (redis w) = Py.Return (Some quote) ->
  (now <= expires_at quote)%Z -> bus_connected w = true ->
  exists result w',
    execute_quote globals quote_id now timestamp_ms uuid4_a uuid4_b w
    = (Py.Return result, w')
    /\ events w' = (events w ++ [("liquidity.quote_executed", result)])%list
    /\ forall now' ts' a' b',
         execute_quote globals quote_id now' ts' a' b' w'
         = (Py.Raise (Py.HTTPException 404 "Quote not found or expired"), w').
Proof.
  intros L G E B. run. rewrite G. cbv beta iota.
  destruct (Z.gtb_spec now (expires_at quote)); [lia|].
  rewrite L, Uuidv7Facts.generate_uuidv7_returns. cbv beta iota.
  unfold Redis.get in G. unfold Redis.delete.
  destruct (Redis.available (redis w)) eqn:A; [|discriminate].
  cbn [redis events bus_connected]. rewrite B.
  eexists. eexists. split; [reflexivity|]. split; [reflexivity|].
  intros now' ts' a' b'. cbn [redis]. unfold Redis.get.
  cbn [Redis.available Redis.keys]. rewrite ?A, lookup_delete_eq. reflexivity.
Qed.

End LiquidityFacts.

(* ------------------------------------------------------------------------- *)
(** ** Identifier helpers *)

Module UuidHelpersFacts.
Import Uuidv7 UuidHelpers.
Local Open Scope Z_scope.

Ltac compare_cases :=
  repeat match goal with
  | |- context [?a <? ?b] => destruct (Z.ltb_spec a b)
  | |- context [?a <=? ?b] => destruct (Z.leb_spec a b)
  | |- context [?a =? ?b] => destruct (Z.eqb_spec a b)
  end.

Lemma land_pow2 x n :
  0 <= n -> Z.land x (2 ^ n) = if Z.testbit x n then 2 ^ n else 0.
Proof.
  intros Hn. apply Z.bits_inj'. intros i Hi.
  rewrite Z.land_spec, Z.pow2_bits_eqb by lia.
  destruct (Z.eqb_spec n i) as [->|N].
  - destruct (Z.testbit x i); [|now rewrite Z.bits_0].
    rewrite Z.pow2_bits_eqb, Z.eqb_refl by lia. reflexivity.
  - rewrite andb_false_r. destruct (Z.testbit x n); [|now rewrite Z.bits_0].
    rewrite Z.pow2_bits_eqb by lia. symmetry. now apply Z.eqb_neq.
Qed.

Lemma bit_is_clear x n :
  0 <= n -> (Z.land x (2 ^ n) =? 0) = negb (Z.testbit x n).
Proof.
  intros Hn. rewrite land_pow2 by lia. destruct (Z.testbit x n); [|reflexivity].
  apply Z.eqb_neq. pose proof (Z.pow_pos_nonneg 2 n). lia.
Qed.

(** The variant is RFC 4122 exactly when bit 63 is set and bit 62 clear. *)
Lemma variant_rfc_4122 x :
  Z.testbit x 63 = true -> Z.testbit x 62 = false -> variant x = RFC_4122.
Proof.
  intros H63 H62. unfold variant.
  change (Z.shiftl 0x8000 48) with (2 ^ 63).
  change (Z.shiftl 0x4000 48) with (2 ^ 62).
  rewrite !bit_is_clear, H63, H62 by lia. reflexivity.
Qed.

Lemma version_uuid_int ts a b : version (uuid_int ts a b) = Some 7.
Proof.
  unfold version. rewrite variant_rfc_4122.
  - f_equal. apply (Uuidv7Facts.field_version ts a b).
  - rewrite Uuidv7Facts.testbit_uuid_int by lia. reflexivity.
  - rewrite Uuidv7Facts.testbit_uuid_int by lia. reflexivity.
Qed.

Lemma testbit_shifted_ones width lo i :
  0 <= width -> 0 <= lo -> 0 <= i ->
  Z.testbit (Z.shiftl (Z.ones width) lo) i = (lo <=? i) && (i <? lo + width).
Proof.
  intros Hw Hl Hi. rewrite Z.shiftl_spec by lia.
  destruct (Z.leb_spec lo i).
  - rewrite Z.testbit_ones by lia. compare_cases; simpl; try reflexivity; lia.
  - now rewrite Z.testbit_neg_r by lia.
Qed.

(** The bits of a version-4 UUID: the variant and version fields are fixed,
    the others are the random ones. *)
Lemma testbit_uuid4 r i :
  0 <= i ->
  Z.testbit (uuid4 r) i =
  if (62 <=? i) && (i <? 64) then i =? 63
  else if (76 <=? i) && (i <? 80) then i =? 78
  else Z.testbit r i.
Proof.
  intros Hi. unfold uuid4. cbv zeta.
  change (Z.shiftl 0xc000 48) with (Z.shiftl (Z.ones 2) 62).
  change (Z.shiftl 0x8000 48) with (Z.shiftl (Z.ones 1) 63).
  change (Z.shiftl 0xf000 64) with (Z.shiftl (Z.ones 4) 76).
  change (Z.shiftl 4 76) with (Z.shiftl (Z.ones 1) 78).
  rewrite !Z.lor_spec, !Z.land_spec, !Z.lnot_spec, !Z.lor_spec, !Z.land_spec,
    !Z.lnot_spec by lia.
  rewrite !testbit_shifted_ones by lia.
  compare_cases; try lia; simpl;
    rewrite ?andb_true_r, ?andb_false_r, ?orb_false_r, ?orb_true_r;
    reflexivity.
Qed.

Lemma version_uuid4 r : version (uuid4 r) = Some 4.
Proof.
  unfold version. rewrite variant_rfc_4122.
  - f_equal. apply Z.bits_inj'. intros i Hi.
    change 0xf with (Z.ones 4). change 4 with (Z.shiftl (Z.ones 1) 2) at 2.
    rewrite Z.land_spec, Z.shiftr_spec, Z.testbit_ones, testbit_uuid4,
      testbit_shifted_ones by lia.
    compare_cases; try lia; simpl; rewrite ?andb_false_r; reflexivity.
  - now rewrite testbit_uuid4 by lia.
  - now rewrite testbit_uuid4 by lia.
Qed.

(** X1.  Round trip: for a clock reading that fits in 48 bits, the id that
    [generate_uuidv7] returns passes [is_uuidv7] and
    [extract_timestamp_from_uuidv7] gives back the reading, in seconds. *)
Theorem uuidv7_timestamp_round_trip (ts a b : Z) :
  0 <= ts < 2 ^ 48 ->
  exists id,
    generate_uuidv7 ts a b = Py.Return id
    /\ is_uuidv7 (Obj id) = true
    /\ extract_timestamp_from_uuidv7 (Obj id)
       = Py.Return (inject_Z ts / 1000)%Q.
Proof.
  intros Hts. exists (uuid_int ts a b).
  split; [apply Uuidv7Facts.generate_uuidv7_returns|].
  unfold is_uuidv7, extract_timestamp_from_uuidv7, as_UUID, Py.bind, version_is.
  rewrite version_uuid_int. split; [reflexivity|].
  cbn [Z.eqb Pos.eqb negb].
  change (Z.land (Z.shiftr (uuid_int ts a b) 80) 0xFFFFFFFFFFFF)
    with (extract_timestamp_ms (uuid_int ts a b)).
  now rewrite Uuidv7Facts.extract_timestamp.
Qed.

Lemma uuidv7_timestamp_round_trip_witness :
  exists id,
    generate_uuidv7 1700000000000 5 6 = Py.Return id
    /\ extract_timestamp_from_uuidv7 (Obj id)
       = Py.Return (inject_Z 1700000000000 / 1000)%Q.
Proof.
  destruct (uuidv7_timestamp_round_trip 1700000000000 5 6 ltac:(lia))
    as [id [G [_ E]]].
  exists id. split; [exact G|exact E].
Defined.

(** X2.  Transaction ids and UETRs are told apart.  Every UETR is a
    version-4 UUID: [validate_uetr] accepts it, [is_uuidv7] rejects it and
    [extract_timestamp_from_uuidv7] raises [ValueError] on it; and no id
    returned by [generate_uuidv7] passes [validate_uetr]. *)
Theorem uetr_and_uuidv7_are_told_apart (random ts a b : Z) :
  validate_uetr (Obj (generate_uetr random)) = true
  /\ is_uuidv7 (Obj (generate_uetr random)) = false
  /\ extract_timestamp_from_uuidv7 (Obj (generate_uetr random))
     = Py.Raise Py.ValueError
  /\ exists id,
       generate_uuidv7 ts a b = Py.Return id
       /\ validate_uetr (Obj id) = false.
Proof.
  unfold validate_uetr, is_uuidv7, extract_timestamp_from_uuidv7, as_UUID,
    Py.bind, version_is, generate_uetr.
  rewrite version_uuid4. repeat split.
  exists (uuid_int ts a b).
  split; [apply Uuidv7Facts.generate_uuidv7_returns|].
  now rewrite version_uuid_int.
Qed.

End UuidHelpersFacts.

(* ------------------------------------------------------------------------- *)
(** ** Netting: order, offsetting, currencies *)

Module SettlementExtras.
Import Settlement SettlementFacts.
Local Open Scope Q_scope.










(** *** Currencies are netted independently *)

Definition in_currency (X : string) (p : Position) : bool :=
  String.eqb (position_currency p) X.

(** The entries of currency [X]. *)
Definition restrict (X : string) (d : Positions) : Positions :=
  filter (fun e => in_currency X (snd e)) d.

(** Every entry under key [k] has currency [c]. *)
Definition key_has_currency (k c : string) (d : Positions) : Prop :=
  forall p, In (k, p) d -> position_currency p = c.

Lemma consistent_key_currency d a c :
  consistent d -> three_letter d -> String.length c = 3%nat ->
  key_has_currency (key_of a c) c d.
Proof.
  intros C T L p I.
  unfold consistent in C. rewrite Forall_forall in C.
  unfold three_letter in T. rewrite Forall_forall in T.
  destruct (C _ I) as [K _]. specialize (T _ I). simpl in K, T.
  unfold position_key in K. apply key_of_inj in K; [|congruence].
  now destruct K.
Qed.

Lemma key_has_currency_tail k c e d :
  key_has_currency k c (e :: d) -> key_has_currency k c d.
Proof. intros H p I. apply H. now right. Qed.

Lemma restrict_update_same X k f d :
  key_has_currency k X d ->
  restrict X (update_amount k f d) = update_amount k f (restrict X d).
Proof.
  induction d as [|[k' p] d IH]; intros H; [reflexivity|].
  pose proof (IH (key_has_currency_tail _ _ _ _ H)) as IH'.
  simpl. destruct (String.eqb_spec k k') as [->|N]; simpl.
  - assert (E : position_currency p = X) by (apply H; now left).
    unfold in_currency. simpl. rewrite E, String.eqb_refl. simpl.
    now rewrite String.eqb_refl.
  - destruct (in_currency X p); simpl; [|exact IH'].
    destruct (String.eqb_spec k k'); [contradiction|]. now rewrite IH'.
Qed.

Lemma restrict_update_other X k c f d :
  key_has_currency k c d -> c <> X ->
  restrict X (update_amount k f d) = restrict X d.
Proof.
  induction d as [|[k' p] d IH]; intros H N; [reflexivity|].
  pose proof (IH (key_has_currency_tail _ _ _ _ H) N) as IH'.
  simpl. destruct (String.eqb_spec k k') as [->|N']; simpl.
  - assert (E : position_currency p = c) by (apply H; now left).
    unfold in_currency. simpl. rewrite E.
    apply String.eqb_neq in N. now rewrite N.
  - now rewrite IH'.
Qed.

Lemma contains_restrict X k d :
  key_has_currency k X d -> contains k (restrict X d) = contains k d.
Proof.
  induction d as [|[k' p] d IH]; intros H; [reflexivity|].
  pose proof (IH (key_has_currency_tail _ _ _ _ H)) as IH'.
  simpl. destruct (String.eqb_spec k k') as [->|N].
  - assert (E : position_currency p = X) by (apply H; now left).
    unfold in_currency. rewrite E, String.eqb_refl. simpl.
    now rewrite String.eqb_refl.
  - destruct (in_currency X p); simpl; [|exact IH'].
    destruct (String.eqb_spec k k'); [contradiction|exact IH'].
Qed.

Lemma restrict_ensure_same X k a d :
  key_has_currency k X d ->
  restrict X (ensure k a X d) = ensure k a X (restrict X d).
Proof.
  intros H. unfold ensure. rewrite (contains_restrict X k d H).
  destruct (contains k d); [reflexivity|].
  unfold restrict. rewrite filter_app. simpl. unfold in_currency. simpl.
  now rewrite String.eqb_refl.
Qed.

Lemma restrict_ensure_other X k a c d :
  c <> X -> restrict X (ensure k a c d) = restrict X d.
Proof.
  intros N. unfold ensure. destruct (contains k d); [reflexivity|].
  unfold restrict. rewrite filter_app. simpl. unfold in_currency. simpl.
  apply String.eqb_neq in N. rewrite N. apply app_nil_r.
Qed.

Lemma restrict_step X d t :
  consistent d -> three_letter d -> String.length (currency t) = 3%nat ->
  restrict X (step d t)
  = if String.eqb (currency t) X then step (restrict X d) t else restrict X d.
Proof.
  intros C T L. unfold step. cbv zeta.
  set (kd := key_of (debtor_account t) (currency t)).
  set (kc := key_of (creditor_account t) (currency t)).
  set (d1 := ensure kd (debtor_account t) (currency t) d).
  set (d2 := update_amount kd (fun a => a - amount t) d1).
  set (d3 := ensure kc (creditor_account t) (currency t) d2).
  assert (C1 : consistent d1)
    by (apply Forall_ensure; [split; reflexivity|assumption]).
  assert (T1 : three_letter d1) by (apply Forall_ensure; [exact L|assumption]).
  assert (C2 : consistent d2)
    by (apply Forall_update_amount; [intros ? ? ? Hp; exact Hp|assumption]).
  assert (T2 : three_letter d2)
    by (apply Forall_update_amount; [intros ? ? ? Hp; exact Hp|assumption]).
  assert (C3 : consistent d3)
    by (apply Forall_ensure; [split; reflexivity|assumption]).
  assert (T3 : three_letter d3) by (apply Forall_ensure; [exact L|assumption]).
  pose proof (consistent_key_currency d (debtor_account t) _ C T L) as K0.
  pose proof (consistent_key_currency d1 (debtor_account t) _ C1 T1 L) as K1.
  pose proof (consistent_key_currency d2 (creditor_account t) _ C2 T2 L) as K2.
  pose proof (consistent_key_currency d3 (creditor_account t) _ C3 T3 L) as K3.
  fold kd in K0, K1. fold kc in K2, K3.
  destruct (String.eqb_spec (currency t) X) as [E|N].
  - subst X. unfold d3, d2, d1 in *.
    rewrite restrict_update_same by assumption.
    rewrite restrict_ensure_same by assumption.
    rewrite restrict_update_same by assumption.
    rewrite restrict_ensure_same by assumption.
    reflexivity.
  - unfold d3, d2, d1 in *.
    rewrite (restrict_update_other X kc (currency t)) by assumption.
    rewrite restrict_ensure_other by assumption.
    rewrite (restrict_update_other X kd (currency t)) by assumption.
    now rewrite restrict_ensure_other by assumption.
Qed.

Lemma restrict_fold X l : forall d,
  well_formed l -> invariant d ->
  restrict X (fold_left step l d)
  = fold_left step (filter (fun t => String.eqb (currency t) X) l) (restrict X d).
Proof.
  induction l as [|t l IH]; intros d W I; [reflexivity|].
  inversion W as [|? ? Ht W']; subst. destruct I as [I1 I2 I3].
  cbn [fold_left filter]. rewrite IH; [|assumption|].
  - rewrite restrict_step by assumption.
    destruct (String.eqb (currency t) X); reflexivity.
  - constructor.
    + now apply consistent_step.
    + now apply three_letter_step.
    + now apply NoDup_keys_step.
Qed.

Lemma emit_in_currency X vs :
  filter (in_currency X) (emit vs) = emit (filter (in_currency X) vs).
Proof.
  induction vs as [|q vs IH]; [reflexivity|].
  rewrite emit_cons. cbn [filter].
  destruct (significant (position_amount q)) eqn:S; cbn [filter].
  - change (in_currency X (emitted q)) with (in_currency X q).
    destruct (in_currency X q); [|exact IH].
    rewrite emit_cons, S. now rewrite IH.
  - destruct (in_currency X q); [|exact IH].
    rewrite emit_cons, S. exact IH.
Qed.

Lemma values_restrict X d :
  map snd (restrict X d) = filter (in_currency X) (map snd d).
Proof.
  induction d as [|[k p] d IH]; [reflexivity|].
  simpl. destruct (in_currency X p); simpl; now rewrite IH.
Qed.

(** X5.  Currencies are netted independently: the net positions of currency
    X, in the order they are listed, are exactly the net positions computed
    from the payments of currency X alone. *)
Theorem netting_by_currency (transactions : list Txn) (X : string) :
  well_formed transactions ->
  filter (in_currency X) (_calculate_net_positions transactions)
  = _calculate_net_positions
      (filter (fun t => String.eqb (currency t) X) transactions).
Proof.
  intros W. unfold _calculate_net_positions, accumulate.
  rewrite emit_in_currency, <- values_restrict, restrict_fold.
  - reflexivity.
  - exact W.
  - constructor; constructor.
Qed.

(** Two currencies in one batch. *)
Definition two_currencies : list Txn :=
  [ mkTxn "A" "B" "USD" 100; mkTxn "B" "A" "EUR" 30; mkTxn "B" "C" "USD" 40 ].

Lemma netting_by_currency_witness :
  well_formed two_currencies
  /\ filter (in_currency "EUR") (_calculate_net_positions two_currencies)
     = _calculate_net_positions [ mkTxn "B" "A" "EUR" 30 ].
Proof.
  assert (W : well_formed two_currencies) by (repeat constructor).
  split; [exact W|].
  exact (netting_by_currency two_currencies "EUR" W).
Defined.

End SettlementExtras.

(* ------------------------------------------------------------------------- *)
(** ** Risk assessment: range, review, factors *)

Module RiskAssessmentExtras.
Import RiskAssessment RiskAssessmentFacts.

Definition tag (b : bool) (name : string) : list string :=
  if b then [name] else [].

Ltac decide_case :=
  repeat split; intros;
  repeat match goal with
  | H : _ /\ _ |- _ => destruct H
  | H : _ \/ _ |- _ => destruct H
  end;
  try discriminate; try reflexivity; auto.

(** X6.  The risk score lies between 0 and 50; MANUAL_REVIEW is recommended
    exactly for a high-value payment in a high-risk currency that is also
    high-frequency or made on a weekend, and APPROVE exactly for a payment
    that is not high-value and is not both in a high-risk currency and
    high-frequency or weekend; the risk factors list the checks that fired,
    in the order value, currency, frequency, weekend. *)
Theorem assessment_range_and_review (payments : list Payment) (now : Z)
  (p : Payment) :
  (exists s : Z,
     risk_score (_assess_transaction_risk payments now p) = inject_Z s
     /\ (0 <= s <= 50)%Z)
  /\ (recommended_action (_assess_transaction_risk payments now p)
      = "MANUAL_REVIEW"
      <-> is_high_value p = true /\ is_high_risk_currency p = true
          /\ (is_high_frequency payments now p = true \/ is_weekend now = true))
  /\ (recommended_action (_assess_transaction_risk payments now p) = "APPROVE"
      <-> is_high_value p = false
          /\ (is_high_risk_currency p = false
              \/ (is_high_frequency payments now p = false
                  /\ is_weekend now = false)))
  /\ risk_factors (_assess_transaction_risk payments now p)
     = (tag (is_high_value p) "HIGH_VALUE"
        ++ tag (is_high_risk_currency p) "HIGH_RISK_CURRENCY"
        ++ tag (is_high_frequency payments now p) "HIGH_FREQUENCY"
        ++ tag (is_weekend now) "WEEKEND_TRANSACTION")%list.
Proof.
  unfold _assess_transaction_risk. cbv zeta.
  rewrite frequency_check, currency_check, weekend_check.
  fold (is_high_value p).
  destruct (is_high_value p), (is_high_risk_currency p),
    (is_high_frequency payments now p), (is_weekend now);
    cbn [risk_score recommended_action risk_factors tag app Z.add Z.geb
         Z.compare Pos.compare Pos.compare_cont Pos.add Pos.succ];
    (split; [eexists; split; [reflexivity|lia]|]);
    decide_case.
Qed.

End RiskAssessmentExtras.

(* ------------------------------------------------------------------------- *)
(** ** Idempotency: replay, expiry, pass-through *)

Module IdempotencyExtras.
Import stdpp.base stdpp.strings stdpp.gmap.
Import Idempotency IdempotencyHelpers IdempotencyFacts.

Definition keyed_methods : list string := ["POST"; "PUT"; "PATCH"]%list.

Definition cache_key (key : string) : string := ("idempotency:" ++ key)%string.

Definition successful (r : Response) : Prop :=
  (200 <= status_code r < 300)%Z.

Lemma successful_check r :
  successful r ->
  (200 <=? status_code r)%Z && (status_code r <? 300)%Z = true.
Proof.
  intros [H1 H2]. apply andb_true_iff. split; [now apply Z.leb_le|now apply Z.ltb_lt].
Qed.

Lemma unsuccessful_check r :
  ~ successful r ->
  (200 <=? status_code r)%Z && (status_code r <? 300)%Z = false.
Proof.
  intros H. apply not_true_iff_false. intros E. apply H.
  apply andb_true_iff in E. destruct E as [E1 E2].
  split; [now apply Z.leb_le|now apply Z.ltb_lt].
Qed.

Lemma valid_key_nonempty uuid_accepts key :
  validate_idempotency_key uuid_accepts (Some key) = true ->
  exists c key', key = String c key' /\ uuid_accepts key = true.
Proof.
  destruct key as [|c key']; [discriminate|]. intros H. eauto.
Qed.

Section Dispatch.
Variable uuid_accepts : string -> bool.
Variable app : Request -> Response.
Variable ttl_seconds : Z.

(** The response [dispatch] builds from the handler's. *)
Definition rebuilt (r : Response) : Response :=
  mkResponse (status_code r) (content r) (headers r).

Lemma rebuilt_eq r : rebuilt r = r.
Proof. now destruct r. Qed.

(** The first keyed request that succeeds: the handler runs once and its
    response is stored under the key. *)
Lemma first_dispatch now stamp request key w :
  str_in (method request) keyed_methods = true ->
  idempotency_key request = Some key ->
  validate_idempotency_key uuid_accepts (Some key) = true ->
  Redis.available (redis w) = true ->
  Redis.get now (cache_key key) (redis w) = Py.Return None ->
  successful (app request) ->
  dispatch uuid_accepts app ttl_seconds now stamp request w
  = (rebuilt (app request),
     mkWorld
       (Redis.mkServer
          (<[cache_key key :=
               Redis.mkEntry
                 (mkCacheData (Some (status_code (app request)))
                    (Some (headers (app request))) (content (app request)) stamp)
                 (Some (now + ttl_seconds)%Z)]> (Redis.keys (redis w)))
          true)
       (handled w ++ [request])%list).
Proof.
  intros M K V A G S. destruct (valid_key_nonempty _ _ V) as [c [key' [-> U]]].
  unfold Idempotency.dispatch. fold keyed_methods. rewrite M, K, U.
  cbn [negb]. fold (cache_key (String c key')). rewrite G.
  unfold call_next. cbn [redis handled].
  rewrite (successful_check _ S). unfold Redis.set. rewrite A.
  reflexivity.
Qed.

(** X7.  Replay.  After a keyed request (POST, PUT or PATCH with a key that
    [validate_idempotency_key] accepts) was answered 2xx by the handler and
    stored, any request under the same key that arrives before the TTL has
    run out, whatever its path and body, gets that same response; the
    handler is not invoked again and the store is unchanged. *)
Theorem replay_within_ttl
  (now now' : Z) (stamp stamp' : string) (request request' : Request)
  (key : string) (w : World) :
  str_in (method request) keyed_methods = true ->
  str_in (method request') keyed_methods = true ->
  idempotency_key request = Some key ->
  idempotency_key request' = Some key ->
  validate_idempotency_key uuid_accepts (Some key) = true ->
  Redis.available (redis w) = true ->
  Redis.get now (cache_key key) (redis w) = Py.Return None ->
  successful (app request) ->
  (now <= now' < now + ttl_seconds)%Z ->
  fst (dispatch uuid_accepts app ttl_seconds now stamp request w) = rebuilt (app request)
  /\ handled (snd (dispatch uuid_accepts app ttl_seconds now stamp request w)) = (handled w ++ [request])%list
  /\ dispatch uuid_accepts app ttl_seconds now' stamp' request' (snd (dispatch uuid_accepts app ttl_seconds now stamp request w))
     = (rebuilt (app request), snd (dispatch uuid_accepts app ttl_seconds now stamp request w)).
Proof.
  intros M M' K K' V A G S T.
  rewrite (first_dispatch now stamp request key w M K V A G S).
  cbn [fst snd handled]. split; [reflexivity|]. split; [reflexivity|].
  destruct (valid_key_nonempty _ _ V) as [c [key' [-> U]]].
  unfold Idempotency.dispatch. fold keyed_methods. rewrite M', K', U.
  cbn [negb redis]. fold (cache_key (String c key')).
  unfold Redis.get. cbn [Redis.available Redis.keys].
  rewrite lookup_insert_eq. unfold Redis.live. cbn [Redis.expires_at Redis.value].
  destruct (Z.ltb_spec now' (now + ttl_seconds)); [reflexivity|lia].
Qed.

(** X8.  Expiry.  Once the TTL has run out the stored response is no longer
    replayed: the next request under the key reaches the handler again and
    is answered by it. *)
Theorem handler_runs_again_after_ttl
  (now now' : Z) (stamp stamp' : string) (request request' : Request)
  (key : string) (w : World) :
  str_in (method request) keyed_methods = true ->
  str_in (method request') keyed_methods = true ->
  idempotency_key request = Some key ->
  idempotency_key request' = Some key ->
  validate_idempotency_key uuid_accepts (Some key) = true ->
  Redis.available (redis w) = true ->
  Redis.get now (cache_key key) (redis w) = Py.Return None ->
  successful (app request) ->
  (now + ttl_seconds <= now')%Z ->
  fst (dispatch uuid_accepts app ttl_seconds now' stamp' request' (snd (dispatch uuid_accepts app ttl_seconds now stamp request w)))
  = rebuilt (app request')
  /\ handled (snd (dispatch uuid_accepts app ttl_seconds now' stamp' request'
                     (snd (dispatch uuid_accepts app ttl_seconds now stamp request w))))
     = (handled w ++ [request; request'])%list.
Proof.
  intros M M' K K' V A G S T.
  rewrite (first_dispatch now stamp request key w M K V A G S).
  cbn [fst snd].
  destruct (valid_key_nonempty _ _ V) as [c [key' [-> U]]].
  unfold Idempotency.dispatch. fold keyed_methods. rewrite M', K', U.
  cbn [negb redis]. fold (cache_key (String c key')).
  unfold Redis.get. cbn [Redis.available Redis.keys].
  rewrite lookup_insert_eq. unfold Redis.live. cbn [Redis.expires_at Redis.value].
  destruct (Z.ltb_spec now' (now + ttl_seconds)); [lia|].
  unfold call_next. cbn [redis handled]. rewrite <- app_assoc. cbn [List.app].
  destruct ((200 <=? status_code (app request'))%Z
            && (status_code (app request') <? 300)%Z).
  - unfold Redis.set. cbn [Redis.available]. split; reflexivity.
  - cbn [fst snd handled]. split; [symmetry; apply rebuilt_eq|reflexivity].
Qed.

(** X9.  Failures are not memoised.  When the handler's answer to a keyed
    request is not 2xx and nothing is stored under the key, the answer is
    returned as it is and the store is left untouched; a retry under the
    same key reaches the handler again. *)
Theorem failure_is_not_cached
  (now now' : Z) (stamp stamp' : string) (request request' : Request)
  (key : string) (w : World) :
  str_in (method request) keyed_methods = true ->
  str_in (method request') keyed_methods = true ->
  idempotency_key request = Some key ->
  idempotency_key request' = Some key ->
  validate_idempotency_key uuid_accepts (Some key) = true ->
  Redis.keys (redis w) !! cache_key key = None ->
  ~ successful (app request) ->
  dispatch uuid_accepts app ttl_seconds now stamp request w
  = (app request, mkWorld (redis w) (handled w ++ [request])%list)
  /\ handled (snd (dispatch uuid_accepts app ttl_seconds now' stamp' request'
                     (snd (dispatch uuid_accepts app ttl_seconds now stamp request w))))
     = (handled w ++ [request; request'])%list.
Proof.
  intros M M' K K' V N S.
  destruct (valid_key_nonempty _ _ V) as [c [key' [-> U]]].
  assert (G : forall t,
             Redis.get t (cache_key (String c key')) (redis w) = Py.Return None
             \/ Redis.get t (cache_key (String c key')) (redis w)
                = Py.Raise Py.ConnectionError).
  { intros t. unfold Redis.get. rewrite N.
    destruct (Redis.available (redis w)); auto. }
  assert (E : dispatch uuid_accepts app ttl_seconds now stamp request w
              = (app request, mkWorld (redis w) (handled w ++ [request])%list)).
  { unfold Idempotency.dispatch. fold keyed_methods. rewrite M, K, U.
    cbn [negb]. fold (cache_key (String c key')).
    destruct (G now) as [-> | ->]; unfold call_next; cbn [redis handled];
      now rewrite (unsuccessful_check _ S). }
  split; [exact E|]. rewrite E. cbn [snd].
  unfold Idempotency.dispatch. fold keyed_methods. rewrite M', K', U.
  cbn [negb redis]. fold (cache_key (String c key')).
  destruct (G now') as [-> | ->]; unfold call_next; cbn [redis handled];
    rewrite <- app_assoc; cbn [List.app];
    (destruct ((200 <=? status_code (app request'))%Z
               && (status_code (app request') <? 300)%Z); [|reflexivity]);
    unfold Redis.set; destruct (Redis.available (redis w)); reflexivity.
Qed.


(** X11.  For a POST request the middleware answers on its own, with a 400
    rejection and without touching anything, exactly when
    [validate_idempotency_key] rejects the header; otherwise the answer is a
    stored response or the handler is invoked. *)
Theorem post_rejected_iff_key_invalid
  (now : Z) (stamp : string) (request : Request) (w : World) :
  method request = "POST" ->
  (validate_idempotency_key uuid_accepts (idempotency_key request) = false ->
   (is_error "MISSING_IDEMPOTENCY_KEY" (fst (dispatch uuid_accepts app ttl_seconds now stamp request w))
    \/ is_error "INVALID_IDEMPOTENCY_KEY" (fst (dispatch uuid_accepts app ttl_seconds now stamp request w)))
   /\ snd (dispatch uuid_accepts app ttl_seconds now stamp request w) = w)
  /\ (validate_idempotency_key uuid_accepts (idempotency_key request) = true ->
      (exists key data,
         idempotency_key request = Some key
         /\ Redis.get now (cache_key key) (redis w) = Py.Return (Some data)
         /\ content (fst (dispatch uuid_accepts app ttl_seconds now stamp request w)) = cached_body data
         /\ snd (dispatch uuid_accepts app ttl_seconds now stamp request w) = w)
      \/ handled (snd (dispatch uuid_accepts app ttl_seconds now stamp request w))
         = (handled w ++ [request])%list).
Proof.
  intros M. unfold Idempotency.dispatch. rewrite M.
  cbn [str_in existsb String.eqb Ascii.eqb Bool.eqb negb orb].
  destruct (idempotency_key request) as [[|c key]|];
    cbn [validate_idempotency_key]; split; intros V; try discriminate.
  - split; [left; split; [reflexivity|eexists; reflexivity]|reflexivity].
  - rewrite V. cbn [negb].
    split; [right; split; [reflexivity|eexists; reflexivity]|reflexivity].
  - rewrite V. cbn [negb]. fold (cache_key (String c key)).
    destruct (Redis.get now (cache_key (String c key)) (redis w))
      as [[data|]|e] eqn:G.
    + left. exists (String c key), data. repeat split; auto.
    + right. unfold call_next. cbn [redis handled].
      destruct ((200 <=? status_code (app request))%Z
                && (status_code (app request) <? 300)%Z); [|reflexivity].
      destruct (Redis.set _ _ _ _ _); reflexivity.
    + right. unfold call_next. cbn [redis handled].
      destruct ((200 <=? status_code (app request))%Z
                && (status_code (app request) <? 300)%Z); [|reflexivity].
      destruct (Redis.set _ _ _ _ _); reflexivity.
  - split; [left; split; [reflexivity|eexists; reflexivity]|reflexivity].
Qed.

End Dispatch.

(** A version-4 key, and a handler that fails. *)
Definition v4_key : string := "550e8400-e29b-41d4-a716-446655440000".

Definition failing_app (_ : Request) : Response :=
  mkResponse 500 (ErrorEnvelope "INTERNAL_ERROR" "An internal error occurred") [].

Ltac evaluate := vm_compute; reflexivity.

Lemma ok_app_successful r : successful (ok_app r).
Proof. unfold successful, ok_app. cbn. lia. Qed.

Lemma failing_app_unsuccessful r : ~ successful (failing_app r).
Proof. unfold successful, failing_app. cbn. lia. Qed.

Lemma replay_within_ttl_witness :
  (0 <= 100 < 0 + 3600)%Z
  /\ dispatch UUID_accepts ok_app 3600 100 ""
       (mkRequest "POST" "/payments/initiate" (Some v4_key) "{other}")
       (snd (dispatch UUID_accepts ok_app 3600 0 "" (post (Some v4_key)) empty_world))
     = (rebuilt (ok_app (post (Some v4_key))),
        snd (dispatch UUID_accepts ok_app 3600 0 "" (post (Some v4_key)) empty_world)).
Proof.
  assert (T : (0 <= 100 < 0 + 3600)%Z) by lia.
  split; [exact T|].
  refine (proj2 (proj2 (replay_within_ttl UUID_accepts ok_app 3600 0 100 "" ""
                          (post (Some v4_key))
                          (mkRequest "POST" "/payments/initiate" (Some v4_key) "{other}")
                          v4_key empty_world _ _ eq_refl eq_refl _ _ _
                          (ok_app_successful _) T))); evaluate.
Defined.

Lemma handler_runs_again_after_ttl_witness :
  (0 + 3600 <= 3600)%Z
  /\ handled (snd (dispatch UUID_accepts ok_app 3600 3600 "" (post (Some v4_key))
                     (snd (dispatch UUID_accepts ok_app 3600 0 ""
                             (post (Some v4_key)) empty_world))))
     = [post (Some v4_key); post (Some v4_key)]%list.
Proof.
  assert (T : (0 + 3600 <= 3600)%Z) by lia.
  split; [exact T|].
  refine (proj2 (handler_runs_again_after_ttl UUID_accepts ok_app 3600 0 3600 "" ""
                   (post (Some v4_key)) (post (Some v4_key)) v4_key empty_world
                   _ _ eq_refl eq_refl _ _ _ (ok_app_successful _) T)); evaluate.
Defined.

Lemma failure_is_not_cached_witness :
  ~ successful (failing_app (post (Some v4_key)))
  /\ dispatch UUID_accepts failing_app 3600 0 "" (post (Some v4_key)) empty_world
     = (failing_app (post (Some v4_key)),
        mkWorld (redis empty_world) [post (Some v4_key)]%list).
Proof.
  split; [apply failing_app_unsuccessful|].
  refine (proj1 (failure_is_not_cached UUID_accepts failing_app 3600 0 1 "" ""
                   (post (Some v4_key)) (post (Some v4_key)) v4_key empty_world
                   _ _ eq_refl eq_refl _ _ (failing_app_unsuccessful _))); evaluate.
Defined.


Lemma post_rejected_iff_key_invalid_witness :
  method (post (Some "not-a-uuid")) = "POST"
  /\ validate_idempotency_key UUID_accepts (idempotency_key (post (Some "not-a-uuid")))
     = false
  /\ snd (dispatch UUID_accepts ok_app 3600 0 "" (post (Some "not-a-uuid"))
            empty_world) = empty_world.
Proof.
  assert (M : method (post (Some "not-a-uuid")) = "POST") by reflexivity.
  assert (V : validate_idempotency_key UUID_accepts
                (idempotency_key (post (Some "not-a-uuid"))) = false)
    by (vm_compute; reflexivity).
  split; [exact M|]. split; [exact V|].
  exact (proj2 (proj1 (post_rejected_iff_key_invalid UUID_accepts ok_app 3600 0 ""
                         (post (Some "not-a-uuid")) empty_world M) V)).
Defined.

End IdempotencyExtras.

(* ------------------------------------------------------------------------- *)
(** ** The Redis idempotency helper *)

Module RedisHelpersFacts.
Import stdpp.base stdpp.strings stdpp.gmap.
Import RedisHelpers.



End RedisHelpersFacts.

(* ------------------------------------------------------------------------- *)
(** ** Payment initiation: success, validation, partial failure *)

Module PaymentsExtras.
Import Payments PaymentsFacts.

Section Initiate.
Variable float : string -> option Q.
Variable idempotency_key_unique : bool.

Ltac run :=
  unfold initiate_payment, float_or_raise, insert_returning, publish,
    Py.try_except, Py.bindM, Py.lift, Py.raise, Py.ret;
  rewrite ?Uuidv7Facts.generate_uuidv7_returns.

(** The row [initiate_payment] builds. *)
Definition new_row (request : PaymentInitiateRequest) (K : string)
  (id uetr now : Z) (trace_id : option string) : PaymentRow :=
  mkPaymentRow id uetr (amount request) (currency request)
    (debtor_account request) (creditor_account request)
    (payment_purpose request) (settlement_method request)
    INITIATED now trace_id K.

(** The request passes the two validations. *)
Definition valid (request : PaymentInitiateRequest) : Prop :=
  amount request <> ""
  /\ (exists x, float (amount request) = Some x /\ (0 < x)%Q)
  /\ String.length (currency request) = 3%nat.

(** The insert meets no conflict. *)
Definition insertable (id : Z) (K : string) (w : World) : Prop :=
  database_available w = true
  /\ existsb (fun r => (row_transaction_id r =? id)%Z) (payments w) = false
  /\ (idempotency_key_unique = true ->
      existsb (fun r => String.eqb (row_idempotency_key r) K) (payments w) = false).

Lemma validation_passes request :
  valid request ->
  exists x, (amount request =? "")%string = false
            /\ float (amount request) = Some x /\ Qle_bool x 0 = false
            /\ (String.length (currency request) =? 3)%nat = true.
Proof.
  intros [NE [[x [F P]] L]]. exists x. repeat split.
  - now apply String.eqb_neq.
  - exact F.
  - apply not_true_iff_false. rewrite Qle_bool_iff. now apply Qlt_not_le.
  - now apply Nat.eqb_eq.
Qed.

Lemma insert_succeeds id K w :
  insertable id K w ->
  negb (database_available w) = false
  /\ existsb (fun r => (row_transaction_id r =? id)%Z) (payments w) = false
  /\ idempotency_key_unique
     && existsb (fun r => String.eqb (row_idempotency_key r) K) (payments w)
     = false.
Proof.
  intros [D [F U]]. rewrite D. repeat split; [exact F|].
  destruct idempotency_key_unique; [|reflexivity]. now rewrite U.
Qed.

(** X13.  A valid request whose insert meets no conflict, with database and
    bus up, is answered with the new ids and status INITIATED; exactly one
    row, in status INITIATED and bearing the idempotency key, is appended to
    [payments], and exactly one [payment.initiated] event with the same
    transaction id is published. *)
Theorem initiate_succeeds
  (request : PaymentInitiateRequest) (K : string)
  (timestamp_ms uuid4_a uuid4_b uuid4_uetr now : Z) (trace_id : option string)
  (w : World) :
  valid request ->
  insertable (Uuidv7.uuid_int timestamp_ms uuid4_a uuid4_b) K w ->
  bus_connected w = true ->
  exists id,
    Uuidv7.generate_uuidv7 timestamp_ms uuid4_a uuid4_b = Py.Return id
    /\ fst (initiate_payment float idempotency_key_unique request K timestamp_ms
              uuid4_a uuid4_b uuid4_uetr now trace_id w)
       = Py.Return (mkCTRResponse id uuid4_uetr INITIATED now
                      (Some "Payment initiated successfully"))
    /\ payments (snd (initiate_payment float idempotency_key_unique request K
                        timestamp_ms uuid4_a uuid4_b uuid4_uetr now trace_id w))
       = (payments w ++ [new_row request K id uuid4_uetr now trace_id])%list
    /\ events (snd (initiate_payment float idempotency_key_unique request K
                      timestamp_ms uuid4_a uuid4_b uuid4_uetr now trace_id w))
       = (events w ++ [mkEvent "payment.initiated" id])%list.
Proof.
  intros V I B. destruct (validation_passes request V) as [x [NE [F [P L]]]].
  destruct (insert_succeeds _ _ _ I) as [D [F1 F2]].
  exists (Uuidv7.uuid_int timestamp_ms uuid4_a uuid4_b).
  split; [apply Uuidv7Facts.generate_uuidv7_returns|].
  run. rewrite NE, F. cbv beta iota. rewrite P, L. cbv beta iota.
  cbn [negb row_transaction_id row_idempotency_key]. rewrite D, F1, F2.
  cbv beta iota. cbn [bus_connected]. rewrite B. cbv beta iota.
  repeat split.
Qed.

(** X14.  Validation.  An empty or non-positive amount is rejected with
    VALIDATION_ERROR on field amount, and a currency whose length is not 3
    with VALIDATION_ERROR on field currency (HTTP 400); nothing is inserted
    or published. *)
Theorem initiate_validates
  (request : PaymentInitiateRequest) (K : string)
  (timestamp_ms uuid4_a uuid4_b uuid4_uetr now : Z) (trace_id : option string)
  (w : World) :
  ((amount request = ""
    \/ exists x, float (amount request) = Some x /\ (x <= 0)%Q) ->
   initiate_payment float idempotency_key_unique request K timestamp_ms
     uuid4_a uuid4_b uuid4_uetr now trace_id w
   = (Py.Raise (ValidationError "Amount must be positive" "amount"), w))
  /\ (amount request <> "" ->
      (exists x, float (amount request) = Some x /\ (0 < x)%Q) ->
      String.length (currency request) <> 3%nat ->
      initiate_payment float idempotency_key_unique request K timestamp_ms
        uuid4_a uuid4_b uuid4_uetr now trace_id w
      = (Py.Raise (ValidationError "Currency must be 3-letter ISO code" "currency"),
         w))
  /\ Py.http_response
       (Py.Raise (A := CTRResponse)
          (ValidationError "Amount must be positive" "amount"))
     = Py.mkResponse 400 (Some "VALIDATION_ERROR").
Proof.
  split; [|split; [|reflexivity]].
  - intros [E | [x [F P]]]; run.
    + rewrite E. reflexivity.
    + destruct (String.eqb (amount request) ""); [reflexivity|].
      rewrite F. cbv beta iota. apply Qle_bool_iff in P. rewrite P. reflexivity.
  - intros NE [x [F P]] L. run.
    apply String.eqb_neq in NE. rewrite NE, F. cbv beta iota.
    assert (Q0 : Qle_bool x 0 = false).
    { apply not_true_iff_false. rewrite Qle_bool_iff. now apply Qlt_not_le. }
    rewrite Q0. cbv beta iota. apply Nat.eqb_neq in L. rewrite L. reflexivity.
Qed.

(** X15.  Partial failure.  When the bus is down, a valid request whose
    insert succeeds is answered INTERNAL_ERROR (HTTP 500) although its row
    has been inserted; no event is published. *)
Theorem initiate_persists_before_publish_failure
  (request : PaymentInitiateRequest) (K : string)
  (timestamp_ms uuid4_a uuid4_b uuid4_uetr now : Z) (trace_id : option string)
  (w : World) :
  valid request ->
  insertable (Uuidv7.uuid_int timestamp_ms uuid4_a uuid4_b) K w ->
  bus_connected w = false ->
  fst (initiate_payment float idempotency_key_unique request K timestamp_ms
         uuid4_a uuid4_b uuid4_uetr now trace_id w)
  = Py.Raise (PaymentError "Failed to initiate payment" Py.INTERNAL_ERROR)
  /\ payments (snd (initiate_payment float idempotency_key_unique request K
                      timestamp_ms uuid4_a uuid4_b uuid4_uetr now trace_id w))
     = (payments w
        ++ [new_row request K (Uuidv7.uuid_int timestamp_ms uuid4_a uuid4_b)
              uuid4_uetr now trace_id])%list
  /\ events (snd (initiate_payment float idempotency_key_unique request K
                    timestamp_ms uuid4_a uuid4_b uuid4_uetr now trace_id w))
     = events w.
Proof.
  intros V I B. destruct (validation_passes request V) as [x [NE [F [P L]]]].
  destruct (insert_succeeds _ _ _ I) as [D [F1 F2]].
  run. rewrite NE, F. cbv beta iota. rewrite P, L. cbv beta iota.
  cbn [negb row_transaction_id row_idempotency_key]. rewrite D, F1, F2.
  cbv beta iota. cbn [bus_connected]. rewrite B. cbv beta iota.
  repeat split.
Qed.

End Initiate.

Lemma sample_valid : valid float_decimal (sample_request "100.00").
Proof.
  split; [discriminate|]. split; [|reflexivity].
  exists (10000 # 100)%Q. split; reflexivity.
Qed.

Lemma fresh_insertable id K : insertable true id K fresh_world.
Proof. repeat split. Qed.

Lemma initiate_succeeds_witness :
  valid float_decimal (sample_request "100.00")
  /\ bus_connected fresh_world = true
  /\ exists id,
       fst (initiate_payment float_decimal true (sample_request "100.00")
              sample_key 1700000000000 5 6 7 1700000000 None fresh_world)
       = Py.Return (mkCTRResponse id 7 INITIATED 1700000000
                      (Some "Payment initiated successfully")).
Proof.
  split; [exact sample_valid|]. split; [reflexivity|].
  destruct (initiate_succeeds float_decimal true (sample_request "100.00")
              sample_key 1700000000000 5 6 7 1700000000 None fresh_world
              sample_valid (fresh_insertable _ _) eq_refl) as [id [_ [R _]]].
  exists id. exact R.
Defined.

Lemma initiate_validates_witness :
  (exists x, float_decimal (amount (sample_request "-5")) = Some x /\ (x <= 0)%Q)
  /\ initiate_payment float_decimal true (sample_request "-5") sample_key
       1700000000000 5 6 7 1700000000 None fresh_world
     = (Py.Raise (ValidationError "Amount must be positive" "amount"), fresh_world).
Proof.
  assert (H : exists x, float_decimal (amount (sample_request "-5")) = Some x
                        /\ (x <= 0)%Q).
  { exists (- (5 # 1))%Q. split; [reflexivity|]. vm_compute. discriminate. }
  split; [exact H|].
  exact (proj1 (initiate_validates float_decimal true (sample_request "-5")
                  sample_key 1700000000000 5 6 7 1700000000 None fresh_world)
           (or_intror H)).
Defined.

Definition bus_down_world : World := mkWorld [] true [] false.

Lemma initiate_persists_before_publish_failure_witness :
  valid float_decimal (sample_request "100.00")
  /\ bus_connected bus_down_world = false
  /\ List.length
       (payments
          (snd (initiate_payment float_decimal true (sample_request "100.00")
                  sample_key 1700000000000 5 6 7 1700000000 None bus_down_world)))
     = 1%nat.
Proof.
  split; [exact sample_valid|]. split; [reflexivity|].
  rewrite (proj1 (proj2 (initiate_persists_before_publish_failure float_decimal
                           true (sample_request "100.00") sample_key
                           1700000000000 5 6 7 1700000000 None bus_down_world
                           sample_valid ltac:(repeat split) eq_refl))).
  reflexivity.
Defined.

End PaymentsExtras.

(* ------------------------------------------------------------------------- *)
(** ** Payment cancellation *)

Module PaymentLifecycleFacts.
Import PaymentLifecycle.

(** The row selection of the two statements of [cancel_payment]. *)
Definition has_id (id : Z) (r : StoredPayment) : bool :=
  (transaction_id r =? id)%Z.

(** The row with a given id, as [fetchrow] finds it. *)
Definition row_of (id : Z) (w : World) : option StoredPayment :=
  find (has_id id) (payments w).

(** The [UPDATE] of [cancel_payment] on the table. *)
Definition cancelled_rows (id now : Z) (rows : list StoredPayment)
  : list StoredPayment :=
  map (fun r => if (transaction_id r =? id)%Z
                then set_status Payments.CANCELLED now r else r) rows.

Lemma find_updated id now rows :
  find (has_id id) (cancelled_rows id now rows)
  = option_map (set_status Payments.CANCELLED now) (find (has_id id) rows).
Proof.
  induction rows as [|r rows IH]; [reflexivity|].
  cbn [cancelled_rows map find]. unfold has_id at 1 3.
  destruct (transaction_id r =? id)%Z eqn:E.
  - change (transaction_id (set_status Payments.CANCELLED now r))
      with (transaction_id r). rewrite E. reflexivity.
  - rewrite E. exact IH.
Qed.

Lemma find_other id other now rows :
  other <> id ->
  find (has_id other) (cancelled_rows id now rows) = find (has_id other) rows.
Proof.
  intros N. induction rows as [|r rows IH]; [reflexivity|].
  cbn [cancelled_rows map find].
  destruct (transaction_id r =? id)%Z eqn:E.
  - unfold has_id at 1 3.
    change (transaction_id (set_status Payments.CANCELLED now r))
      with (transaction_id r).
    apply Z.eqb_eq in E. rewrite E.
    destruct (Z.eqb_spec id other) as [->|_]; [now elim N|]. exact IH.
  - destruct (has_id other r); [reflexivity|exact IH].
Qed.

Ltac run :=
  unfold cancel_payment, fetch_status, update_status, publish,
    Py.try_except, Py.bindM, Py.raise, Py.ret.

(** [cancel_payment] past its two checks, bus up. *)
Lemma cancel_runs payment_id now w r :
  database_available w = true ->
  bus_connected w = true ->
  row_of payment_id w = Some r ->
  settled_or_completed (status r) = false ->
  cancel_payment payment_id now w
  = (Py.Return "Payment cancelled successfully",
     mkWorld (cancelled_rows payment_id now (payments w)) true
       (events w ++ [Payments.mkEvent "payment.cancelled" payment_id])%list
       true).
Proof.
  intros D B F S. unfold row_of, has_id in F. run. rewrite D.
  cbv beta iota. rewrite F. cbn [option_map]. rewrite S. cbv beta iota.
  rewrite D. cbv beta iota. cbn [bus_connected]. rewrite B. reflexivity.
Qed.

(** X16.  What [cancel_payment] refuses.  With the database up, an unknown
    id is answered 404 and a SETTLED or COMPLETED payment PAYMENT_CANCELLED
    (HTTP 409); in both cases no row is changed and nothing is published. *)
Theorem cancel_refusals (payment_id now : Z) (w : World) :
  database_available w = true ->
  (row_of payment_id w = None ->
   cancel_payment payment_id now w
   = (Py.Raise (Py.HTTPException 404 "Payment not found"), w))
  /\ (forall r,
        row_of payment_id w = Some r ->
        settled_or_completed (status r) = true ->
        cancel_payment payment_id now w
        = (Py.Raise (Payments.PaymentError "Cannot cancel completed payment"
                       Py.PAYMENT_CANCELLED), w)
        /\ Py.status_code
             (Py.http_response (fst (cancel_payment payment_id now w))) = 409%Z).
Proof.
  intros D. split.
  - intros F. unfold row_of, has_id in F. run. rewrite D. cbv beta iota.
    rewrite F. reflexivity.
  - intros r F S. unfold row_of, has_id in F.
    assert (E : cancel_payment payment_id now w
                = (Py.Raise (Payments.PaymentError
                               "Cannot cancel completed payment"
                               Py.PAYMENT_CANCELLED), w)).
    { run. rewrite D. cbv beta iota. rewrite F. cbn [option_map].
      rewrite S. reflexivity. }
    split; [exact E|]. rewrite E. reflexivity.
Qed.

(** X17.  A payment in any other status is cancelled: the answer is the
    success message, the payment's row then has status CANCELLED and
    [updated_at = now] with its other columns as before, every row with
    another id is as it was, and one [payment.cancelled] event for the id is
    published. *)
Theorem cancel_succeeds (payment_id now : Z) (w : World) (r : StoredPayment) :
  database_available w = true ->
  bus_connected w = true ->
  row_of payment_id w = Some r ->
  settled_or_completed (status r) = false ->
  exists w',
    cancel_payment payment_id now w
    = (Py.Return "Payment cancelled successfully", w')
    /\ row_of payment_id w' = Some (set_status Payments.CANCELLED now r)
    /\ (forall other, other <> payment_id -> row_of other w' = row_of other w)
    /\ List.length (payments w') = List.length (payments w)
    /\ events w'
       = (events w ++ [Payments.mkEvent "payment.cancelled" payment_id])%list.
Proof.
  intros D B F S. eexists. split; [exact (cancel_runs _ now _ _ D B F S)|].
  unfold row_of. cbn [payments events]. repeat split.
  - rewrite find_updated. unfold row_of in F. rewrite F. reflexivity.
  - intros other N. now apply find_other.
  - unfold cancelled_rows. apply length_map.
Qed.

(** X18.  There is no check for an earlier cancellation: cancelling a
    payment that has just been cancelled succeeds again, stamps the row with
    the later time and publishes a second [payment.cancelled] event. *)
Theorem cancel_twice (payment_id now later : Z) (w : World) (r : StoredPayment) :
  database_available w = true ->
  bus_connected w = true ->
  row_of payment_id w = Some r ->
  settled_or_completed (status r) = false ->
  exists w1 w2,
    cancel_payment payment_id now w
    = (Py.Return "Payment cancelled successfully", w1)
    /\ cancel_payment payment_id later w1
       = (Py.Return "Payment cancelled successfully", w2)
    /\ row_of payment_id w2 = Some (set_status Payments.CANCELLED later r)
    /\ events w2
       = (events w ++ [Payments.mkEvent "payment.cancelled" payment_id;
                       Payments.mkEvent "payment.cancelled" payment_id])%list.
Proof.
  intros D B F S.
  pose (w1 := mkWorld (cancelled_rows payment_id now (payments w)) true
                (events w ++ [Payments.mkEvent "payment.cancelled" payment_id])%list
                true).
  assert (F1 : row_of payment_id w1
               = Some (set_status Payments.CANCELLED now r)).
  { unfold row_of, w1. cbn [payments]. rewrite find_updated.
    unfold row_of in F. rewrite F. reflexivity. }
  exists w1. eexists.
  split; [exact (cancel_runs _ now _ _ D B F S)|].
  split; [exact (cancel_runs payment_id later w1 _ eq_refl eq_refl F1 eq_refl)|].
  split.
  - unfold row_of. cbn [payments]. rewrite find_updated.
    unfold row_of in F1. rewrite F1. reflexivity.
  - cbn [events w1]. rewrite <- app_assoc. reflexivity.
Qed.

(** X19.  Partial failure.  When the bus is down, a cancellable payment is
    answered INTERNAL_ERROR (HTTP 500) although its row has been set to
    CANCELLED; no event is published. *)
Theorem cancel_persists_before_publish_failure
  (payment_id now : Z) (w : World) (r : StoredPayment) :
  database_available w = true ->
  bus_connected w = false ->
  row_of payment_id w = Some r ->
  settled_or_completed (status r) = false ->
  exists w',
    cancel_payment payment_id now w
    = (Py.Raise (Payments.PaymentError "Failed to cancel payment"
                   Py.INTERNAL_ERROR), w')
    /\ Py.status_code
         (Py.http_response (fst (cancel_payment payment_id now w))) = 500%Z
    /\ row_of payment_id w' = Some (set_status Payments.CANCELLED now r)
    /\ events w' = events w.
Proof.
  intros D B F S.
  assert (E : cancel_payment payment_id now w
              = (Py.Raise (Payments.PaymentError "Failed to cancel payment"
                             Py.INTERNAL_ERROR),
                 mkWorld (cancelled_rows payment_id now (payments w)) true
                   (events w) false)).
  { unfold row_of, has_id in F. run. rewrite D. cbv beta iota. rewrite F.
    cbn [option_map]. rewrite S. cbv beta iota. rewrite D. cbv beta iota.
    cbn [bus_connected]. rewrite B. reflexivity. }
  eexists. split; [exact E|]. rewrite E. split; [reflexivity|].
  split; [|reflexivity].
  unfold row_of. cbn [payments]. rewrite find_updated.
  unfold row_of in F. rewrite F. reflexivity.
Qed.

(** *** Examples *)

Definition stored (id : Z) (s : Payments.TransactionStatus) : StoredPayment :=
  mkStoredPayment
    (Payments.mkPaymentRow id 7 "100.00" "USD" "ACC-A" "ACC-B" "invoice" "RTGS" s
       1700000000 None "3f2b8c1e-5d47-4a9b-8e16-0c2d4f6a8b10")
    None.

Definition ledger (bus : bool) : World :=
  mkWorld [stored 1 Payments.INITIATED; stored 2 Payments.SETTLED] true [] bus.

Lemma cancel_refusals_witness :
  database_available (ledger true) = true
  /\ row_of 2 (ledger true) = Some (stored 2 Payments.SETTLED)
  /\ cancel_payment 2 1700000100 (ledger true)
     = (Py.Raise (Payments.PaymentError "Cannot cancel completed payment"
                    Py.PAYMENT_CANCELLED), ledger true).
Proof.
  split; [reflexivity|]. split; [reflexivity|].
  exact (proj1 (proj2 (cancel_refusals 2 1700000100 (ledger true) eq_refl)
                  (stored 2 Payments.SETTLED) eq_refl eq_refl)).
Defined.

Lemma cancel_succeeds_witness :
  database_available (ledger true) = true
  /\ bus_connected (ledger true) = true
  /\ row_of 1 (ledger true) = Some (stored 1 Payments.INITIATED)
  /\ exists w',
       cancel_payment 1 1700000100 (ledger true)
       = (Py.Return "Payment cancelled successfully", w')
       /\ row_of 2 w' = row_of 2 (ledger true).
Proof.
  split; [reflexivity|]. split; [reflexivity|]. split; [reflexivity|].
  destruct (cancel_succeeds 1 1700000100 (ledger true)
              (stored 1 Payments.INITIATED) eq_refl eq_refl eq_refl eq_refl)
    as [w' [E [_ [O _]]]].
  exists w'. split; [exact E|]. apply O. discriminate.
Defined.

Lemma cancel_twice_witness :
  database_available (ledger true) = true
  /\ bus_connected (ledger true) = true
  /\ row_of 1 (ledger true) = Some (stored 1 Payments.INITIATED)
  /\ exists w1 w2,
       cancel_payment 1 1700000100 (ledger true)
       = (Py.Return "Payment cancelled successfully", w1)
       /\ cancel_payment 1 1700000200 w1
          = (Py.Return "Payment cancelled successfully", w2)
       /\ List.length (events w2) = 2%nat.
Proof.
  split; [reflexivity|]. split; [reflexivity|]. split; [reflexivity|].
  destruct (cancel_twice 1 1700000100 1700000200 (ledger true)
              (stored 1 Payments.INITIATED) eq_refl eq_refl eq_refl eq_refl)
    as [w1 [w2 [E1 [E2 [_ Ev]]]]].
  exists w1, w2. split; [exact E1|]. split; [exact E2|]. rewrite Ev. reflexivity.
Defined.

Lemma cancel_persists_before_publish_failure_witness :
  database_available (ledger false) = true
  /\ bus_connected (ledger false) = false
  /\ row_of 1 (ledger false) = Some (stored 1 Payments.INITIATED)
  /\ exists w',
       cancel_payment 1 1700000100 (ledger false)
       = (Py.Raise (Payments.PaymentError "Failed to cancel payment"
                      Py.INTERNAL_ERROR), w')
       /\ option_map status (row_of 1 w') = Some Payments.CANCELLED.
Proof.
  split; [reflexivity|]. split; [reflexivity|]. split; [reflexivity|].
  destruct (cancel_persists_before_publish_failure 1 1700000100 (ledger false)
              (stored 1 Payments.INITIATED) eq_refl eq_refl eq_refl eq_refl)
    as [w' [E [_ [R _]]]].
  exists w'. split; [exact E|]. rewrite R. reflexivity.
Defined.

End PaymentLifecycleFacts.

(* ------------------------------------------------------------------------- *)
(** ** UUIDs written and read back *)

Module UuidTextFacts.
Import Idempotency UuidHelpers UuidText.
Local Open Scope Z_scope.

(** *** Strings whose characters all satisfy a test *)

Fixpoint all_chars (P : ascii -> bool) (s : string) : bool :=
  match s with
  | EmptyString => true
  | String c s' => P c && all_chars P s'
  end.

Lemma all_chars_impl (P Q : ascii -> bool) s :
  (forall c, P c = true -> Q c = true) ->
  all_chars P s = true -> all_chars Q s = true.
Proof.
  intros I. induction s as [|c s IH]; [reflexivity|]. cbn [all_chars].
  intros H. apply andb_true_iff in H as [H1 H2].
  now rewrite (I c H1), IH.
Qed.

Lemma all_chars_app P a b :
  all_chars P (a ++ b) = all_chars P a && all_chars P b.
Proof.
  induction a as [|c a IH]; [reflexivity|].
  rewrite SettlementFacts.append_cons_l. cbn [all_chars].
  now rewrite IH, andb_assoc.
Qed.

Lemma all_chars_substring P s : forall n m,
  all_chars P s = true -> all_chars P (substring n m s) = true.
Proof.
  induction s as [|c s IH]; intros n m H.
  - destruct n, m; reflexivity.
  - cbn [all_chars] in H. apply andb_true_iff in H as [H1 H2].
    destruct n as [|n]; [destruct m as [|m]|]; cbn [substring].
    + reflexivity.
    + cbn [all_chars]. now rewrite H1, IH.
    + now apply IH.
Qed.

Lemma all_hex_all_chars s : all_hex s = all_chars is_hex_digit s.
Proof. induction s as [|c s IH]; [reflexivity|]. cbn. now rewrite IH. Qed.

(** *** [replace] and [strip] on strings without the characters sought *)

Definition differs (c d : ascii) : bool := negb (Ascii.eqb c d).

Lemma remove_all_absent c pat s : forall fuel,
  all_chars (differs c) s = true -> remove_all fuel (String c pat) s = s.
Proof.
  induction s as [|d s IH]; intros [|fuel] H; try reflexivity.
  cbn [all_chars] in H. apply andb_true_iff in H as [H1 H2].
  unfold differs in H1. apply negb_true_iff in H1.
  cbn [remove_all strip_prefix]. rewrite H1. now rewrite IH.
Qed.

Lemma lstrip_absent drop s :
  all_chars (fun c => negb (drop c)) s = true -> lstrip drop s = s.
Proof.
  destruct s as [|c s]; [reflexivity|]. cbn [all_chars lstrip]. intros H.
  apply andb_true_iff in H as [H1 _]. apply negb_true_iff in H1.
  now rewrite H1.
Qed.

Lemma rstrip_absent drop s :
  all_chars (fun c => negb (drop c)) s = true -> rstrip drop s = s.
Proof.
  induction s as [|c s IH]; [reflexivity|]. cbn [all_chars rstrip]. intros H.
  apply andb_true_iff in H as [H1 H2]. apply negb_true_iff in H1.
  rewrite (IH H2). destruct s; [now rewrite H1|reflexivity].
Qed.

(** The characters of [s] other than [c]. *)
Fixpoint drop_char (c : ascii) (s : string) : string :=
  match s with
  | EmptyString => EmptyString
  | String d s' =>
      if Ascii.eqb c d then drop_char c s' else String d (drop_char c s')
  end.

Lemma remove_all_char c s : forall fuel,
  (String.length s < fuel)%nat ->
  remove_all fuel (String c "") s = drop_char c s.
Proof.
  induction s as [|d s IH]; intros [|fuel] H; try reflexivity;
    cbn [String.length] in H; try lia.
  cbn [remove_all strip_prefix drop_char].
  destruct (Ascii.eqb c d); rewrite IH by lia; reflexivity.
Qed.

Lemma drop_char_app c a b :
  drop_char c (a ++ b) = (drop_char c a ++ drop_char c b)%string.
Proof.
  induction a as [|d a IH]; [reflexivity|].
  rewrite SettlementFacts.append_cons_l. cbn [drop_char].
  destruct (Ascii.eqb c d); [exact IH|].
  now rewrite SettlementFacts.append_cons_l, IH.
Qed.

Lemma drop_char_absent c s :
  all_chars (differs c) s = true -> drop_char c s = s.
Proof.
  induction s as [|d s IH]; [reflexivity|]. cbn [all_chars drop_char].
  intros H. apply andb_true_iff in H as [H1 H2].
  unfold differs in H1. apply negb_true_iff in H1. now rewrite H1, IH.
Qed.

(** *** The digits [%x] writes *)

(** [0-9a-f] *)
Definition lower_hex_char (c : ascii) : bool :=
  let n := nat_of_ascii c in
  ((48 <=? n) && (n <=? 57) || (97 <=? n) && (n <=? 102))%nat.

(** The characters of [str]: a digit or a hyphen. *)
Definition text_char (c : ascii) : bool :=
  lower_hex_char c || Ascii.eqb "-" c.

Ltac each_digit d :=
  destruct d as [|d|d]; try lia; try reflexivity;
  repeat (destruct d as [d|d|]; try lia; try reflexivity).

Lemma hex_digit_value_digit d :
  0 <= d < 16 -> hex_digit_value (hex_digit d) = d.
Proof. intros H. each_digit d. Qed.

Lemma lower_hex_digit d : 0 <= d < 16 -> lower_hex_char (hex_digit d) = true.
Proof. intros H. each_digit d. Qed.

Lemma lower_hex_is_hex c : lower_hex_char c = true -> is_hex_digit c = true.
Proof.
  unfold lower_hex_char, is_hex_digit. intros H.
  apply orb_true_iff in H as [H|H]; rewrite H; rewrite ?orb_true_r; reflexivity.
Qed.

Lemma lower_hex_differs (c d : ascii) :
  lower_hex_char c = false -> lower_hex_char d = true -> differs c d = true.
Proof.
  intros Hc Hd. unfold differs. apply negb_true_iff.
  destruct (Ascii.eqb_spec c d) as [->|_]; [congruence|reflexivity].
Qed.

Lemma text_char_differs (c d : ascii) :
  text_char c = false -> text_char d = true -> differs c d = true.
Proof.
  intros Hc Hd. unfold differs. apply negb_true_iff.
  destruct (Ascii.eqb_spec c d) as [->|_]; [congruence|reflexivity].
Qed.

Lemma text_char_not_brace d : text_char d = true -> negb (is_brace d) = true.
Proof.
  intros Hd. unfold is_brace.
  rewrite negb_orb, andb_true_iff. split.
  - apply (text_char_differs "{" d); [reflexivity|exact Hd].
  - apply (text_char_differs "}" d); [reflexivity|exact Hd].
Qed.

Lemma length_hex_digits width : forall n acc,
  String.length (hex_digits width n acc) = (width + String.length acc)%nat.
Proof.
  induction width as [|w IH]; intros n acc; [reflexivity|].
  cbn [hex_digits]. rewrite IH. cbn [String.length]. lia.
Qed.

Lemma lower_hex_digits width : forall n acc,
  all_chars lower_hex_char acc = true ->
  all_chars lower_hex_char (hex_digits width n acc) = true.
Proof.
  induction width as [|w IH]; intros n acc H; [exact H|].
  cbn [hex_digits]. apply IH. cbn [all_chars]. rewrite H.
  rewrite lower_hex_digit; [reflexivity|]. apply Z.mod_pos_bound. lia.
Qed.

(** [int(_, 16)] reads back what [%x] wrote. *)
Lemma int_16_hex_digits width : forall n acc a,
  int_16 (hex_digits width n acc) a
  = int_16 acc (a * 16 ^ Z.of_nat width + n mod 16 ^ Z.of_nat width).
Proof.
  induction width as [|w IH]; intros n acc a.
  - cbn [hex_digits]. change (16 ^ Z.of_nat 0) with 1.
    rewrite Z.mod_1_r. f_equal. lia.
  - cbn [hex_digits]. rewrite IH. cbn [int_16].
    rewrite hex_digit_value_digit by (apply Z.mod_pos_bound; lia).
    f_equal. rewrite Nat2Z.inj_succ, Z.pow_succ_r by lia.
    assert (P : 0 < 16 ^ Z.of_nat w) by (apply Z.pow_pos_nonneg; lia).
    rewrite (Z.rem_mul_r n 16 (16 ^ Z.of_nat w)) by lia. ring.
Qed.

Lemma int_16_format n : 0 <= n < 2 ^ 128 -> int_16 (format_032x n) 0 = n.
Proof.
  intros H. unfold format_032x. rewrite int_16_hex_digits. cbn [int_16].
  change (16 ^ Z.of_nat 32) with (2 ^ 128). rewrite Z.mod_small by exact H.
  lia.
Qed.

(** *** The groups of [str] *)

Lemma groups_join (hex : string) :
  String.length hex = 32%nat ->
  (substring 0 8 hex ++ substring 8 4 hex ++ substring 12 4 hex
   ++ substring 16 4 hex ++ substring 20 12 hex)%string = hex.
Proof.
  intros H.
  do 32 (destruct hex as [|? hex]; [cbn [String.length] in H; lia|]).
  destruct hex; [reflexivity|cbn [String.length] in H; lia].
Qed.

Lemma str_text n : all_chars text_char (str n) = true.
Proof.
  assert (G : forall i j, all_chars text_char (substring i j (format_032x n)) = true).
  { intros i j. apply all_chars_substring.
    apply (all_chars_impl lower_hex_char).
    - intros c Hc. unfold text_char. now rewrite Hc.
    - now apply lower_hex_digits. }
  unfold str. cbv zeta. rewrite !all_chars_app, !G. reflexivity.
Qed.

Lemma drop_hyphens n : drop_char "-" (str n) = format_032x n.
Proof.
  assert (G : forall i j, drop_char "-" (substring i j (format_032x n))
                          = substring i j (format_032x n)).
  { intros i j. apply drop_char_absent, all_chars_substring.
    apply (all_chars_impl lower_hex_char).
    - intros c Hc. now apply lower_hex_differs.
    - now apply lower_hex_digits. }
  unfold str. cbv zeta. rewrite !drop_char_app, !G.
  change (drop_char "-" "-") with EmptyString.
  rewrite !SettlementFacts.append_nil_l. apply groups_join.
  apply length_hex_digits.
Qed.

(** What [uuid.UUID] makes of the text before reading it. *)
Lemma normalised n :
  str_remove "-"
    (strip_braces (str_remove "uuid:" (str_remove "urn:" (str n))))
  = format_032x n.
Proof.
  pose proof (str_text n) as T.
  assert (U : all_chars (differs "u") (str n) = true).
  { apply (all_chars_impl text_char); [|exact T].
    intros c Hc. now apply text_char_differs. }
  unfold str_remove at 3. rewrite remove_all_absent by exact U.
  unfold str_remove at 2. rewrite remove_all_absent by exact U.
  assert (B : all_chars (fun c => negb (is_brace c)) (str n) = true).
  { apply (all_chars_impl text_char); [|exact T].
    intros c Hc. now apply text_char_not_brace. }
  unfold strip_braces. rewrite (lstrip_absent _ _ B), (rstrip_absent _ _ B).
  unfold str_remove. rewrite remove_all_char by lia. apply drop_hyphens.
Qed.

Lemma UUID_of_hex_str n : 0 <= n < 2 ^ 128 -> UUID_of_hex (str n) = Py.Return n.
Proof.
  intros H. unfold UUID_of_hex. cbv zeta. rewrite normalised.
  unfold format_032x at 1. rewrite length_hex_digits. cbn [String.length].
  rewrite all_hex_all_chars.
  rewrite (all_chars_impl lower_hex_char is_hex_digit _ lower_hex_is_hex)
    by now apply lower_hex_digits.
  cbn [Nat.add Nat.eqb andb]. rewrite int_16_format by exact H.
  unfold Uuidv7.UUID. change (Z.shiftl 1 128) with (2 ^ 128).
  destruct (Z.leb_spec 0 n); [|lia].
  destruct (Z.ltb_spec n (2 ^ 128)); [reflexivity|lia].
Qed.

Lemma UUID_accepts_str n : UUID_accepts (str n) = true.
Proof.
  unfold UUID_accepts. cbv zeta. rewrite normalised.
  unfold format_032x at 1. rewrite length_hex_digits. cbn [String.length].
  rewrite all_hex_all_chars.
  rewrite (all_chars_impl lower_hex_char is_hex_digit _ lower_hex_is_hex)
    by now apply lower_hex_digits.
  reflexivity.
Qed.

Lemma str_nonempty n : exists c s, str n = String c s.
Proof.
  pose proof (length_hex_digits 32 n "") as L. fold (format_032x n) in L.
  unfold str. cbv zeta. destruct (format_032x n) as [|c hex]; [discriminate|].
  cbn [substring]. rewrite SettlementFacts.append_cons_l. eauto.
Qed.

Lemma uuid4_range r : 0 <= r < 2 ^ 128 -> 0 <= uuid4 r < 2 ^ 128.
Proof.
  intros [R0 R1].
  assert (E : Z.land (uuid4 r) (Z.ones 128) = uuid4 r).
  { apply Z.bits_inj'. intros i Hi.
    rewrite Z.land_spec, Z.testbit_ones, UuidHelpersFacts.testbit_uuid4 by lia.
    destruct (Z.leb_spec 0 i); [|lia]. cbn [andb].
    destruct (Z.ltb_spec i 128); [now rewrite andb_true_r|].
    rewrite andb_false_r.
    destruct (Z.leb_spec 62 i), (Z.ltb_spec i 64); try lia.
    destruct (Z.leb_spec 76 i), (Z.ltb_spec i 80); try lia.
    cbn [andb]. symmetry. apply Z.bits_above_log2; [lia|].
    destruct (Z.eq_dec r 0) as [->|N]; [simpl; lia|].
    assert (2 ^ 128 <= 2 ^ i) by (apply Z.pow_le_mono_r; lia).
    apply Z.log2_lt_pow2; lia. }
  rewrite Z.land_ones in E by lia. rewrite <- E.
  apply Z.mod_pos_bound. reflexivity.
Qed.

(** X20.  Round trip through text.  For the [int] of a UUID, [uuid.UUID]
    reads [str] of it back to the same value: the hyphenated lower-case text
    has no [urn:], [uuid:] or brace to strip and its 32 digits are the
    value's. *)
Theorem uuid_text_round_trip (int : Z) :
  0 <= int < 2 ^ 128 ->
  UUID_of_hex (str int) = Py.Return int
  /\ String.length (str int) = 36%nat.
Proof.
  intros H. split; [now apply UUID_of_hex_str|].
  pose proof (length_hex_digits 32 int "") as L. fold (format_032x int) in L.
  unfold str. cbv zeta. remember (format_032x int) as hex eqn:E. clear E.
  do 32 (destruct hex as [|? hex]; [cbn [String.length] in L; lia|]).
  destruct hex; [reflexivity|cbn [String.length] in L; lia].
Qed.

Lemma uuid_text_round_trip_witness :
  0 <= 0x018bcfe5680070058000000000000006 < 2 ^ 128
  /\ UUID_of_hex (str 0x018bcfe5680070058000000000000006)
     = Py.Return 0x018bcfe5680070058000000000000006.
Proof.
  assert (H : 0 <= 0x018bcfe5680070058000000000000006 < 2 ^ 128)
    by (split; vm_compute; [discriminate|reflexivity]).
  split; [exact H|].
  exact (proj1 (uuid_text_round_trip 0x018bcfe5680070058000000000000006 H)).
Defined.

(** X21.  The keys the middleware generates pass its own checks.
    [generate_idempotency_key] always returns; its key is accepted by
    [validate_idempotency_key], is recognised by [is_uuidv7] and is not a
    UETR. *)
Theorem generated_key_is_valid (timestamp_ms uuid4_a uuid4_b : Z) :
  exists key,
    generate_idempotency_key timestamp_ms uuid4_a uuid4_b = Py.Return key
    /\ IdempotencyHelpers.validate_idempotency_key UUID_accepts (Some key) = true
    /\ is_uuidv7 (Str key) = true
    /\ validate_uetr (Str key) = false.
Proof.
  set (u := Uuidv7.uuid_int timestamp_ms uuid4_a uuid4_b).
  assert (R : 0 <= u < 2 ^ 128) by apply Uuidv7Facts.uuid_int_range.
  assert (V : version u = Some 7) by apply UuidHelpersFacts.version_uuid_int.
  exists (str u). split.
  { unfold generate_idempotency_key.
    now rewrite Uuidv7Facts.generate_uuidv7_returns. }
  split.
  { destruct (str_nonempty u) as [c [s E]]. rewrite E.
    cbn [IdempotencyHelpers.validate_idempotency_key]. rewrite <- E.
    apply UUID_accepts_str. }
  unfold is_uuidv7, validate_uetr, as_UUID.
  rewrite (UUID_of_hex_str u R). unfold version_is. rewrite V.
  split; reflexivity.
Qed.

(** X22.  A generated UETR, written as text, passes [validate_uetr] and is
    not taken for a UUIDv7. *)
Theorem generated_uetr_is_valid (random : Z) :
  0 <= random < 2 ^ 128 ->
  validate_uetr (Str (str (generate_uetr random))) = true
  /\ is_uuidv7 (Str (str (generate_uetr random))) = false.
Proof.
  intros H. unfold generate_uetr.
  pose proof (uuid4_range random H) as R.
  unfold validate_uetr, is_uuidv7, as_UUID. rewrite (UUID_of_hex_str _ R).
  unfold version_is. rewrite UuidHelpersFacts.version_uuid4. split; reflexivity.
Qed.

Lemma generated_uetr_is_valid_witness :
  0 <= 12345678901234567890 < 2 ^ 128
  /\ validate_uetr (Str (str (generate_uetr 12345678901234567890))) = true.
Proof.
  assert (H : 0 <= 12345678901234567890 < 2 ^ 128)
    by (split; vm_compute; [discriminate|reflexivity]).
  split; [exact H|].
  exact (proj1 (generated_uetr_is_valid 12345678901234567890 H)).
Defined.

End UuidTextFacts.

(* ------------------------------------------------------------------------- *)
(** ** The risk metrics endpoint and its cache *)

Module RiskEndpointsFacts.
Import stdpp.base stdpp.strings stdpp.gmap.
Import RiskMetrics RiskEndpoints.

Ltac run :=
  unfold get_risk_metrics, cache_get, cache_set, redis_get, redis_set,
    record_risk_metric, Py.try_except, Py.bindM, Py.raise, Py.ret.

Section Endpoint.
Variable sqrt : Q -> Q.

(** The calculation reads the table and the server and writes neither. *)
Lemma calculate_reads_only now w : snd (calculate sqrt now w) = w.
Proof.
  unfold calculate, fetch_quotes, redis_get, Py.bindM, Py.lift.
  destruct (database_available w); [|reflexivity].
  destruct (fetch_recent_quotes (liquidity_quotes w) now); [reflexivity|].
  destruct (Redis.get now "risk:current_mode" (redis w)); reflexivity.
Qed.

(** [get_risk_metrics] on a miss, the calculation returning [m]. *)
Lemma miss_then_store now w m :
  Redis.get now ("cache:" ++ "risk:metrics")%string (redis w) = Py.Return None ->
  fst (calculate sqrt now w) = Py.Return m ->
  get_risk_metrics sqrt now w
  = (Py.Return m,
     mkWorld
       (Redis.mkServer
          (<[("cache:" ++ "risk:metrics")%string
             := Redis.mkEntry (MetricsDict m) (Some (now + 60)%Z)]>
             (Redis.keys (redis w)))
          true)
       (liquidity_quotes w) (database_available w)
       (observed w ++ [risk_score m])%list).
Proof.
  intros G C. pose proof (calculate_reads_only now w) as S.
  run. rewrite G. cbv beta iota.
  destruct (calculate sqrt now w) as [r w2]. cbn [fst snd] in C, S. subst r w2.
  unfold Redis.get in G. unfold Redis.set.
  destruct (Redis.available (redis w)) eqn:A; [|discriminate].
  reflexivity.
Qed.

(** X23.  The metrics are cached for a minute.  On a miss, when the
    calculation returns [m], the endpoint answers [m], observes its risk
    score once and stores it; for the next 60 seconds it answers [m] again
    whatever the quotes table holds and whether or not the database is up,
    and observes nothing. *)
Theorem metrics_cached_for_a_minute
  (now later : Z) (w : World) (m : Metrics)
  (quotes' : list Quote) (database' : bool) :
  Redis.get now ("cache:" ++ "risk:metrics")%string (redis w) = Py.Return None ->
  fst (calculate sqrt now w) = Py.Return m ->
  (now <= later < now + 60)%Z ->
  exists w1,
    get_risk_metrics sqrt now w = (Py.Return m, w1)
    /\ observed w1 = (observed w ++ [risk_score m])%list
    /\ get_risk_metrics sqrt later
         (mkWorld (redis w1) quotes' database' (observed w1))
       = (Py.Return m, mkWorld (redis w1) quotes' database' (observed w1)).
Proof.
  intros G C T. eexists. split; [exact (miss_then_store now w m G C)|].
  split; [reflexivity|]. cbn [redis observed].
  run. cbn [redis]. unfold Redis.get. cbn [Redis.available Redis.keys].
  rewrite lookup_insert_eq. unfold Redis.live.
  cbn [Redis.expires_at Redis.value].
  destruct (Z.ltb_spec later (now + 60)); [reflexivity|lia].
Qed.

(** X24.  Once the minute is over the cached answer is no longer used: the
    endpoint answers with what the calculation gives then. *)
Theorem metrics_recomputed_after_a_minute
  (now later : Z) (w : World) (m fresh : Metrics) :
  Redis.get now ("cache:" ++ "risk:metrics")%string (redis w) = Py.Return None ->
  fst (calculate sqrt now w) = Py.Return m ->
  (now + 60 <= later)%Z ->
  exists w1,
    get_risk_metrics sqrt now w = (Py.Return m, w1)
    /\ (fst (calculate sqrt later w1) = Py.Return fresh ->
        fst (get_risk_metrics sqrt later w1) = Py.Return fresh).
Proof.
  intros G C T. eexists. split; [exact (miss_then_store now w m G C)|].
  intros C'. rewrite (miss_then_store later _ fresh); [reflexivity| |exact C'].
  cbn [redis]. unfold Redis.get. cbn [Redis.available Redis.keys].
  rewrite lookup_insert_eq. unfold Redis.live.
  cbn [Redis.expires_at Redis.value].
  destruct (Z.ltb_spec later (now + 60)); [lia|reflexivity].
Qed.

(** X25.  Every call either answers with metrics or fails with
    RISK_ASSESSMENT_FAILED (HTTP 500); a failed call stores nothing and
    observes nothing. *)
Theorem metrics_failure_leaves_no_trace (now : Z) (w : World) :
  (exists m w', get_risk_metrics sqrt now w = (Py.Return m, w'))
  \/ (get_risk_metrics sqrt now w
      = (Py.Raise (RiskError "Failed to get risk metrics"), w)
      /\ Py.http_response (fst (get_risk_metrics sqrt now w))
         = Py.mkResponse 500 (Some "RISK_ASSESSMENT_FAILED")).
Proof.
  assert (F : forall r : Py.result Metrics * World,
             r = (Py.Raise (RiskError "Failed to get risk metrics"), w) ->
             r = (Py.Raise (RiskError "Failed to get risk metrics"), w)
             /\ Py.http_response (fst r)
                = Py.mkResponse 500 (Some "RISK_ASSESSMENT_FAILED")).
  { intros r ->. split; reflexivity. }
  pose proof (calculate_reads_only now w) as S.
  destruct (Redis.get now ("cache:" ++ "risk:metrics")%string (redis w))
    as [[[m|data]|]|e] eqn:G.
  - left. run. rewrite G. eauto.
  - right. apply F. run. rewrite G. reflexivity.
  - destruct (calculate sqrt now w) as [[m|e] w2] eqn:C; cbn [snd] in S;
      subst w2.
    + left. rewrite (miss_then_store now w m G); [eauto|].
      now rewrite C.
    + right. apply F. run. rewrite G. cbv beta iota. rewrite C. reflexivity.
  - right. apply F. run. rewrite G. reflexivity.
Qed.

(** X26.  When the calculation returns.  With the database up it returns
    unless there is a quote of the last hour and either the server does not
    answer or the cached mode is none of Low, Medium, High; with no such
    quote the mode is not read at all. *)
Theorem calculation_returns_iff (now : Z) (w : World) :
  database_available w = true ->
  ((exists m, fst (calculate sqrt now w) = Py.Return m)
   <-> fetch_recent_quotes (liquidity_quotes w) now = []
       \/ exists data mode,
            Redis.get now "risk:current_mode" (redis w) = Py.Return data
            /\ mode_of (option_map mode_data data) mode).
Proof.
  intros D. unfold calculate, fetch_quotes, redis_get, Py.bindM, Py.lift.
  rewrite D.
  destruct (fetch_recent_quotes (liquidity_quotes w) now) as [|q qs] eqn:RQ.
  { split; [now left|]. intros _. eexists. reflexivity. }
  destruct (Redis.get now "risk:current_mode" (redis w)) as [data|e] eqn:G.
  - cbn [fst]. split.
    + intros [m R]. right. exists data.
      unfold _calculate_risk_metrics in R.
      destruct data as [[mm|[s|]]|]; cbn [option_map mode_data] in *.
      * exists MEDIUM. split; reflexivity.
      * destruct (RiskMode_of_value s) as [mode|] eqn:V; [|discriminate].
        exists mode. split; [reflexivity|exact V].
      * exists MEDIUM. split; reflexivity.
      * exists MEDIUM. split; reflexivity.
    + intros [E|[data' [mode [E M]]]]; [discriminate|].
      injection E as <-.
      unfold _calculate_risk_metrics.
      rewrite (RiskMetricsFacts.resolve_mode _ mode M).
      eexists. reflexivity.
  - cbn [fst]. split.
    + intros [m R]. discriminate.
    + intros [E|[data' [mode [E M]]]]; discriminate.
Qed.

End Endpoint.

(** *** Examples *)

Definition empty_server : Redis.Server Cached := Redis.mkServer ∅ true.

Definition quiet_world : World := mkWorld empty_server [] true [].

Definition default_metrics : Metrics :=
  mkMetrics (2 # 1000) 1000000 (5 # 100) 80 5000000 25.

Lemma quiet_miss :
  Redis.get 1700000000 ("cache:" ++ "risk:metrics")%string (redis quiet_world)
  = Py.Return None.
Proof. vm_compute. reflexivity. Qed.

Lemma metrics_cached_for_a_minute_witness :
  fst (calculate RiskMetrics.sqrt_16 1700000000 quiet_world)
  = Py.Return default_metrics
  /\ (1700000000 <= 1700000059 < 1700000000 + 60)%Z
  /\ exists w1,
       get_risk_metrics RiskMetrics.sqrt_16 1700000000 quiet_world
       = (Py.Return default_metrics, w1)
       /\ fst (get_risk_metrics RiskMetrics.sqrt_16 1700000059
                 (mkWorld (redis w1) RiskMetricsFacts.two_quotes false
                    (observed w1)))
          = Py.Return default_metrics.
Proof.
  assert (T : (1700000000 <= 1700000059 < 1700000000 + 60)%Z) by lia.
  split; [reflexivity|]. split; [exact T|].
  destruct (metrics_cached_for_a_minute RiskMetrics.sqrt_16 1700000000
              1700000059 quiet_world default_metrics
              RiskMetricsFacts.two_quotes false quiet_miss eq_refl T)
    as [w1 [E [_ R]]].
  exists w1. split; [exact E|]. rewrite R. reflexivity.
Defined.

Lemma metrics_recomputed_after_a_minute_witness :
  fst (calculate RiskMetrics.sqrt_16 1700000000 quiet_world)
  = Py.Return default_metrics
  /\ (1700000000 + 60 <= 1700000060)%Z
  /\ exists w1,
       get_risk_metrics RiskMetrics.sqrt_16 1700000000 quiet_world
       = (Py.Return default_metrics, w1)
       /\ (fst (calculate RiskMetrics.sqrt_16 1700000060 w1)
           = Py.Return default_metrics ->
           fst (get_risk_metrics RiskMetrics.sqrt_16 1700000060 w1)
           = Py.Return default_metrics).
Proof.
  assert (T : (1700000000 + 60 <= 1700000060)%Z) by lia.
  split; [reflexivity|]. split; [exact T|].
  exact (metrics_recomputed_after_a_minute RiskMetrics.sqrt_16 1700000000
           1700000060 quiet_world default_metrics default_metrics
           quiet_miss eq_refl T).
Defined.

Lemma calculation_returns_iff_witness :
  database_available quiet_world = true
  /\ exists m, fst (calculate RiskMetrics.sqrt_16 1700000000 quiet_world)
               = Py.Return m.
Proof.
  split; [reflexivity|].
  apply (proj2 (calculation_returns_iff RiskMetrics.sqrt_16 1700000000
                  quiet_world eq_refl)).
  left. reflexivity.
Defined.

End RiskEndpointsFacts.

(* ------------------------------------------------------------------------- *)
(** ** Liquidity quotes: reading and executing *)

Module LiquidityExtras.
Import stdpp.base stdpp.strings stdpp.gmap.
Import Liquidity LiquidityDetails.

Ltac run :=
  unfold execute_quote, get_quote_details, redis_get, redis_delete, publish,
    Py.try_except, Py.bindM, Py.lift, Py.raise, Py.ret.

(** X27.  As the module stands, no call of [execute_quote] returns, deletes
    a quote or publishes an event: every call fails with 404, 410 or
    EXTERNAL_SERVICE_ERROR (502) and leaves the store and the bus as they
    were. *)
Theorem execute_quote_never_succeeds
  (quote_id : string) (now timestamp_ms uuid4_a uuid4_b : Z) (w : World) :
  exists e,
    execute_quote module_globals quote_id now timestamp_ms uuid4_a uuid4_b w
    = (Py.Raise e, w)
    /\ In (Py.status_code (Py.exception_handler e)) [404; 410; 502]%Z.
Proof.
  run.
  destruct (Redis.get now ("quote:" ++ quote_id)%string (redis w))
    as [[quote|]|e] eqn:G; cbv beta iota.
  - destruct (now >? expires_at quote)%Z.
    + eexists. split; [reflexivity|]. simpl. tauto.
    + cbv beta iota. rewrite LiquidityFacts.generate_uuidv7_not_global.
      eexists. split; [reflexivity|]. simpl. tauto.
  - eexists. split; [reflexivity|]. simpl. tauto.
  - unfold Redis.get in G. destruct (Redis.available (redis w)); [discriminate|].
    injection G as <-. eexists. split; [reflexivity|]. simpl. tauto.
Qed.

(** X28.  [get_quote_details] never changes the store.  A quote stored with
    a TTL is returned until the TTL runs out and answered 404 from then on;
    when the server does not answer the result is EXTERNAL_SERVICE_ERROR. *)
Theorem quote_details_follow_ttl
  (quote_id : string) (quote : LiquidityQuote) (now later ttl : Z)
  (w : World) (redis' : Redis.Server LiquidityQuote) :
  Redis.set now ("quote:" ++ quote_id)%string quote (Some ttl) (redis w)
  = Py.Return redis' ->
  let w' := mkWorld redis' (events w) (bus_connected w) in
  ((later < now + ttl)%Z ->
   get_quote_details quote_id later w' = (Py.Return quote, w'))
  /\ ((now + ttl <= later)%Z ->
      get_quote_details quote_id later w'
      = (Py.Raise (Py.HTTPException 404 "Quote not found or expired"), w'))
  /\ get_quote_details quote_id later
       (mkWorld (Redis.mkServer (Redis.keys redis') false) (events w)
          (bus_connected w))
     = (Py.Raise (ExternalServiceError "Failed to get quote details"),
        mkWorld (Redis.mkServer (Redis.keys redis') false) (events w)
          (bus_connected w)).
Proof.
  intros S w'. unfold Redis.set in S.
  destruct (Redis.available (redis w)) eqn:A; [|discriminate].
  injection S as <-. subst w'. split; [|split].
  - intros T. run. cbn [redis]. unfold Redis.get.
    cbn [Redis.available Redis.keys]. rewrite ?A, lookup_insert_eq.
    unfold Redis.live. cbn [Redis.expires_at Redis.value option_map].
    destruct (Z.ltb_spec later (now + ttl)); [reflexivity|lia].
  - intros T. run. cbn [redis]. unfold Redis.get.
    cbn [Redis.available Redis.keys]. rewrite ?A, lookup_insert_eq.
    unfold Redis.live. cbn [Redis.expires_at Redis.value option_map].
    destruct (Z.ltb_spec later (now + ttl)); [lia|reflexivity].
  - run. reflexivity.
Qed.

Definition stored_quote : Redis.Server LiquidityQuote :=
  Redis.mkServer
    (<[("quote:" ++ "q1")%string
       := Redis.mkEntry LiquidityFacts.sample_quote (Some 1700000030%Z)]> ∅)
    true.

Lemma quote_details_follow_ttl_witness :
  Redis.set 1700000000 ("quote:" ++ "q1")%string LiquidityFacts.sample_quote
    (Some 30%Z) (redis (mkWorld (Redis.mkServer ∅ true) [] true))
  = Py.Return stored_quote
  /\ (1700000029 < 1700000000 + 30)%Z
  /\ get_quote_details "q1" 1700000029 (mkWorld stored_quote [] true)
     = (Py.Return LiquidityFacts.sample_quote, mkWorld stored_quote [] true).
Proof.
  assert (S : Redis.set 1700000000 ("quote:" ++ "q1")%string
                LiquidityFacts.sample_quote (Some 30%Z)
                (redis (mkWorld (Redis.mkServer ∅ true) [] true))
              = Py.Return stored_quote) by reflexivity.
  assert (T : (1700000029 < 1700000000 + 30)%Z) by lia.
  split; [exact S|]. split; [exact T|].
  exact (proj1 (quote_details_follow_ttl "q1" LiquidityFacts.sample_quote
                  1700000000 1700000029 30
                  (mkWorld (Redis.mkServer ∅ true) [] true) stored_quote S) T).
Defined.

End LiquidityExtras.
